(** * Stock-market batch and real-time processing: the Lambda handlers

    A shallow embedding of the four handlers under
    [Scripts/Lambda Functions/With env variables]:

    - [process_batch_files_lambda.py]   (module [BatchProcessor])
    - [process_stock_stream_data.py]    (module [StreamProcessor])
    - [generate_stock_batch_data.py]    (module [BatchGenerator])
    - [write_records_to_stream.py]      (module [StreamProducer])

    Data frames are lists of rows, Python dicts returned to the caller are
    association lists, exceptions are the [Raised] outcome.  What the
    handlers obtain from outside (S3, Athena, Kinesis, the environment, the
    clock, the random generator) is an explicit argument. *)

From Stdlib Require Import ZArith List String Ascii Bool Lia.
From Stdlib Require Import Permutation Sorted DecimalString.
Import ListNotations.

Local Open Scope string_scope.
Local Open Scope Z_scope.

(** ** Python values shared by the handlers *)

(** The values the handlers put in the dicts they return.  [PyFloat z] is the
    float of integral value [z]: the only floats returned are
    [round(x, 0)]. *)
Inductive pyvalue : Type :=
  | PyNone
  | PyStr (s : string)
  | PyInt (z : Z)
  | PyFloat (integral : Z).

(** A dict with string keys, in insertion order. *)
Definition pydict : Type := list (string * pyvalue).

Fixpoint dict_get (d : pydict) (k : string) : option pyvalue :=
  match d with
  | [] => None
  | (k', v) :: d' => if String.eqb k' k then Some v else dict_get d' k
  end.

(** A call either returns or raises (the handlers log and re-raise). *)
Inductive outcome (A : Type) : Type :=
  | Returned (a : A)
  | Raised (exc : string).
Arguments Returned {A} a.
Arguments Raised {A} exc.

(** [datetime.date]. *)
Record date : Type := mkdate { year : Z; month : Z; day : Z }.

Definition date_eqb (a b : date) : bool :=
  (year a =? year b) && (month a =? month b) && (day a =? day b).

(** Equality of nullable columns the way [pd.merge] compares keys: two nulls
    are the same key. *)
Definition option_eqb {A} (eqb : A -> A -> bool) (a b : option A) : bool :=
  match a, b with
  | Some x, Some y => eqb x y
  | None, None => true
  | _, _ => false
  end.

(** [Series.isnull()] / [isna()] on one value. *)
Definition isnull {A} (x : option A) : bool :=
  match x with None => true | Some _ => false end.

(** A cell of a file as the reader hands it over: text, or missing. *)
Definition cell : Type := option string.

(** What [pd.to_numeric(..., errors='coerce')] makes of a cell: [NaN] when
    the coercion fails, a finite number (given by the [int64] it becomes
    under [astype('int64')]), or an infinity, which is not null but which
    [astype('int64')] refuses. *)
Inductive numeric : Type :=
  | NaN
  | Finite (as_int64 : Z)
  | NonFinite.

Definition numeric_isna (x : numeric) : bool :=
  match x with NaN => true | _ => false end.

(** [round(td.total_seconds(), 0)] of a duration in microseconds: Python
    rounds halves to the even neighbour. *)
Definition round_seconds (us : Z) : Z :=
  let q := us / 1000000 in
  let r := us mod 1000000 in
  if 2 * r <? 1000000 then q
  else if 1000000 <? 2 * r then q + 1
  else if Z.even q then q else q + 1.

(** The f-string [f's3://{bucket}/{key}']. *)
Definition s3_uri (bucket key : string) : string :=
  "s3://" ++ bucket ++ "/" ++ key.

(** ** process_batch_files_lambda.py *)

Module BatchProcessor.

(** A row of the uploaded CSV (header [company, date, close_price]). *)
Record csv_row : Type := mkcsv {
  csv_company : cell;
  csv_date : cell;
  csv_close_price : cell
}.

(** A row of [df_new_file] once cleaned. *)
Record batch_row : Type := mkbatch {
  b_company : cell;
  b_date : date;
  b_close_price : Z
}.

(** A row of the Athena table [stock_market.price_by_date]; every column of
    an Athena table is nullable. *)
Record price_by_date_row : Type := mkpersisted {
  company : option string;
  close_date : option date;
  close_price : option Z;
  p_year : option Z
}.

(** A row of [merged_df]: the left columns, then the right ones, null where
    the left row found no partner. *)
Record merged_row : Type := mkmerged {
  m_company : cell;
  m_date : date;
  m_close_price_x : Z;
  m_close_date : option date;
  m_close_price_y : option Z;
  m_p_year : option Z
}.

(** The join condition [left_on=['company','date'],
    right_on=['company','close_date']]. *)
Definition key_match (l : batch_row) (r : price_by_date_row) : bool :=
  option_eqb String.eqb (b_company l) (company r)
  && option_eqb date_eqb (Some (b_date l)) (close_date r).

Definition batch_key (l : batch_row) : option string * option date :=
  (b_company l, Some (b_date l)).

Definition persisted_key (r : price_by_date_row) : option string * option date :=
  (company r, close_date r).

Definition unmatched (l : batch_row) : merged_row :=
  mkmerged (b_company l) (b_date l) (b_close_price l) None None None.

Definition matched (l : batch_row) (r : price_by_date_row) : merged_row :=
  mkmerged (b_company l) (b_date l) (b_close_price l)
           (close_date r) (close_price r) (p_year r).

(** The rows of a left join, [how='left']: left rows in order, each once
    per partner in the right frame, or once with nulls when it has none.
    This is what [pd.merge] returns when it returns; whether it returns is
    decided by [pd_merge] below. *)
Definition merge_left (left : list batch_row) (right : list price_by_date_row)
  : list merged_row :=
  flat_map (fun l =>
              match filter (key_match l) right with
              | [] => [unmatched l]
              | partners => map (matched l) partners
              end) left.

(** The dtypes a [date] key column can have when it reaches [pd.merge]. *)
Inductive dtype : Type :=
  | dtype_object
  | dtype_datetime64.

(** Line 170, [pd.merge(df_new_file, df_athena, how='left', ...)].  Before
    joining, pandas compares the dtypes of the key columns, and skips the
    comparison when exactly one of the two frames has no row.  The
    [close_date] column of the table holds [datetime.date] objects
    ([object]); the [date] column of the cleaned frame is [object] too,
    unless pandas inferred [datetime64] for it (see [date_dtype]), and a
    [datetime64] key against an [object] key raises [ValueError].  Only an
    empty left frame can carry that dtype, so the call raises exactly when
    both frames are empty and the left key is [datetime64]. *)
Definition pd_merge (left_date_dtype : dtype) (left : list batch_row)
                    (right : list price_by_date_row)
  : outcome (list merged_row) :=
  match left_date_dtype, left, right with
  | dtype_datetime64, [], [] => Raised "ValueError"
  | _, _, _ => Returned (merge_left left right)
  end.

(** Line 171:
    [merged_df[merged_df['close_price_y'].isnull()][['company','date','close_price_x']]]. *)
Definition select_new_records (merged_df : list merged_row) : list batch_row :=
  map (fun m => mkbatch (m_company m) (m_date m) (m_close_price_x m))
      (filter (fun m => isnull (m_close_price_y m)) merged_df).

(** Lines 170-171 when the merge returns: the delta of a cleaned batch
    against the table. *)
Definition new_records (df_new_file : list batch_row)
                       (df_athena : list price_by_date_row) : list batch_row :=
  select_new_records (merge_left df_new_file df_athena).

(** Lines 183-187: the columns renamed and the partition column added; this
    is the frame handed to [to_parquet], hence what the table gains. *)
Definition with_p_year (df_new_records : list batch_row) : list price_by_date_row :=
  map (fun d => mkpersisted (b_company d) (Some (b_date d))
                            (Some (b_close_price d)) (Some (year (b_date d))))
      df_new_records.

(** The table after the append. *)
Definition appended (S : list price_by_date_row) (D : list batch_row)
  : list price_by_date_row :=
  (S ++ with_p_year D)%list.

Section Handler.

(** The two pandas coercions.  [pd.to_numeric(x, errors='coerce')] works
    element by element.  [pd.to_datetime(column, errors='coerce').dt.date]
    is given the whole column and a position in it ([None] is [NaT]): the
    format pandas tries on one value may depend on the other values of the
    column. *)
Variable to_numeric : cell -> numeric.
Variable to_datetime_date : list cell -> nat -> option date.

(** Lines 131-139: coerce [close_price], count the nulls, drop them, cast
    the rest to [int64].  The cast raises on an infinity. *)
Definition price_isna (r : csv_row) : bool :=
  numeric_isna (to_numeric (csv_close_price r)).

Fixpoint astype_int64 (df : list csv_row) : outcome (list (csv_row * Z)) :=
  match df with
  | [] => Returned []
  | r :: df' =>
      match to_numeric (csv_close_price r) with
      | Finite z =>
          match astype_int64 df' with
          | Returned rest => Returned ((r, z) :: rest)
          | Raised e => Raised e
          end
      | _ => Raised "IntCastingNaNError"
      end
  end.

(** Lines 148-153: coerce the [date] column of the rows that are left,
    count the nulls, drop them. *)
Definition coerce_date (df : list (csv_row * Z))
  : list (csv_row * Z * option date) :=
  let column := map (fun r => csv_date (fst r)) df in
  map (fun ir => (snd ir, to_datetime_date column (fst ir)))
      (combine (seq 0 (List.length df)) df).

Definition date_isna (r : csv_row * Z * option date) : bool :=
  isnull (snd r).

Fixpoint dropna_date (df : list (csv_row * Z * option date))
  : list batch_row :=
  match df with
  | [] => []
  | (r, z, Some d) :: df' => mkbatch (csv_company r) d z :: dropna_date df'
  | (_, None) :: df' => dropna_date df'
  end.

(** The dtype of the [date] column after line 148.  [.dt.date] yields an
    array of objects from which pandas builds the new column, inferring its
    dtype: an array with at least one element and nothing but [NaT] in it
    becomes [datetime64[ns]]; an array holding a date, or no element at
    all, stays [object].  The [dropna] of line 153 keeps the dtype. *)
Definition date_dtype (df : list (csv_row * Z * option date)) : dtype :=
  match df with
  | [] => dtype_object
  | _ :: _ => if forallb date_isna df then dtype_datetime64 else dtype_object
  end.

(** The dtype of the [date] column of the cleaned frame of a file (of no
    use when the cast of line 139 raises: the merge is not reached). *)
Definition cleaned_date_dtype (df_new_file : list csv_row) : dtype :=
  match astype_int64 (filter (fun r => negb (price_isna r)) df_new_file) with
  | Raised _ => dtype_object
  | Returned df => date_dtype (coerce_date df)
  end.

(** The cleaning block, lines 125-165: the cleaned frame and
    [bad_records_count]. *)
Definition clean (df_new_file : list csv_row) : outcome (list batch_row * nat) :=
  let bad_records_count := List.length (filter price_isna df_new_file) in
  let df := filter (fun r => negb (price_isna r)) df_new_file in
  match astype_int64 df with
  | Raised e => Raised e
  | Returned df =>
      let df := coerce_date df in
      let bad_records_count :=
        (bad_records_count + List.length (filter date_isna df))%nat in
      Returned (dropna_date df, bad_records_count)
  end.

(** One S3 notification of the event: bucket name and object key. *)
Record s3_record : Type := mks3 { bucket_name : string; object_key : string }.

(** A call of [wr.s3.to_parquet]. *)
Record parquet_write : Type := mkwrite {
  write_path : string;
  write_rows : list price_by_date_row
}.

(** What one invocation finds outside itself.  A read that raises is
    [None]; [clock] gives the successive readings of [datetime.now()], in
    microseconds. *)
Record world : Type := mkworld {
  environ : string -> option string;
  s3_read_csv : string -> option (list csv_row);
  athena_price_by_date : option (list price_by_date_row);
  s3_to_parquet : parquet_write -> bool;
  clock : nat -> Z
}.

(** The result of an invocation and the writes it attempted, oldest
    first. *)
Record run : Type := mkrun {
  result : outcome pydict;
  writes : list parquet_write
}.

Definition summary (status : string) (records_appended : nat) (duration : Z)
  : pydict :=
  [("status", PyStr status);
   ("records_appended", PyInt (Z.of_nat records_appended));
   ("duration_seconds", PyFloat duration)].

Definition process_batch_files_lambda (w : world) (event : list s3_record)
  : run :=
  let start_time := clock w 0 in
  let duration := round_seconds (clock w 1 - start_time) in
  match event with
  | [] => mkrun (Raised "IndexError") []
  | rec :: _ =>
  let path := s3_uri (bucket_name rec) (object_key rec) in
  match environ w "dest_bucket_path" with
  | None => mkrun (Raised "KeyError") []
  | Some dest_bucket_path =>
  match s3_read_csv w path with
  | None => mkrun (Raised "read_csv") []
  | Some df_new_file =>
  let df_new_file_records_count := List.length df_new_file in
  if (df_new_file_records_count =? 0)%nat then
    mkrun (Returned (summary "success with warning" 0 duration)) []
  else
  match athena_price_by_date w with
  | None => mkrun (Raised "read_sql_query") []
  | Some df_athena =>
  let date_column_dtype := cleaned_date_dtype df_new_file in
  match clean df_new_file with
  | Raised e => mkrun (Raised e) []
  | Returned (df_new_file, bad_records_count) =>
  match pd_merge date_column_dtype df_new_file df_athena with
  | Raised e => mkrun (Raised e) []
  | Returned merged_df =>
  let df_new_records := select_new_records merged_df in
  let df_new_records_count := List.length df_new_records in
  if (0 <? df_new_records_count)%nat then
    let wr := mkwrite dest_bucket_path (with_p_year df_new_records) in
    if s3_to_parquet w wr then
      let records_difference :=
        (Z.of_nat df_new_file_records_count - Z.of_nat df_new_records_count) in
      if records_difference =? 0 then
        mkrun (Returned (summary "success" df_new_records_count duration)) [wr]
      else
        mkrun (Returned (summary "success with warning" df_new_records_count
                                 duration)) [wr]
    else mkrun (Raised "to_parquet") [wr]
  else
    mkrun (Returned (summary "success with warning" 0 duration)) []
  end end end end end end.

End Handler.

End BatchProcessor.

(** ** process_stock_stream_data.py *)

Module StreamProcessor.

(** A line of the newline-delimited JSON objects (fields [symbol], [price],
    [produced_at]). *)
Record json_row : Type := mkjson {
  j_symbol : cell;
  j_price : cell;
  j_produced_at : cell
}.

(** A row of [df] once transformed.  A [pd.Timestamp] is its count of
    nanoseconds. *)
Record tick_row : Type := mktick {
  t_symbol : cell;
  t_price : Z;
  t_produced_at : Z;
  t_etl_loading_ts : Z;
  t_p_year : Z
}.

(** A row of the Athena table [stock_market.stream_prices_history]. *)
Record history_row : Type := mkhistory {
  symbol : option string;
  price : option Z;
  produced_at : option Z;
  etl_loading_ts : option Z;
  p_year : option Z
}.

(** A row of the result of [latest_prices_query], and of the frame written
    to the overwrite destination once [etl_loading_ts] is added. *)
Record latest_row : Type := mklatest {
  l_symbol : option string;
  l_price : option Z;
  l_produced_at : option Z
}.

Definition symbol_eq_dec (a b : option string) : {a = b} + {a <> b}.
Proof. decide equality. apply string_dec. Defined.

Definition symbol_eqb (a b : option string) : bool :=
  option_eqb String.eqb a b.

(** [order by produced_at desc] as a relation between a row and a later
    one; Athena puts nulls last. *)
Definition produced_at_ge (a b : history_row) : Prop :=
  match produced_at a, produced_at b with
  | Some x, Some y => y <= x
  | _, None => True
  | None, Some _ => False
  end.

Definition produced_at_geb (a b : history_row) : bool :=
  match produced_at a, produced_at b with
  | Some x, Some y => y <=? x
  | _, None => true
  | None, Some _ => false
  end.

(** The two kinds of [wr.s3.to_parquet] calls. *)
Inductive parquet_write : Type :=
  | Append (path : string) (rows : list tick_row)
  | Overwrite (path : string) (rows : list (latest_row * Z)).

Record s3_file : Type := mkfile { bucket_name : string; object_key : string }.

(** The body of an SQS message after [json.loads]: the keys the handler
    looks at. *)
Record message_body : Type := mkbody {
  Event : option string;
  Records : option (list s3_file)
}.

(** An SQS message; a body that is not JSON is [None]. *)
Record message : Type := mkmessage { body : option message_body }.

Record run : Type := mkrun {
  result : outcome pydict;
  writes : list parquet_write
}.

Definition summary (status : string) (records_appended : nat) (duration : Z)
  : pydict :=
  [("status", PyStr status);
   ("records_appended", PyInt (Z.of_nat records_appended));
   ("duration_seconds", PyFloat duration)].

Section Handler.

(** The pandas coercions ([pd.to_numeric] element by element,
    [pd.to_datetime] on a column and a position in it), the year of a
    timestamp ([.dt.year] in pandas, [year(...)] in Athena), and the order
    in which Athena lays out the rows of one window partition for
    [order by produced_at desc] (rows of equal [produced_at] come in an
    order of the engine's choosing). *)
Variable to_numeric : cell -> numeric.
Variable to_datetime : list cell -> nat -> option Z.
Variable year_of : Z -> Z.
Variable order_by_produced_at_desc : list history_row -> list history_row.

(** [where p_year = year(produced_at)]: a comparison with a null is not
    true. *)
Definition where_p_year (r : history_row) : bool :=
  match p_year r, produced_at r with
  | Some y, Some t => y =? year_of t
  | _, _ => false
  end.

(** The rows the inner query scans. *)
Definition scanned (stream_prices_history : list history_row)
  : list history_row :=
  filter where_p_year stream_prices_history.

(** The window partitions of [partition by symbol]: one per distinct
    symbol, nulls forming one partition. *)
Definition partition_keys (rows : list history_row) : list (option string) :=
  nodup symbol_eq_dec (map symbol rows).

Definition partition_of (s : option string) (rows : list history_row)
  : list history_row :=
  filter (fun r => symbol_eqb (symbol r) s) rows.

(** [row_number() over (partition by symbol order by produced_at desc)
    ranking] on one partition. *)
Definition row_number (part : list history_row) : list (history_row * nat) :=
  combine (order_by_produced_at_desc part) (seq 1 (List.length part)).

(** The subquery [a]. *)
Definition ranked (stream_prices_history : list history_row)
  : list (history_row * nat) :=
  let rows := scanned stream_prices_history in
  flat_map (fun s => row_number (partition_of s rows)) (partition_keys rows).

(** Lines 216-224. *)
Definition latest_prices_query (stream_prices_history : list history_row)
  : list latest_row :=
  map (fun a => mklatest (symbol (fst a)) (price (fst a)) (produced_at (fst a)))
      (filter (fun a => (snd a =? 1)%nat) (ranked stream_prices_history)).

(** Lines 173-198. *)
Definition price_isna (r : json_row) : bool :=
  numeric_isna (to_numeric (j_price r)).

Fixpoint astype_int64 (df : list json_row) : outcome (list (json_row * Z)) :=
  match df with
  | [] => Returned []
  | r :: df' =>
      match to_numeric (j_price r) with
      | Finite z =>
          match astype_int64 df' with
          | Returned rest => Returned ((r, z) :: rest)
          | Raised e => Raised e
          end
      | _ => Raised "IntCastingNaNError"
      end
  end.

Definition coerce_produced_at (df : list (json_row * Z))
  : list (json_row * Z * option Z) :=
  let column := map (fun r => j_produced_at (fst r)) df in
  map (fun ir => (snd ir, to_datetime column (fst ir)))
      (combine (seq 0 (List.length df)) df).

Definition produced_at_isna (r : json_row * Z * option Z) : bool :=
  isnull (snd r).

Fixpoint dropna_produced_at (etl_loading_ts : Z)
                            (df : list (json_row * Z * option Z))
  : list tick_row :=
  match df with
  | [] => []
  | (r, z, Some t) :: df' =>
      mktick (j_symbol r) z t etl_loading_ts (year_of t)
      :: dropna_produced_at etl_loading_ts df'
  | (_, None) :: df' => dropna_produced_at etl_loading_ts df'
  end.

Definition transform (etl_loading_ts : Z) (df : list json_row)
  : outcome (list tick_row * nat) :=
  let bad_records_count := List.length (filter price_isna df) in
  let df := filter (fun r => negb (price_isna r)) df in
  match astype_int64 df with
  | Raised e => Raised e
  | Returned df =>
      let df := coerce_produced_at df in
      let bad_records_count :=
        (bad_records_count + List.length (filter produced_at_isna df))%nat in
      Returned (dropna_produced_at etl_loading_ts df, bad_records_count)
  end.

(** Lines 130-143: the paths of the files the messages announce. *)
Fixpoint collect_paths (messages : list message) : outcome (list string) :=
  match messages with
  | [] => Returned []
  | m :: rest =>
      match body m with
      | None => Raised "JSONDecodeError"
      | Some message_body =>
          if option_eqb String.eqb (Event message_body) (Some "s3:TestEvent")
          then collect_paths rest
          else
            match Records message_body with
            | None => Raised "KeyError"
            | Some files =>
                match collect_paths rest with
                | Raised e => Raised e
                | Returned paths =>
                    Returned
                      (List.app
                         (map (fun f => s3_uri (bucket_name f) (object_key f))
                              files)
                         paths)
                end
            end
      end
  end.

(** What one invocation finds outside itself.  [stream_prices_history] is
    the table [stock_market.stream_prices_history] as Athena reads it when
    the query of line 227 runs, that is after the append given as argument.
    The handler does not tie the table to [dest_bucket_path]: whether the
    rows just appended are among those Athena scans is a matter of the
    deployment (the location of the table, its registered partitions), not
    of the code. *)
Record world : Type := mkworld {
  environ : string -> option string;
  athena_tables_exist : bool;
  s3_read_json : list string -> option (list json_row);
  stream_prices_history : parquet_write -> list history_row;
  athena_query_ok : bool;
  s3_to_parquet : parquet_write -> bool;
  clock : nat -> Z
}.

(** The row of the table that an appended row becomes, where the table
    reads the files of the destination. *)
Definition to_history (r : tick_row) : history_row :=
  mkhistory (t_symbol r) (Some (t_price r)) (Some (t_produced_at r))
            (Some (t_etl_loading_ts r)) (Some (t_p_year r)).

Definition process_stock_stream_data (w : world) (event : list message)
  : run :=
  let start_time := clock w 0 in
  match environ w "dest_bucket_path_overwrite" with
  | None => mkrun (Raised "UnboundLocalError") []
  | Some dest_bucket_path_overwrite =>
  match environ w "dest_bucket_path" with
  | None => mkrun (Raised "UnboundLocalError") []
  | Some dest_bucket_path =>
  if negb (athena_tables_exist w) then mkrun (Raised "read_sql_query") []
  else
  let messages := event in
  match messages with
  | [] => mkrun (Returned [("status", PyStr "no_messages")]) []
  | _ :: _ =>
  match collect_paths messages with
  | Raised e => mkrun (Raised e) []
  | Returned paths =>
  match s3_read_json w paths with
  | None => mkrun (Raised "read_json") []
  | Some df =>
  if (List.length df =? 0)%nat then
    mkrun (Returned (summary "success with warning" 0
                             (round_seconds (clock w 1 - start_time)))) []
  else
  let etl_loading_ts := clock w 1 in
  match transform etl_loading_ts df with
  | Raised e => mkrun (Raised e) []
  | Returned (df, bad_records_count) =>
  let append := Append dest_bucket_path df in
  if negb (s3_to_parquet w append) then mkrun (Raised "to_parquet") [append]
  else
  if negb (athena_query_ok w) then mkrun (Raised "read_sql_query") [append]
  else
  let df_athena :=
    map (fun r => (r, etl_loading_ts))
        (latest_prices_query (stream_prices_history w append)) in
  let overwrite := Overwrite dest_bucket_path_overwrite df_athena in
  if negb (s3_to_parquet w overwrite)
  then mkrun (Raised "to_parquet") [append; overwrite]
  else
  let duration := round_seconds (clock w 2 - start_time) in
  if (bad_records_count =? 0)%nat then
    mkrun (Returned (summary "success" (List.length df) duration))
          [append; overwrite]
  else
    mkrun (Returned (summary "success with warning" (List.length df) duration))
          [append; overwrite]
  end end end end end end.

End Handler.

End StreamProcessor.

(** ** process_stock_stream_data (without SQS).py

    The same processor triggered by the S3 notification itself: the file is
    read first, then the environment and the tables are checked, and the
    transformations, the two writes and the summary follow as in the SQS
    handler. *)

Module StreamProcessorS3.

Import StreamProcessor.

Record s3_record : Type := mks3 { bucket_name : string; object_key : string }.

(** What one invocation finds outside itself; [s3_read_json] is given the
    one path of the notification, and [stream_prices_history] is the table
    as Athena reads it after the append given as argument. *)
Record world : Type := mkworld {
  environ : string -> option string;
  athena_tables_exist : bool;
  s3_read_json : string -> option (list json_row);
  stream_prices_history : parquet_write -> list history_row;
  athena_query_ok : bool;
  s3_to_parquet : parquet_write -> bool;
  clock : nat -> Z
}.

Section Handler.

Variable to_numeric : cell -> numeric.
Variable to_datetime : list cell -> nat -> option Z.
Variable year_of : Z -> Z.
Variable order_by_produced_at_desc : list history_row -> list history_row.

Definition process_stock_stream_data (w : world) (event : list s3_record)
  : run :=
  let start_time := clock w 0 in
  match event with
  | [] => mkrun (Raised "IndexError") []
  | rec :: _ =>
  let path := s3_uri (bucket_name rec) (object_key rec) in
  match s3_read_json w path with
  | None => mkrun (Raised "read_json") []
  | Some df =>
  match environ w "dest_bucket_path_overwrite" with
  | None => mkrun (Raised "UnboundLocalError") []
  | Some dest_bucket_path_overwrite =>
  match environ w "dest_bucket_path" with
  | None => mkrun (Raised "UnboundLocalError") []
  | Some dest_bucket_path =>
  if negb (athena_tables_exist w) then mkrun (Raised "read_sql_query") []
  else
  if (List.length df =? 0)%nat then
    mkrun (Returned (summary "success with warning" 0
                             (round_seconds (clock w 1 - start_time)))) []
  else
  let etl_loading_ts := clock w 1 in
  match transform to_numeric to_datetime year_of etl_loading_ts df with
  | Raised e => mkrun (Raised e) []
  | Returned (df, bad_records_count) =>
  let append := Append dest_bucket_path df in
  if negb (s3_to_parquet w append) then mkrun (Raised "to_parquet") [append]
  else
  if negb (athena_query_ok w) then mkrun (Raised "read_sql_query") [append]
  else
  let df_athena :=
    map (fun r => (r, etl_loading_ts))
        (latest_prices_query year_of order_by_produced_at_desc
           (stream_prices_history w append)) in
  let overwrite := Overwrite dest_bucket_path_overwrite df_athena in
  if negb (s3_to_parquet w overwrite)
  then mkrun (Raised "to_parquet") [append; overwrite]
  else
  let duration := round_seconds (clock w 2 - start_time) in
  if (bad_records_count =? 0)%nat then
    mkrun (Returned (summary "success" (List.length df) duration))
          [append; overwrite]
  else
    mkrun (Returned (summary "success with warning" (List.length df) duration))
          [append; overwrite]
  end end end end end.

End Handler.

End StreamProcessorS3.

(** ** The calendar, the clock and the random generator of the generators *)

(** [datetime.datetime], to the microsecond. *)
Record datetime : Type := mkdatetime {
  dt_date : date;
  hour : Z;
  minute : Z;
  second : Z;
  microsecond : Z
}.

(** The proleptic Gregorian ordinal of [datetime.py]. *)
Definition _is_leap (y : Z) : bool :=
  (y mod 4 =? 0) && (negb (y mod 100 =? 0) || (y mod 400 =? 0)).

Definition _days_before_year (y : Z) : Z :=
  let y := y - 1 in y * 365 + y / 4 - y / 100 + y / 400.

Definition _DAYS_IN_MONTH : list Z :=
  [-1; 31; 28; 31; 30; 31; 30; 31; 31; 30; 31; 30; 31].

Definition _DAYS_BEFORE_MONTH : list Z :=
  [-1; 0; 31; 59; 90; 120; 151; 181; 212; 243; 273; 304; 334].

Definition _days_before_month (y m : Z) : Z :=
  nth (Z.to_nat m) _DAYS_BEFORE_MONTH 0
  + (if (2 <? m) && _is_leap y then 1 else 0).

Definition _ymd2ord (y m d : Z) : Z :=
  _days_before_year y + _days_before_month y m + d.

Definition _ord2ymd (n : Z) : date :=
  let n := n - 1 in
  let n400 := n / 146097 in
  let n := n mod 146097 in
  let y := n400 * 400 + 1 in
  let n100 := n / 36524 in
  let n := n mod 36524 in
  let n4 := n / 1461 in
  let n := n mod 1461 in
  let n1 := n / 365 in
  let n := n mod 365 in
  let y := y + n100 * 100 + n4 * 4 + n1 in
  if (n1 =? 4) || (n100 =? 4) then mkdate (y - 1) 12 31
  else
    let leapyear := (n1 =? 3) && (negb (n4 =? 24) || (n100 =? 3)) in
    let m := Z.shiftr (n + 50) 5 in
    let preceding :=
      nth (Z.to_nat m) _DAYS_BEFORE_MONTH 0
      + (if (2 <? m) && leapyear then 1 else 0) in
    if n <? preceding then
      let m := m - 1 in
      let preceding :=
        preceding - (nth (Z.to_nat m) _DAYS_IN_MONTH 0
                     + (if (m =? 2) && leapyear then 1 else 0)) in
      mkdate y m (n - preceding + 1)
    else mkdate y m (n - preceding + 1).

Definition toordinal (d : date) : Z := _ymd2ord (year d) (month d) (day d).

(** [d + timedelta(days = n)]. *)
Definition add_days (d : date) (n : Z) : date := _ord2ymd (toordinal d + n).

(** Decimal text of a non-negative integer, padded with zeros on the left
    to [width] characters. *)
Definition str_of_Z (z : Z) : string := NilZero.string_of_int (Z.to_int z).

Fixpoint zeros (n : nat) : string :=
  match n with
  | O => EmptyString
  | S n' => String "0"%char (zeros n')
  end.

Definition zfill (width : nat) (z : Z) : string :=
  let s := str_of_Z z in
  zeros (width - String.length s) ++ s.

(** [strftime] with the three formats the generators use. *)
Definition strftime_Ymd (d : date) : string :=
  zfill 4 (year d) ++ "-" ++ zfill 2 (month d) ++ "-" ++ zfill 2 (day d).

Definition strftime_Ymd_HMS (t : datetime) : string :=
  strftime_Ymd (dt_date t) ++ " " ++ zfill 2 (hour t) ++ ":"
  ++ zfill 2 (minute t) ++ ":" ++ zfill 2 (second t).

Definition strftime_YmdHMS (t : datetime) : string :=
  zfill 4 (year (dt_date t)) ++ zfill 2 (month (dt_date t))
  ++ zfill 2 (day (dt_date t)) ++ zfill 2 (hour t) ++ zfill 2 (minute t)
  ++ zfill 2 (second t).

(** The state the generators thread: the random generator, as the tape of
    its raw draws and how many were taken, and the clock, as its successive
    readings and how many were taken. *)
Record state : Type := mkstate {
  draws : nat -> Z;
  drawn : nat;
  readings : nat -> datetime;
  read : nat
}.

Definition M (A : Type) : Type := state -> outcome A * state.

Definition ret {A} (a : A) : M A := fun st => (Returned a, st).

Definition raise {A} (exc : string) : M A := fun st => (Raised exc, st).

Definition bind {A B} (m : M A) (f : A -> M B) : M B :=
  fun st =>
    match m st with
    | (Returned a, st') => f a st'
    | (Raised e, st') => (Raised e, st')
    end.

Notation "x <- m ;; k" := (bind m (fun x => k))
  (at level 61, m at next level, right associativity).

(** [Random._randbelow(n)] for [0 < n]: a value of [range(n)], one draw. *)
Definition _randbelow (n : Z) : M Z :=
  fun st =>
    (Returned (draws st (drawn st) mod n),
     mkstate (draws st) (S (drawn st)) (readings st) (read st)).

(** [randrange(start, stop)]; [randrange(stop)] is [randrange 0 stop]. *)
Definition randrange (start stop : Z) : M Z :=
  let width := stop - start in
  if 0 <? width then (r <- _randbelow width ;; ret (start + r))
  else raise "ValueError".

(** [datetime.now()] and [datetime.today()]. *)
Definition now : M datetime :=
  fun st =>
    (Returned (readings st (read st)),
     mkstate (draws st) (drawn st) (readings st) (S (read st))).

Fixpoint list_set {A} (i : nat) (x : A) (l : list A) : list A :=
  match l, i with
  | [], _ => []
  | _ :: l', O => x :: l'
  | y :: l', S i' => y :: list_set i' x l'
  end.

(** The loop of [random.sample] over a pool, the branch taken for a
    population of at most 21 elements: [active] is [n - i]. *)
Fixpoint sample_pool {A} (pool : list A) (active : nat) (k : nat)
  : M (list A) :=
  match k with
  | O => ret []
  | S k' =>
      j <- _randbelow (Z.of_nat active) ;;
      match nth_error pool (Z.to_nat j), nth_error pool (active - 1) with
      | Some x, Some y =>
          rest <- sample_pool (list_set (Z.to_nat j) y pool) (active - 1) k' ;;
          ret (x :: rest)
      | _, _ => raise "IndexError"
      end
  end.

Definition sample {A} (population : list A) (k : Z) : M (list A) :=
  let n := List.length population in
  if (0 <=? k) && (k <=? Z.of_nat n)
  then sample_pool population n (Z.to_nat k)
  else raise "ValueError".

(** The reference prices, in the order of the dict literal. *)
Definition companies_price : list (string * Z) :=
  [("NVDA", 143); ("AAPL", 223); ("MSFT", 444); ("AMZN", 234);
   ("GOOGL", 200); ("META", 647); ("TSLA", 407); ("WMT", 95);
   ("JPM", 265); ("V", 330); ("ORCL", 184); ("MA", 490);
   ("XOM", 109); ("NFLX", 978); ("PG", 164); ("SAP", 276)].

(** [int(current_price * 0.9)] and [int(current_price * 1.1)].  The product
    is a double and [int] truncates it; for every integer price from 0 to
    100000, hence on the whole table, that is the floor of the exact
    product. *)
Definition min_price (current_price : Z) : Z := (9 * current_price) / 10.
Definition max_price (current_price : Z) : Z := (11 * current_price) / 10.

(** ** generate_stock_batch_data.py *)

Module BatchGenerator.

(** Lines 104-105: the bounds of the random date. *)
Definition date_1 : date := mkdate 2022 1 1.
Definition date_2 : date := mkdate 2024 12 31.

(** A row of the data frame exported as CSV. *)
Record csv_row : Type := mkcsv {
  company : string;
  date : string;
  close_price : Z
}.

(** A call of [wr.s3.to_csv]. *)
Record csv_write : Type := mkwrite {
  write_path : string;
  write_df : list csv_row
}.

Record world : Type := mkworld {
  environ : string -> option string;
  s3_to_csv : csv_write -> bool
}.

Record run : Type := mkrun {
  result : outcome pyvalue;
  writes : list csv_write
}.

(** Lines 98-100: the first loop, which gives every company its bounds. *)
Definition price_bounds (table : list (string * Z)) : list (string * (Z * Z)) :=
  map (fun kv => (fst kv, (min_price (snd kv), max_price (snd kv)))) table.

(** Lines 113-122: the second loop. *)
Fixpoint closing_prices (random_date : string)
                        (table : list (string * (Z * Z))) : M (list csv_row) :=
  match table with
  | [] => ret []
  | (k, (lo, hi)) :: table' =>
      p <- randrange lo hi ;;
      rows <- closing_prices random_date table' ;;
      ret (mkcsv k random_date p :: rows)
  end.

(** Lines 104-110. *)
Definition random_date : M string :=
  let days_diff_integer := toordinal date_2 - toordinal date_1 in
  random_days <- randrange 0 days_diff_integer ;;
  ret (strftime_Ymd (add_days date_1 random_days)).

(** Lines 78-132: the data frame. *)
Definition data_frame : M (list csv_row) :=
  d <- random_date ;;
  closing_prices d (price_bounds companies_price).

Definition generate_stock_batch_data (w : world) (st : state) : run :=
  match (df <- data_frame ;; today <- now ;; ret (df, today)) st with
  | (Raised e, _) => mkrun (Raised e) []
  | (Returned (df, today), _) =>
      let file_name := strftime_YmdHMS today in
      match environ w "dest_bucket_path" with
      | None => mkrun (Raised "KeyError") []
      | Some dest_bucket_path =>
          let path := dest_bucket_path ++ file_name ++ ".csv" in
          let wr := mkwrite path df in
          if s3_to_csv w wr then mkrun (Returned PyNone) [wr]
          else mkrun (Raised "to_csv") [wr]
      end
  end.

End BatchGenerator.

(** ** write_records_to_stream.py *)

Module StreamProducer.

(** One generated record: the dict with keys [symbol], [price],
    [produced_at]. *)
Record stock_record : Type := mkrecord {
  symbol : string;
  price : Z;
  produced_at : string
}.

(** Lines 143-159: the loop over the table. *)
Fixpoint stock_data_loop (table : list (string * Z)) : M (list stock_record) :=
  match table with
  | [] => ret []
  | (k, current_price) :: table' =>
      p <- randrange (min_price current_price) (max_price current_price) ;;
      current_timestamp <- now ;;
      rest <- stock_data_loop table' ;;
      ret (mkrecord k p (strftime_Ymd_HMS current_timestamp) :: rest)
  end.

Definition create_stock_market_data : M (list stock_record) :=
  stock_data <- stock_data_loop companies_price ;;
  k <- randrange 5 16 ;;
  sample stock_data k.

Definition dquote : string := String "034"%char EmptyString.
Definition newline : string := String "010"%char EmptyString.

(** [json.dumps(record)]. *)
Definition json_dumps (r : stock_record) : string :=
  "{" ++ dquote ++ "symbol" ++ dquote ++ ": " ++ dquote ++ symbol r ++ dquote
  ++ ", " ++ dquote ++ "price" ++ dquote ++ ": " ++ str_of_Z (price r)
  ++ ", " ++ dquote ++ "produced_at" ++ dquote ++ ": " ++ dquote
  ++ produced_at r ++ dquote ++ "}".

(** An entry of [encoded_records]. *)
Record encoded_record : Type := mkencoded {
  Data : string;
  PartitionKey : string
}.

Definition encode (record : stock_record) : encoded_record :=
  mkencoded (json_dumps record ++ newline) (symbol record).

(** The module-level [stream_name] and the Kinesis client: [put_records]
    answers with its [FailedRecordCount], or raises ([None]). *)
Record world : Type := mkworld {
  stream_name : string;
  put_records : list encoded_record -> string -> option Z
}.

(** The result, what was handed to [put_records], and the state left. *)
Record run : Type := mkrun {
  result : outcome pydict;
  published : list (list encoded_record * string);
  final : state
}.

Definition write_records_to_stream (records : list pydict) (event : pydict)
    (context : option pyvalue) (w : world) (st : state) : run :=
  match create_stock_market_data st with
  | (Raised e, st) => mkrun (Raised e) [] st
  | (Returned records, st) =>
      let encoded_records := map encode records in
      match put_records w encoded_records (stream_name w) with
      | None => mkrun (Raised "put_records") [(encoded_records, stream_name w)] st
      | Some failed =>
          match now st with
          | (_, st) =>
              mkrun (Returned [("FailedRecordCount", PyInt failed);
                               ("SuccessRecordCount",
                                PyInt (Z.of_nat (List.length records)))])
                    [(encoded_records, stream_name w)] st
          end
      end
  end.

End StreamProducer.

(** ** Concrete coercions, a concrete ordering and sample inputs

    An instance of what the handlers take from pandas and Athena, enough to
    run them: decimal digits coerce to a number, [inf] to an infinity,
    [YYYY-MM-DD] and [YYYY-MM-DD HH:MM:SS] texts to a date and a
    timestamp, and every other text fails. *)

Module Examples.

Definition digit_of (c : ascii) : option Z :=
  let n := Z.of_nat (nat_of_ascii c) in
  if (48 <=? n) && (n <=? 57) then Some (n - 48) else None.

Fixpoint parse_digits_from (acc : Z) (s : string) : option Z :=
  match s with
  | EmptyString => Some acc
  | String c s' =>
      match digit_of c with
      | Some d => parse_digits_from (10 * acc + d) s'
      | None => None
      end
  end.

Definition parse_digits (s : string) : option Z :=
  match s with
  | EmptyString => None
  | _ => parse_digits_from 0 s
  end.

Definition to_numeric (c : cell) : numeric :=
  match c with
  | None => NaN
  | Some s =>
      match parse_digits s with
      | Some z => Finite z
      | None => if String.eqb s "inf" then NonFinite else NaN
      end
  end.

Definition parse_date (s : string) : option date :=
  match parse_digits (substring 0 4 s), parse_digits (substring 5 2 s),
        parse_digits (substring 8 2 s) with
  | Some y, Some m, Some d =>
      if String.eqb (substring 4 1 s) "-" && String.eqb (substring 7 1 s) "-"
         && (1 <=? m) && (m <=? 12) && (1 <=? d) && (d <=? 31)
      then Some (mkdate y m d) else None
  | _, _, _ => None
  end.

Definition to_datetime_date (column : list cell) (i : nat) : option date :=
  match nth_error column i with
  | Some (Some s) => if (String.length s =? 10)%nat then parse_date s else None
  | _ => None
  end.

(** Nanoseconds since 1970-01-01, whose ordinal is 719163. *)
Definition to_datetime (column : list cell) (i : nat) : option Z :=
  match nth_error column i with
  | Some (Some s) =>
      if (String.length s =? 19)%nat then
        match parse_date (substring 0 10 s), parse_digits (substring 11 2 s),
              parse_digits (substring 14 2 s), parse_digits (substring 17 2 s)
        with
        | Some d, Some h, Some mi, Some sec =>
            Some ((((toordinal d - 719163) * 86400 + h * 3600 + mi * 60 + sec))
                  * 1000000000)
        | _, _, _, _ => None
        end
      else None
  | _ => None
  end.

Definition year_of (t : Z) : Z :=
  year (_ord2ymd (t / 86400000000000 + 719163)).

(** A stable insertion sort for [order by produced_at desc]. *)
Fixpoint insert_desc (r : StreamProcessor.history_row)
                     (l : list StreamProcessor.history_row)
  : list StreamProcessor.history_row :=
  match l with
  | [] => [r]
  | x :: l' =>
      if StreamProcessor.produced_at_geb x r then x :: insert_desc r l'
      else r :: l
  end.

Fixpoint order_by_produced_at_desc (l : list StreamProcessor.history_row)
  : list StreamProcessor.history_row :=
  match l with
  | [] => []
  | r :: l' => insert_desc r (order_by_produced_at_desc l')
  end.

(** The row [("AAPL", "2024-01-01", 200)] of the spec's scenarios. *)
Definition aapl_csv : BatchProcessor.csv_row :=
  BatchProcessor.mkcsv (Some "AAPL") (Some "2024-01-01") (Some "200").

Definition aapl : BatchProcessor.batch_row :=
  BatchProcessor.mkbatch (Some "AAPL") (mkdate 2024 1 1) 200.

Definition aapl_persisted : BatchProcessor.price_by_date_row :=
  BatchProcessor.mkpersisted (Some "AAPL") (Some (mkdate 2024 1 1)) (Some 200)
                             (Some 2024).

(** The same key in the table, with a null price. *)
Definition aapl_null_price : BatchProcessor.price_by_date_row :=
  BatchProcessor.mkpersisted (Some "AAPL") (Some (mkdate 2024 1 1)) None
                             (Some 2024).

(** A row whose price and date both fail to coerce. *)
Definition both_bad_csv : BatchProcessor.csv_row :=
  BatchProcessor.mkcsv (Some "AAPL") (Some "yesterday") (Some "n/a").

(** A row whose price coerces and whose date does not. *)
Definition bad_date_csv : BatchProcessor.csv_row :=
  BatchProcessor.mkcsv (Some "AAPL") (Some "yesterday") (Some "200").

(** A tick that coerces, and one whose price and timestamp both fail. *)
Definition nvda_json : StreamProcessor.json_row :=
  StreamProcessor.mkjson (Some "NVDA") (Some "130")
                         (Some "2025-01-25 10:00:00").

Definition both_bad_json : StreamProcessor.json_row :=
  StreamProcessor.mkjson (Some "NVDA") (Some "n/a") (Some "just now").

Definition batch_world (raw : list BatchProcessor.csv_row)
                       (table : list BatchProcessor.price_by_date_row)
  : BatchProcessor.world :=
  BatchProcessor.mkworld
    (fun k => if String.eqb k "dest_bucket_path"
              then Some "s3://stock/price_by_date/" else None)
    (fun _ => Some raw)
    (Some table)
    (fun _ => true)
    (fun n => Z.of_nat n * 2000000).

Definition batch_event : list BatchProcessor.s3_record :=
  [BatchProcessor.mks3 "stock-staging" "stg_price_by_date/20240101.csv"].

(** A deployment in which [dest_bucket_path] is the location of the history
    table and its partitions are registered: the query finds the rows of
    the table followed by the rows just appended. *)
Definition table_after (table : list StreamProcessor.history_row)
                       (append : StreamProcessor.parquet_write)
  : list StreamProcessor.history_row :=
  match append with
  | StreamProcessor.Append _ rows =>
      (table ++ map StreamProcessor.to_history rows)%list
  | StreamProcessor.Overwrite _ _ => table
  end.

Definition stream_world (history : list StreamProcessor.history_row)
  : StreamProcessor.world :=
  StreamProcessor.mkworld
    (fun k => if String.eqb k "dest_bucket_path"
              then Some "s3://stock/price_by_date_stream/"
              else if String.eqb k "dest_bucket_path_overwrite"
              then Some "s3://stock/latest_stream_prices/"
              else None)
    true
    (fun _ => Some [])
    (table_after history)
    true
    (fun _ => true)
    (fun n => Z.of_nat n * 2000000).

(** Three ticks of 2025 in the history table, and one filed under the
    wrong year. *)
Definition history : list StreamProcessor.history_row :=
  [StreamProcessor.mkhistory (Some "NVDA") (Some 130) (Some 1737799200000000000)
                             (Some 0) (Some 2025);
   StreamProcessor.mkhistory (Some "AAPL") (Some 220) (Some 1737799200000000000)
                             (Some 0) (Some 2025);
   StreamProcessor.mkhistory (Some "NVDA") (Some 141) (Some 1737799260000000000)
                             (Some 0) (Some 2025);
   StreamProcessor.mkhistory (Some "NVDA") (Some 150) (Some 1737799320000000000)
                             (Some 0) (Some 2024)].

(** A clock whose ninth reading falls in the next second, and a random
    tape. *)
Definition ticking_clock (n : nat) : datetime :=
  if (n <? 8)%nat then mkdatetime (mkdate 2025 1 25) 10 0 0 999990
  else mkdatetime (mkdate 2025 1 25) 10 0 1 000010.

Definition tape (n : nat) : Z := Z.of_nat n * 7 + 3.

Definition start : state := mkstate tape 0 ticking_clock 0.

(** A world of the stream processor in which every read and write
    succeeds, the announced files hold [raw], and the history table, which
    reads the files of the destination, held [table] before the
    invocation. *)
Definition stream_world_reading (raw : list StreamProcessor.json_row)
    (table : list StreamProcessor.history_row) : StreamProcessor.world :=
  StreamProcessor.mkworld
    (fun k => if String.eqb k "dest_bucket_path"
              then Some "s3://stock/price_by_date_stream/"
              else if String.eqb k "dest_bucket_path_overwrite"
              then Some "s3://stock/latest_stream_prices/"
              else None)
    true
    (fun _ => Some raw)
    (table_after table)
    true
    (fun _ => true)
    (fun n => Z.of_nat n * 2000000).

(** The same world for the handler without SQS. *)
Definition s3_world_reading (raw : list StreamProcessor.json_row)
    (table : list StreamProcessor.history_row) : StreamProcessorS3.world :=
  StreamProcessorS3.mkworld
    (fun k => if String.eqb k "dest_bucket_path"
              then Some "s3://stock/price_by_date_stream/"
              else if String.eqb k "dest_bucket_path_overwrite"
              then Some "s3://stock/latest_stream_prices/"
              else None)
    true
    (fun _ => Some raw)
    (table_after table)
    true
    (fun _ => true)
    (fun n => Z.of_nat n * 2000000).

(** An SQS message announcing one file, and an S3 test event. *)
Definition one_file_message : StreamProcessor.message :=
  StreamProcessor.mkmessage
    (Some (StreamProcessor.mkbody None
             (Some [StreamProcessor.mkfile "stock-stream" "2025/01/25/ticks"]))).

Definition test_event_message : StreamProcessor.message :=
  StreamProcessor.mkmessage
    (Some (StreamProcessor.mkbody (Some "s3:TestEvent") None)).

(** A clock that stays within one second, with the same random tape. *)
Definition steady_clock (n : nat) : datetime :=
  mkdatetime (mkdate 2025 1 25) 10 0 0 (Z.of_nat n).

Definition steady : state := mkstate tape 0 steady_clock 0.

(** Worlds in which nothing is configured or reachable. *)
Definition bare_batch_world : BatchProcessor.world :=
  BatchProcessor.mkworld (fun _ => None) (fun _ => None) None
                         (fun _ => true) (fun _ => 0).

Definition bare_stream_world : StreamProcessor.world :=
  StreamProcessor.mkworld (fun _ => None) false (fun _ => None) (fun _ => [])
                          false (fun _ => true) (fun _ => 0).

(** The tick of [nvda_json] once transformed at load time [etl]. *)
Definition nvda_tick (etl : Z) : StreamProcessor.tick_row :=
  StreamProcessor.mktick (Some "NVDA") 130 1737799200000000000 etl 2025.

End Examples.

(** ** Vocabulary of the statements *)

(** The keys of the table, and the test that a batch row's key is not among
    the rows of the table. *)
Definition persisted_keys (S : list BatchProcessor.price_by_date_row)
  : list (option string * option date) :=
  map BatchProcessor.persisted_key S.

Definition key_absent (S : list BatchProcessor.price_by_date_row)
                      (r : BatchProcessor.batch_row) : bool :=
  negb (existsb (BatchProcessor.key_match r) S).

(** Every row of the table has a price. *)
Definition prices_not_null (S : list BatchProcessor.price_by_date_row) : Prop :=
  forall s, In s S -> BatchProcessor.close_price s <> None.




(** The columns [symbol, price, produced_at] of a row of the history. *)
Definition project (r : StreamProcessor.history_row)
  : StreamProcessor.latest_row :=
  StreamProcessor.mklatest (StreamProcessor.symbol r) (StreamProcessor.price r)
                           (StreamProcessor.produced_at r).

(** The prices the generators draw for a table of reference prices, as a
    function of the random tape: company number [i] of the loop takes draw
    number [first + i], reduced into the width of its range. *)
Fixpoint prices_from_tape (tape : nat -> Z) (first : nat)
                          (table : list (string * Z)) : list (string * Z) :=
  match table with
  | [] => []
  | (k, current_price) :: table' =>
      (k, min_price current_price
          + tape first mod (max_price current_price - min_price current_price))
      :: prices_from_tape tape (S first) table'
  end.

(** Every range of the table is non-empty. *)
Definition ranges_not_empty (table : list (string * Z)) : bool :=
  forallb (fun kv => min_price (snd kv) <? max_price (snd kv)) table.

(** * Proofs *)

(** ** Lists *)

Lemma filter_none {A} (f : A -> bool) (l : list A) :
  (forall x, In x l -> f x = false) -> filter f l = [].
Proof.
  induction l as [|a l IH]; simpl; intros H; [reflexivity|].
  rewrite (H a (or_introl eq_refl)). apply IH. intros x Hx. apply H. now right.
Qed.

Lemma filter_nil_existsb {A} (f : A -> bool) (l : list A) :
  filter f l = [] -> existsb f l = false.
Proof.
  induction l as [|a l IH]; simpl; [reflexivity|].
  destruct (f a); [discriminate | exact IH].
Qed.

Lemma filter_length_split {A} (p : A -> bool) (l : list A) :
  (List.length (filter p l)
   + List.length (filter (fun x => negb (p x)) l))%nat = List.length l.
Proof.
  induction l as [|a l IH]; simpl; [reflexivity|].
  destruct (p a); simpl; lia.
Qed.



(** ** Keys *)

Lemma date_eqb_eq a b : date_eqb a b = true <-> a = b.
Proof.
  destruct a, b; unfold date_eqb; simpl.
  rewrite !andb_true_iff, !Z.eqb_eq.
  split; [intros [[-> ->] ->]; reflexivity | intros E; inversion E; auto].
Qed.

Lemma option_eqb_eq {A} (eqb : A -> A -> bool) :
  (forall x y, eqb x y = true <-> x = y) ->
  forall a b, option_eqb eqb a b = true <-> a = b.
Proof.
  intros H [x|] [y|]; simpl; try (split; congruence).
  rewrite H. split; congruence.
Qed.

Module BatchFacts.
Import BatchProcessor.

Lemma key_match_iff l r :
  key_match l r = true <-> batch_key l = persisted_key r.
Proof.
  unfold key_match, batch_key, persisted_key.
  rewrite andb_true_iff, (option_eqb_eq String.eqb String.eqb_eq),
    (option_eqb_eq date_eqb date_eqb_eq).
  split; [intros [-> ->]; reflexivity | intros E; inversion E; auto].
Qed.

Lemma key_absent_iff S r :
  key_absent S r = true <-> ~ In (batch_key r) (persisted_keys S).
Proof.
  unfold key_absent, persisted_keys.
  rewrite negb_true_iff, <- not_true_iff_false, existsb_exists, in_map_iff.
  split; intros H [s Hs]; apply H; exists s.
  - destruct Hs as [E Hin]. split; [exact Hin | apply key_match_iff; auto].
  - destruct Hs as [Hin E]. split; [symmetry; apply key_match_iff; auto | exact Hin].
Qed.

Lemma key_match_with_p_year d D :
  In d D -> existsb (key_match d) (with_p_year D) = true.
Proof.
  intros Hin. apply existsb_exists.
  exists (mkpersisted (b_company d) (Some (b_date d)) (Some (b_close_price d))
                      (Some (year (b_date d)))).
  split.
  - unfold with_p_year. apply in_map_iff. exists d. auto.
  - apply key_match_iff. reflexivity.
Qed.

Lemma batch_keys_filter_unique (keep : batch_row -> bool) (B : list batch_row) :
  NoDup (map batch_key B) -> NoDup (map batch_key (filter keep B)).
Proof.
  induction B as [|b B IH]; simpl; intros H; [constructor|].
  apply NoDup_cons_iff in H as [Hfresh Hrest].
  destruct (keep b); simpl; [|auto].
  apply NoDup_cons; [|auto].
  intros Hin. apply Hfresh. apply in_map_iff in Hin as [b' [E Hb']].
  apply filter_In in Hb' as [Hb' _]. rewrite <- E. now apply in_map.
Qed.

Lemma persisted_keys_with_p_year D :
  persisted_keys (with_p_year D) = map batch_key D.
Proof.
  unfold persisted_keys, with_p_year. rewrite map_map. reflexivity.
Qed.

Lemma with_p_year_not_null D : prices_not_null (with_p_year D).
Proof.
  intros s Hs. apply in_map_iff in Hs as [d [<- _]]. discriminate.
Qed.

(** ** The join *)

Lemma partners_not_new l partners :
  (forall r, In r partners -> close_price r <> None) ->
  filter (fun m => isnull (m_close_price_y m)) (map (matched l) partners) = [].
Proof.
  intros H. apply filter_none. intros m Hm.
  apply in_map_iff in Hm as [r [<- Hr]]. simpl.
  specialize (H r Hr). destruct (close_price r); [reflexivity | congruence].
Qed.

Lemma new_records_cons l B S :
  new_records (l :: B) S = (new_records [l] S ++ new_records B S)%list.
Proof.
  unfold new_records, select_new_records, merge_left. simpl.
  rewrite app_nil_r, filter_app, map_app. reflexivity.
Qed.

Lemma new_records_one l S :
  prices_not_null S ->
  new_records [l] S = if key_absent S l then [l] else [].
Proof.
  intros Hnn. unfold new_records, select_new_records, merge_left, key_absent. simpl.
  rewrite app_nil_r.
  destruct (filter (key_match l) S) as [|x xs] eqn:Hf.
  - rewrite (filter_nil_existsb _ _ Hf). simpl. destruct l; reflexivity.
  - assert (Hx : In x (filter (key_match l) S)) by (rewrite Hf; now left).
    apply filter_In in Hx as [Hin Hk].
    assert (He : existsb (key_match l) S = true)
      by (apply existsb_exists; eauto).
    rewrite He. cbv iota.
    change (matched l x :: map (matched l) xs) with (map (matched l) (x :: xs)).
    rewrite (partners_not_new l (x :: xs)); [reflexivity|].
    intros r Hr. apply Hnn.
    assert (Hr' : In r (filter (key_match l) S)) by (rewrite Hf; exact Hr).
    apply filter_In in Hr'. tauto.
Qed.

Lemma new_records_filter B S :
  prices_not_null S -> new_records B S = filter (key_absent S) B.
Proof.
  intros Hnn. induction B as [|l B IH]; [reflexivity|].
  rewrite new_records_cons, IH, (new_records_one l S Hnn). simpl.
  destruct (key_absent S l); reflexivity.
Qed.

Lemma new_records_nil S : new_records [] S = [].
Proof. reflexivity. Qed.

(** ** The delta *)

(** C1. Against a table whose rows all have a price, the delta computed on
    lines 170-172 is the cleaned batch restricted, in order, to the rows
    whose (company, date) key is the key of no row of the table; and no row
    of the delta has the key of a row of the table. *)
Theorem delta_is_rows_with_absent_key
    (B : list batch_row) (S : list price_by_date_row) :
  prices_not_null S ->
  new_records B S = filter (key_absent S) B
  /\ (forall r, key_absent S r = true
                <-> ~ In (batch_key r) (persisted_keys S))
  /\ (forall d s, In d (new_records B S) -> In s S ->
                  batch_key d <> persisted_key s).
Proof.
  intros Hnn. split; [apply new_records_filter; exact Hnn|].
  split; [intros r; apply key_absent_iff|].
  intros d s Hd Hs E.
  rewrite (new_records_filter B S Hnn) in Hd.
  apply filter_In in Hd as [_ Hd]. apply key_absent_iff in Hd.
  apply Hd. rewrite E. unfold persisted_keys. apply in_map. exact Hs.
Qed.

Lemma delta_is_rows_with_absent_key_witness :
  prices_not_null [Examples.aapl_persisted]
  /\ (new_records [Examples.aapl; mkbatch (Some "NVDA") (mkdate 2024 1 1) 130]
                  [Examples.aapl_persisted]
      = filter (key_absent [Examples.aapl_persisted])
               [Examples.aapl; mkbatch (Some "NVDA") (mkdate 2024 1 1) 130]
      /\ (forall r, key_absent [Examples.aapl_persisted] r = true
                    <-> ~ In (batch_key r)
                             (persisted_keys [Examples.aapl_persisted]))
      /\ (forall d s,
             In d (new_records
                     [Examples.aapl; mkbatch (Some "NVDA") (mkdate 2024 1 1) 130]
                     [Examples.aapl_persisted]) ->
             In s [Examples.aapl_persisted] ->
             batch_key d <> persisted_key s)).
Proof.
  split.
  - intros s [<- | []]. discriminate.
  - apply (delta_is_rows_with_absent_key
             [Examples.aapl; mkbatch (Some "NVDA") (mkdate 2024 1 1) 130]
             [Examples.aapl_persisted]).
    intros s [<- | []]. discriminate.
Defined.

(** C2, as stated, fails: when the table holds the key of a batch row with a
    null price, the row is appended by the first run and found new again by
    the second. *)
Lemma second_run_not_empty_on_null_price :
  let D := new_records [Examples.aapl] [Examples.aapl_null_price] in
  D = [Examples.aapl]
  /\ new_records [Examples.aapl] (appended [Examples.aapl_null_price] D) <> [].
Proof. split; [reflexivity | discriminate]. Qed.

(** C2, amended. Against a table whose rows all have a price, a second run
    of the same cleaned batch on the table extended with the first run's
    delta finds nothing to append. *)
Theorem second_run_delta_empty
    (B : list batch_row) (S : list price_by_date_row) :
  prices_not_null S ->
  new_records B (appended S (new_records B S)) = [].
Proof.
  intros Hnn.
  assert (Hnn' : prices_not_null (appended S (new_records B S))).
  { intros s Hs. apply in_app_or in Hs as [Hs | Hs]; [auto|].
    exact (with_p_year_not_null _ s Hs). }
  rewrite (new_records_filter B _ Hnn').
  apply filter_none. intros r Hr. unfold key_absent, appended.
  rewrite existsb_app.
  destruct (existsb (key_match r) S) eqn:He; [reflexivity|].
  rewrite key_match_with_p_year; [reflexivity|].
  rewrite (new_records_filter B S Hnn). apply filter_In. split; [exact Hr|].
  unfold key_absent. rewrite He. reflexivity.
Qed.

Lemma second_run_delta_empty_witness :
  prices_not_null [Examples.aapl_persisted]
  /\ new_records [Examples.aapl; mkbatch (Some "NVDA") (mkdate 2024 1 1) 130]
       (appended [Examples.aapl_persisted]
          (new_records
             [Examples.aapl; mkbatch (Some "NVDA") (mkdate 2024 1 1) 130]
             [Examples.aapl_persisted])) = [].
Proof.
  split.
  - intros s [<- | []]. discriminate.
  - apply (second_run_delta_empty
             [Examples.aapl; mkbatch (Some "NVDA") (mkdate 2024 1 1) 130]
             [Examples.aapl_persisted]).
    intros s [<- | []]. discriminate.
Defined.

(** C6, as stated, fails: a cleaned batch that carries the same new key
    twice has both rows appended, and the table, empty before, then holds
    the key twice. *)
Lemma duplicate_batch_rows_break_uniqueness :
  NoDup (persisted_keys [])
  /\ ~ NoDup (persisted_keys
                (appended [] (new_records [Examples.aapl; Examples.aapl] []))).
Proof.
  split; [constructor|].
  intros H. inversion H as [|? ? Hnotin _]. apply Hnotin. now left.
Qed.

(** C6, amended. When the table has at most one row per key and a price in
    every row, and the cleaned batch has at most one row per key, the table
    extended with the delta still has at most one row per key. *)
Theorem append_keeps_keys_unique
    (B : list batch_row) (S : list price_by_date_row) :
  NoDup (persisted_keys S) ->
  prices_not_null S ->
  NoDup (map batch_key B) ->
  NoDup (persisted_keys (appended S (new_records B S))).
Proof.
  intros HS Hnn HB. unfold appended, persisted_keys.
  rewrite map_app. fold (persisted_keys S).
  fold (persisted_keys (with_p_year (new_records B S))).
  rewrite persisted_keys_with_p_year, (new_records_filter B S Hnn).
  apply NoDup_app; [exact HS | apply batch_keys_filter_unique; exact HB |].
  intros k Hk Hk'. apply in_map_iff in Hk' as [r [<- Hr]].
  apply filter_In in Hr as [_ Hr]. apply key_absent_iff in Hr. auto.
Qed.

Lemma append_keeps_keys_unique_witness :
  NoDup (persisted_keys [Examples.aapl_persisted])
  /\ prices_not_null [Examples.aapl_persisted]
  /\ NoDup (map batch_key
              [Examples.aapl; mkbatch (Some "NVDA") (mkdate 2024 1 1) 130])
  /\ NoDup (persisted_keys
              (appended [Examples.aapl_persisted]
                 (new_records
                    [Examples.aapl; mkbatch (Some "NVDA") (mkdate 2024 1 1) 130]
                    [Examples.aapl_persisted]))).
Proof.
  assert (H1 : NoDup (persisted_keys [Examples.aapl_persisted])).
  { constructor; [intros [] | constructor]. }
  assert (H2 : prices_not_null [Examples.aapl_persisted]).
  { intros s [<- | []]. discriminate. }
  assert (H3 : NoDup (map batch_key
              [Examples.aapl; mkbatch (Some "NVDA") (mkdate 2024 1 1) 130])).
  { constructor; [intros [E | []]; discriminate E|].
    constructor; [intros [] | constructor]. }
  split; [exact H1 | split; [exact H2 | split; [exact H3 |]]].
  exact (append_keeps_keys_unique _ _ H1 H2 H3).
Defined.

End BatchFacts.

(** ** The cleaning block and the handler of process_batch_files_lambda.py *)

Module BatchHandlerFacts.
Import BatchProcessor.

Section Handler.

Variable to_numeric : cell -> numeric.
Variable to_datetime_date : list cell -> nat -> option date.

Local Abbreviation price_isna := (BatchProcessor.price_isna to_numeric).
Local Abbreviation astype_int64 := (BatchProcessor.astype_int64 to_numeric).
Local Abbreviation coerce_date := (BatchProcessor.coerce_date to_datetime_date).
Local Abbreviation clean := (BatchProcessor.clean to_numeric to_datetime_date).
Local Abbreviation process_batch_files_lambda :=
  (BatchProcessor.process_batch_files_lambda to_numeric to_datetime_date).






Lemma clean_nil : clean [] = Returned ([], 0%nat).
Proof. reflexivity. Qed.

(** The merge returns the rows of the join unless both frames are empty and
    the left key column is [datetime64]. *)
Lemma pd_merge_returns dt (B : list batch_row) (S : list price_by_date_row) :
  dt = dtype_object \/ B <> [] \/ S <> [] ->
  pd_merge dt B S = Returned (merge_left B S).
Proof.
  intros H. unfold pd_merge.
  destruct dt; [reflexivity|].
  destruct B as [|b B]; [|reflexivity].
  destruct S as [|s S]; [|reflexivity].
  destruct H as [H | [H | H]]; [discriminate | now destruct H | now destruct H].
Qed.

Lemma pd_merge_inversion dt (B : list batch_row) (S : list price_by_date_row)
    merged_df :
  pd_merge dt B S = Returned merged_df -> merged_df = merge_left B S.
Proof.
  unfold pd_merge.
  destruct dt; [congruence|].
  destruct B as [|b B]; [|congruence].
  destruct S as [|s S]; [discriminate | congruence].
Qed.

Lemma pd_merge_accepted dt (B : list batch_row) (S : list price_by_date_row)
    merged_df :
  pd_merge dt B S = Returned merged_df ->
  dt = dtype_object \/ B <> [] \/ S <> [].
Proof.
  unfold pd_merge.
  destruct dt; [auto|].
  destruct B as [|b B]; [|intros _; right; left; discriminate].
  destruct S as [|s S]; [discriminate | intros _; right; right; discriminate].
Qed.

(** X29. Outside the case in which the merge raises, an empty cleaned batch
    leads to no write and to [records_appended = 0] with status
    [success with warning]: when the environment names the destination, the
    CSV is read, the table is read, the cleaned batch is empty, and the
    table has a row or the [date] column of the cleaned frame is
    [object]. *)
Lemma empty_cleaned_batch_returns_warning
    (w : world) (rec : s3_record) (rest : list s3_record)
    (dest : string) (raw : list csv_row) (bad : nat)
    (S : list price_by_date_row) :
  environ w "dest_bucket_path" = Some dest ->
  s3_read_csv w (s3_uri (bucket_name rec) (object_key rec)) = Some raw ->
  athena_price_by_date w = Some S ->
  clean raw = Returned ([], bad) ->
  S <> []
  \/ BatchProcessor.cleaned_date_dtype to_numeric to_datetime_date raw
     = dtype_object ->
  writes (process_batch_files_lambda w (rec :: rest)) = []
  /\ exists d,
       result (process_batch_files_lambda w (rec :: rest)) = Returned d
       /\ dict_get d "status" = Some (PyStr "success with warning")
       /\ dict_get d "records_appended" = Some (PyInt 0)
       /\ exists seconds, dict_get d "duration_seconds" = Some (PyFloat seconds).
Proof.
  intros Henv Hcsv Hathena Hclean Hkeys.
  unfold BatchProcessor.process_batch_files_lambda.
  rewrite Henv, Hcsv.
  destruct (List.length raw =? 0)%nat.
  - simpl. split; [reflexivity|]. eexists. split; [reflexivity|].
    simpl. eauto.
  - rewrite Hathena, Hclean. cbv zeta.
    rewrite pd_merge_returns by tauto.
    simpl. split; [reflexivity|].
    eexists. split; [reflexivity|]. simpl. eauto.
Qed.

End Handler.

Lemma empty_cleaned_batch_returns_warning_witness :
  let w := Examples.batch_world [Examples.both_bad_csv]
                                [Examples.aapl_persisted] in
  let run := BatchProcessor.process_batch_files_lambda
               Examples.to_numeric Examples.to_datetime_date w
               Examples.batch_event in
  writes run = []
  /\ exists d,
       result run = Returned d
       /\ dict_get d "status" = Some (PyStr "success with warning")
       /\ dict_get d "records_appended" = Some (PyInt 0)
       /\ exists seconds, dict_get d "duration_seconds" = Some (PyFloat seconds).
Proof.
  refine (empty_cleaned_batch_returns_warning
           Examples.to_numeric Examples.to_datetime_date
           (Examples.batch_world [Examples.both_bad_csv]
                                 [Examples.aapl_persisted])
           (mks3 "stock-staging" "stg_price_by_date/20240101.csv") []
           "s3://stock/price_by_date/" [Examples.both_bad_csv] 1%nat
           [Examples.aapl_persisted] _ _ _ _ _).
  - reflexivity.
  - reflexivity.
  - reflexivity.
  - reflexivity.
  - left. discriminate.
Defined.

(** C4. A file whose only row has a price but a date that does not parse,
    processed against an empty table: the cleaned batch is empty, its
    [date] column holds nothing but [NaT] and is [datetime64], and the
    merge of line 170 raises instead of reaching the branch of lines
    226-237.  Against a table with a row the same file gives no write and
    [success with warning] with [records_appended = 0]. *)
Theorem empty_cleaned_batch_raises_on_empty_table :
  let raw := [Examples.bad_date_csv] in
  let handler := BatchProcessor.process_batch_files_lambda
                   Examples.to_numeric Examples.to_datetime_date in
  BatchProcessor.clean Examples.to_numeric Examples.to_datetime_date raw
  = Returned ([], 1%nat)
  /\ handler (Examples.batch_world raw []) Examples.batch_event
     = mkrun (Raised "ValueError") []
  /\ handler (Examples.batch_world raw [Examples.aapl_persisted])
             Examples.batch_event
     = mkrun (Returned (summary "success with warning" 0 2)) [].
Proof. split; [reflexivity | split; reflexivity]. Qed.

End BatchHandlerFacts.

(** ** The transformations of process_stock_stream_data.py *)

Module StreamHandlerFacts.
Import StreamProcessor.

Section Handler.

Variable to_numeric : cell -> numeric.
Variable to_datetime : list cell -> nat -> option Z.
Variable year_of : Z -> Z.

Local Abbreviation price_isna := (StreamProcessor.price_isna to_numeric).
Local Abbreviation astype_int64 := (StreamProcessor.astype_int64 to_numeric).
Local Abbreviation coerce_produced_at :=
  (StreamProcessor.coerce_produced_at to_datetime).
Local Abbreviation dropna_produced_at :=
  (StreamProcessor.dropna_produced_at year_of).
Local Abbreviation transform :=
  (StreamProcessor.transform to_numeric to_datetime year_of).


Lemma coerce_produced_at_length l :
  List.length (coerce_produced_at l) = List.length l.
Proof.
  unfold StreamProcessor.coerce_produced_at.
  rewrite length_map, length_combine, length_seq. lia.
Qed.


Lemma dropna_produced_at_length etl l :
  (List.length (dropna_produced_at etl l)
   + List.length (filter produced_at_isna l))%nat = List.length l.
Proof.
  induction l as [|[[r z] [t|]] l IH]; simpl; lia.
Qed.


End Handler.

End StreamHandlerFacts.

(** ** The count of bad records *)




(** ** The returned dicts *)

(** X1. Every dict the batch processor returns has the three fields. *)
Lemma batch_result_has_three_fields
    (to_numeric : cell -> numeric)
    (to_datetime_date : list cell -> nat -> option date)
    (w : BatchProcessor.world) (event : list BatchProcessor.s3_record)
    (d : pydict) :
  BatchProcessor.result
    (BatchProcessor.process_batch_files_lambda to_numeric to_datetime_date
                                               w event) = Returned d ->
  (dict_get d "status" = Some (PyStr "success")
   \/ dict_get d "status" = Some (PyStr "success with warning"))
  /\ (exists n, dict_get d "records_appended" = Some (PyInt n))
  /\ (exists x, dict_get d "duration_seconds" = Some (PyFloat x)).
Proof.
  unfold BatchProcessor.process_batch_files_lambda.
  repeat match goal with
         | |- context [match ?x with _ => _ end] => destruct x
         end;
    simpl; intros E; inversion E; subst; simpl;
    (split; [auto | split; eexists; reflexivity]).
Qed.

(** X10. Every dict the stream processor returns on a non-empty event has the
    three fields. *)
Lemma stream_result_has_three_fields
    (to_numeric : cell -> numeric)
    (to_datetime : list cell -> nat -> option Z)
    (year_of : Z -> Z)
    (order : list StreamProcessor.history_row
             -> list StreamProcessor.history_row)
    (w : StreamProcessor.world) (event : list StreamProcessor.message)
    (d : pydict) :
  event <> [] ->
  StreamProcessor.result
    (StreamProcessor.process_stock_stream_data to_numeric to_datetime year_of
                                               order w event) = Returned d ->
  (dict_get d "status" = Some (PyStr "success")
   \/ dict_get d "status" = Some (PyStr "success with warning"))
  /\ (exists n, dict_get d "records_appended" = Some (PyInt n))
  /\ (exists x, dict_get d "duration_seconds" = Some (PyFloat x)).
Proof.
  intros Hne. unfold StreamProcessor.process_stock_stream_data.
  destruct event as [|m event]; [congruence|].
  repeat match goal with
         | |- context [match ?x with _ => _ end] => destruct x
         end;
    simpl; intros E; inversion E; subst; simpl;
    (split; [auto | split; eexists; reflexivity]).
Qed.

(** C7 fails on the code: with the environment set, the tables reachable
    and no message in the event, the stream processor returns a dict that
    has a [status] and neither [records_appended] nor [duration_seconds]. *)
Theorem no_messages_result_lacks_fields :
  let run := StreamProcessor.process_stock_stream_data
               Examples.to_numeric Examples.to_datetime Examples.year_of
               Examples.order_by_produced_at_desc
               (Examples.stream_world Examples.history) [] in
  StreamProcessor.result run = Returned [("status", PyStr "no_messages")]
  /\ (forall d, StreamProcessor.result run = Returned d ->
                dict_get d "status" = Some (PyStr "no_messages")
                /\ dict_get d "records_appended" = None
                /\ dict_get d "duration_seconds" = None).
Proof.
  split; [reflexivity|].
  intros d E. vm_compute in E. inversion E; subst. repeat split.
Qed.

(** ** The latest-prices query *)

Lemma filter_flat_map_comm {A B} (f : B -> bool) (g : A -> list B) (l : list A) :
  filter f (flat_map g l) = flat_map (fun x => filter f (g x)) l.
Proof.
  induction l as [|a l IH]; simpl; [reflexivity|].
  rewrite filter_app, IH. reflexivity.
Qed.

Lemma map_flat_map_comm {A B C} (f : B -> C) (g : A -> list B) (l : list A) :
  map f (flat_map g l) = flat_map (fun x => map f (g x)) l.
Proof.
  induction l as [|a l IH]; simpl; [reflexivity|].
  rewrite map_app, IH. reflexivity.
Qed.

Lemma flat_map_pointwise {A B} (g h : A -> list B) (l : list A) :
  (forall x, In x l -> g x = h x) -> flat_map g l = flat_map h l.
Proof.
  induction l as [|a l IH]; simpl; intros H; [reflexivity|].
  rewrite (H a (or_introl eq_refl)), IH; [reflexivity|].
  intros x Hx. apply H. now right.
Qed.

Lemma rank_one_of_combine {A} (l : list A) (n : nat) :
  filter (fun a => (snd a =? 1)%nat) (combine l (seq 1 n))
  = match l, n with
    | x :: _, S _ => [(x, 1%nat)]
    | _, _ => []
    end.
Proof.
  destruct l as [|x l], n as [|n]; simpl; try reflexivity.
  f_equal. apply filter_none. intros [y k] Hin.
  apply in_combine_r in Hin. apply in_seq in Hin. simpl.
  apply Nat.eqb_neq. lia.
Qed.

Module LatestViewFacts.
Import StreamProcessor.

Lemma symbol_eqb_eq a b : symbol_eqb a b = true <-> a = b.
Proof. apply option_eqb_eq. exact String.eqb_eq. Qed.

Lemma produced_at_ge_refl r : produced_at_ge r r.
Proof. unfold produced_at_ge. destruct (produced_at r); [lia | exact I]. Qed.

Lemma produced_at_ge_trans a b c :
  produced_at_ge a b -> produced_at_ge b c -> produced_at_ge a c.
Proof.
  unfold produced_at_ge.
  destruct (produced_at a), (produced_at b), (produced_at c);
    intros; try tauto; lia.
Qed.

Lemma produced_at_geb_true a b :
  produced_at_geb a b = true -> produced_at_ge a b.
Proof.
  unfold produced_at_geb, produced_at_ge.
  destruct (produced_at a), (produced_at b); intros H;
    try discriminate; try exact I. now apply Z.leb_le.
Qed.

Lemma produced_at_geb_false a b :
  produced_at_geb a b = false -> produced_at_ge b a.
Proof.
  unfold produced_at_geb, produced_at_ge.
  destruct (produced_at a), (produced_at b); intros H;
    try discriminate; try exact I. apply Z.leb_gt in H. lia.
Qed.

(** The insertion sort is an admissible ordering. *)
Lemma insert_desc_perm r l : Permutation (Examples.insert_desc r l) (r :: l).
Proof.
  induction l as [|x l IH]; simpl; [reflexivity|].
  destruct (produced_at_geb x r); [|reflexivity].
  rewrite IH. apply perm_swap.
Qed.

Lemma examples_order_perm l :
  Permutation (Examples.order_by_produced_at_desc l) l.
Proof.
  induction l as [|r l IH]; simpl; [reflexivity|].
  rewrite insert_desc_perm. now constructor.
Qed.

Lemma insert_desc_sorted r l :
  StronglySorted produced_at_ge l ->
  StronglySorted produced_at_ge (Examples.insert_desc r l).
Proof.
  induction l as [|x l IH]; simpl; intros Hs.
  - constructor; constructor.
  - inversion Hs as [|? ? Hl Hx]; subst.
    destruct (produced_at_geb x r) eqn:E.
    + constructor; [auto|].
      eapply Permutation_Forall; [symmetry; apply insert_desc_perm|].
      constructor; [now apply produced_at_geb_true | exact Hx].
    + apply produced_at_geb_false in E.
      constructor; [exact Hs|]. constructor; [exact E|].
      eapply Forall_impl; [|exact Hx].
      intros y Hy. eapply produced_at_ge_trans; eauto.
Qed.

Lemma examples_order_sorted l :
  StronglySorted produced_at_ge (Examples.order_by_produced_at_desc l).
Proof.
  induction l as [|r l IH]; simpl; [constructor|].
  now apply insert_desc_sorted.
Qed.

Section Query.

Variable year_of : Z -> Z.
Variable order_by_produced_at_desc : list history_row -> list history_row.

Hypothesis order_perm :
  forall l, Permutation (order_by_produced_at_desc l) l.
Hypothesis order_sorted :
  forall l, StronglySorted produced_at_ge (order_by_produced_at_desc l).

Local Abbreviation scanned := (StreamProcessor.scanned year_of).
Local Abbreviation row_number :=
  (StreamProcessor.row_number order_by_produced_at_desc).
Local Abbreviation latest_prices_query :=
  (StreamProcessor.latest_prices_query year_of order_by_produced_at_desc).

(** The row of rank 1 of a partition is the head of the ordering. *)
Lemma rank_one_of_partition part :
  map (fun a => project (fst a))
      (filter (fun a => (snd a =? 1)%nat) (row_number part))
  = match order_by_produced_at_desc part with
    | x :: _ => [project x]
    | [] => []
    end.
Proof.
  unfold StreamProcessor.row_number. rewrite rank_one_of_combine.
  pose proof (Permutation_length (order_perm part)) as Hlen.
  destruct (order_by_produced_at_desc part) as [|x rest]; [reflexivity|].
  destruct (List.length part); [discriminate | reflexivity].
Qed.

Lemma latest_prices_query_heads history :
  latest_prices_query history
  = flat_map (fun s =>
                match order_by_produced_at_desc
                        (partition_of s (scanned history)) with
                | x :: _ => [project x]
                | [] => []
                end)
             (partition_keys (scanned history)).
Proof.
  unfold StreamProcessor.latest_prices_query, ranked.
  rewrite filter_flat_map_comm, map_flat_map_comm.
  apply flat_map_pointwise. intros s _.
  exact (rank_one_of_partition (partition_of s (scanned history))).
Qed.

(** The head of a partition's ordering: a row of the partition that no row
    of the partition exceeds. *)
Lemma head_of_partition s rows :
  In s (map symbol rows) ->
  exists x rest,
    order_by_produced_at_desc (partition_of s rows) = x :: rest
    /\ In x rows /\ symbol x = s
    /\ forall r, In r rows -> symbol r = s -> produced_at_ge x r.
Proof.
  intros Hs. apply in_map_iff in Hs as [r0 [E0 H0]].
  assert (Hin0 : In r0 (partition_of s rows)).
  { apply filter_In. split; [exact H0 | now apply symbol_eqb_eq]. }
  pose proof (order_perm (partition_of s rows)) as Hp.
  pose proof (order_sorted (partition_of s rows)) as Hsorted.
  destruct (order_by_produced_at_desc (partition_of s rows)) as [|x rest].
  - apply Permutation_nil in Hp. rewrite Hp in Hin0. destruct Hin0.
  - exists x, rest. split; [reflexivity|].
    assert (Hx : In x (partition_of s rows))
      by (apply (Permutation_in _ Hp); now left).
    apply filter_In in Hx as [Hx Hsx]. apply symbol_eqb_eq in Hsx.
    split; [exact Hx | split; [exact Hsx|]].
    intros r Hr Hsr.
    assert (Hr' : In r (x :: rest)).
    { apply (Permutation_in _ (Permutation_sym Hp)). apply filter_In.
      split; [exact Hr | now apply symbol_eqb_eq]. }
    inversion Hsorted as [|? ? _ Hall]; subst.
    destruct Hr' as [<- | Hr']; [apply produced_at_ge_refl|].
    rewrite Forall_forall in Hall. auto.
Qed.

Lemma symbols_of_heads rows keys :
  (forall s, In s keys -> In s (map symbol rows)) ->
  map l_symbol
      (flat_map (fun s =>
                   match order_by_produced_at_desc (partition_of s rows) with
                   | x :: _ => [project x]
                   | [] => []
                   end) keys)
  = keys.
Proof.
  induction keys as [|s keys IH]; simpl; intros H; [reflexivity|].
  rewrite map_app, IH by (intros; apply H; now right).
  destruct (head_of_partition s rows (H s (or_introl eq_refl)))
    as [x [rest [E [_ [Hs _]]]]].
  rewrite E. simpl. rewrite Hs. reflexivity.
Qed.

Lemma scanned_has_timestamp history r :
  In r (scanned history) -> exists t, produced_at r = Some t.
Proof.
  intros Hr. apply filter_In in Hr as [_ Hr]. unfold where_p_year in Hr.
  destruct (p_year r); [|discriminate].
  destruct (produced_at r) as [t|]; [eauto | discriminate].
Qed.

(** C3. Whatever the history table holds, and whatever admissible order
    Athena uses within a partition, the result of [latest_prices_query] has
    exactly one row for each symbol of the scanned rows (those with
    [p_year = year(produced_at)]) and no other row; each of its rows is the
    projection of a scanned row of that symbol, and its [produced_at] is
    the greatest among the scanned rows of that symbol. *)
Theorem latest_view_one_row_per_symbol_with_max
    (history : list history_row) :
  NoDup (map l_symbol (latest_prices_query history))
  /\ (forall s, In s (map l_symbol (latest_prices_query history))
                <-> In s (map symbol (scanned history)))
  /\ (forall v, In v (latest_prices_query history) ->
        (exists r, In r (scanned history) /\ v = project r)
        /\ exists t,
             l_produced_at v = Some t
             /\ forall r, In r (scanned history) -> symbol r = l_symbol v ->
                          exists t', produced_at r = Some t' /\ t' <= t).
Proof.
  rewrite latest_prices_query_heads.
  assert (Hkeys : forall s, In s (partition_keys (scanned history)) ->
                            In s (map symbol (scanned history))).
  { intros s Hs. unfold partition_keys in Hs. now apply nodup_In in Hs. }
  rewrite (symbols_of_heads (scanned history) _ Hkeys).
  split; [apply NoDup_nodup|].
  split; [intros s; apply nodup_In|].
  intros v Hv. apply in_flat_map in Hv as [s [Hs Hv]].
  destruct (head_of_partition s (scanned history) (Hkeys s Hs))
    as [x [rest [E [Hx [Hsx Hmax]]]]].
  rewrite E in Hv. destruct Hv as [<- | []].
  split; [exists x; auto|].
  destruct (scanned_has_timestamp history x Hx) as [t Ht].
  exists t. split; [exact Ht|].
  intros r Hr Hsr. simpl in Hsr.
  destruct (scanned_has_timestamp history r Hr) as [t' Ht'].
  exists t'. split; [exact Ht'|].
  assert (Hge : produced_at_ge x r) by (apply Hmax; congruence).
  unfold produced_at_ge in Hge. rewrite Ht, Ht' in Hge. exact Hge.
Qed.

End Query.

Lemma latest_view_one_row_per_symbol_with_max_witness :
  let order := Examples.order_by_produced_at_desc in
  let view := latest_prices_query Examples.year_of order Examples.history in
  let rows := scanned Examples.year_of Examples.history in
  (forall l, Permutation (order l) l)
  /\ (forall l, StronglySorted produced_at_ge (order l))
  /\ NoDup (map l_symbol view)
  /\ (forall s, In s (map l_symbol view) <-> In s (map symbol rows))
  /\ (forall v, In v view ->
        (exists r, In r rows /\ v = project r)
        /\ exists t,
             l_produced_at v = Some t
             /\ forall r, In r rows -> symbol r = l_symbol v ->
                          exists t', produced_at r = Some t' /\ t' <= t).
Proof.
  split; [exact examples_order_perm|].
  split; [exact examples_order_sorted|].
  exact (latest_view_one_row_per_symbol_with_max
           Examples.year_of Examples.order_by_produced_at_desc
           examples_order_perm examples_order_sorted Examples.history).
Defined.

End LatestViewFacts.

(** ** The generators *)

Lemma ranges_not_empty_cons k ref table :
  ranges_not_empty ((k, ref) :: table) = true ->
  0 < max_price ref - min_price ref /\ ranges_not_empty table = true.
Proof.
  unfold ranges_not_empty. simpl. rewrite andb_true_iff, Z.ltb_lt.
  intros [H1 H2]. split; [lia | exact H2].
Qed.

Lemma randrange_returns start stop st :
  0 < stop - start ->
  randrange start stop st
  = (Returned (start + draws st (drawn st) mod (stop - start)),
     mkstate (draws st) (S (drawn st)) (readings st) (read st)).
Proof.
  intros H. unfold randrange.
  destruct (0 <? stop - start) eqn:E; [reflexivity|].
  apply Z.ltb_ge in E. lia.
Qed.

Lemma prices_from_tape_nth tape first table k p :
  In (k, p) (prices_from_tape tape first table) ->
  exists i ref,
    nth_error table i = Some (k, ref)
    /\ p = min_price ref
           + tape (first + i)%nat mod (max_price ref - min_price ref).
Proof.
  revert first. induction table as [|[k0 ref0] table IH]; simpl; intros first H.
  - destruct H.
  - destruct H as [E | H].
    + inversion E; subst. exists 0%nat, ref0.
      rewrite Nat.add_0_r. auto.
    + destruct (IH (S first) H) as [i [ref [Hn Hp]]].
      exists (S i), ref. split; [exact Hn|].
      rewrite Nat.add_succ_r. exact Hp.
Qed.

Lemma price_in_range ref x :
  0 < max_price ref - min_price ref ->
  min_price ref
  <= min_price ref + x mod (max_price ref - min_price ref)
  < max_price ref.
Proof.
  intros H. pose proof (Z.mod_pos_bound x _ H). lia.
Qed.

Lemma ranges_not_empty_nth table i k ref :
  ranges_not_empty table = true ->
  nth_error table i = Some (k, ref) ->
  0 < max_price ref - min_price ref.
Proof.
  intros H Hn. apply nth_error_In in Hn.
  unfold ranges_not_empty in H. rewrite forallb_forall in H.
  specialize (H _ Hn). simpl in H. apply Z.ltb_lt in H. lia.
Qed.

Lemma table_ranges_not_empty : ranges_not_empty companies_price = true.
Proof. reflexivity. Qed.

(** *** random.sample *)

Lemma list_set_length {A} i (x : A) l :
  List.length (list_set i x l) = List.length l.
Proof.
  revert i. induction l as [|y l IH]; intros [|i]; simpl; auto.
Qed.

Lemma list_set_In {A} i (x z : A) l :
  In z (list_set i x l) -> z = x \/ In z l.
Proof.
  revert i. induction l as [|y l IH]; intros [|i]; simpl; try tauto.
  - intros [E | H]; auto.
  - intros [E | H]; [auto|]. destruct (IH i H); auto.
Qed.

Lemma sample_pool_returns {A} (k : nat) :
  forall (pool : list A) (active : nat) (st : state),
    (k <= active)%nat -> (active <= List.length pool)%nat ->
    exists res st',
      sample_pool pool active k st = (Returned res, st')
      /\ List.length res = k
      /\ forall x, In x res -> In x pool.
Proof.
  induction k as [|k IH]; intros pool active st Hk Ha; simpl.
  - exists [], st. repeat split. intros x [].
  - unfold bind at 1, _randbelow at 1.
    set (j := draws st (drawn st) mod Z.of_nat active).
    assert (Hj : 0 <= j < Z.of_nat active)
      by (apply Z.mod_pos_bound; lia).
    destruct (nth_error pool (Z.to_nat j)) as [x|] eqn:Ex;
      [|apply nth_error_None in Ex; lia].
    destruct (nth_error pool (active - 1)) as [y|] eqn:Ey;
      [|apply nth_error_None in Ey; lia].
    destruct (IH (list_set (Z.to_nat j) y pool) (active - 1)%nat
                 (mkstate (draws st) (S (drawn st)) (readings st) (read st)))
      as [res [st' [E [Hlen Hin]]]];
      [lia | rewrite list_set_length; lia|].
    exists (x :: res), st'. unfold bind. rewrite E. simpl.
    split; [reflexivity | split; [congruence|]].
    intros z [<- | Hz]; [eapply nth_error_In; eauto|].
    destruct (list_set_In _ _ _ _ (Hin z Hz)) as [-> | H]; [|exact H].
    eapply nth_error_In; eauto.
Qed.

Lemma sample_returns {A} (population : list A) (k : Z) (st : state) :
  0 <= k <= Z.of_nat (List.length population) ->
  exists res st',
    sample population k st = (Returned res, st')
    /\ Z.of_nat (List.length res) = k
    /\ forall x, In x res -> In x population.
Proof.
  intros Hk. unfold sample.
  destruct ((0 <=? k) && (k <=? Z.of_nat (List.length population))) eqn:E.
  - destruct (sample_pool_returns (Z.to_nat k) population
                (List.length population) st) as [res [st' [E' [Hl Hin]]]];
      [lia | lia|].
    exists res, st'. split; [exact E' | split; [lia | exact Hin]].
  - apply andb_false_iff in E as [E | E];
      [apply Z.leb_gt in E | apply Z.leb_gt in E]; lia.
Qed.

(** *** The loops over the table *)

Lemma stock_data_loop_returns table :
  forall st,
    ranges_not_empty table = true ->
    exists records st',
      StreamProducer.stock_data_loop table st = (Returned records, st')
      /\ map (fun r => (StreamProducer.symbol r, StreamProducer.price r)) records
         = prices_from_tape (draws st) (drawn st) table
      /\ List.length records = List.length table
      /\ draws st' = draws st
      /\ drawn st' = (drawn st + List.length table)%nat.
Proof.
  induction table as [|[k ref] table IH]; intros st Hr; simpl.
  - exists [], st. repeat split. lia.
  - apply ranges_not_empty_cons in Hr as [Hw Hr].
    unfold bind at 1. rewrite (randrange_returns _ _ st Hw).
    unfold bind at 1, now at 1. cbn [read readings draws drawn].
    destruct (IH (mkstate (draws st) (S (drawn st)) (readings st)
                          (S (read st))) Hr)
      as [records [st' [E [Hp [Hl [Hd Hn]]]]]].
    unfold bind. rewrite E. unfold ret.
    eexists. exists st'. split; [reflexivity|]. simpl in *.
    rewrite Hp, Hl. repeat split; auto. lia.
Qed.

Lemma closing_prices_returns random_date table :
  forall st,
    ranges_not_empty table = true ->
    exists df st',
      BatchGenerator.closing_prices random_date
        (BatchGenerator.price_bounds table) st = (Returned df, st')
      /\ map (fun r => (BatchGenerator.company r, BatchGenerator.close_price r))
             df
         = prices_from_tape (draws st) (drawn st) table
      /\ (forall r, In r df -> BatchGenerator.date r = random_date).
Proof.
  induction table as [|[k ref] table IH]; intros st Hr; simpl.
  - exists [], st. repeat split. intros r [].
  - apply ranges_not_empty_cons in Hr as [Hw Hr].
    unfold bind at 1. rewrite (randrange_returns _ _ st Hw).
    destruct (IH (mkstate (draws st) (S (drawn st)) (readings st) (read st))
                 Hr) as [df [st' [E [Hp Hd]]]].
    unfold bind. rewrite E. unfold ret.
    eexists. exists st'. split; [reflexivity|]. simpl in *.
    rewrite Hp. split; [reflexivity|].
    intros r [<- | Hin]; [reflexivity | auto].
Qed.

Lemma data_frame_returns st :
  exists df st',
    BatchGenerator.data_frame st = (Returned df, st')
    /\ map (fun r => (BatchGenerator.company r, BatchGenerator.close_price r))
           df
       = prices_from_tape (draws st) (S (drawn st)) companies_price
    /\ (forall r, In r df ->
          BatchGenerator.date r
          = strftime_Ymd (add_days BatchGenerator.date_1
                                   (draws st (drawn st) mod 1095))).
Proof.
  unfold BatchGenerator.data_frame, BatchGenerator.random_date.
  change (toordinal BatchGenerator.date_2 - toordinal BatchGenerator.date_1)
    with 1095.
  unfold bind at 1 2. rewrite (randrange_returns 0 1095 st) by lia.
  unfold ret. rewrite Z.sub_0_r, Z.add_0_l.
  destruct (closing_prices_returns
              (strftime_Ymd (add_days BatchGenerator.date_1
                                      (draws st (drawn st) mod 1095)))
              companies_price
              (mkstate (draws st) (S (drawn st)) (readings st) (read st))
              table_ranges_not_empty) as [df [st' [E [Hp Hd]]]].
  exists df, st'. split; [exact E | split; [exact Hp | exact Hd]].
Qed.

(** The batch generator gives every row of an invocation the same date. *)
Lemma batch_rows_share_date st :
  exists df st' d,
    BatchGenerator.data_frame st = (Returned df, st')
    /\ forall r, In r df -> BatchGenerator.date r = d.
Proof.
  destruct (data_frame_returns st) as [df [st' [E [_ Hd]]]].
  exists df, st'. eexists. split; [exact E | exact Hd].
Qed.

(** C8 fails on the code of the streaming producer: [datetime.now()] is
    read once per company inside the loop, so when the clock passes to the
    next second during the loop, records of one call of
    [create_stock_market_data] carry different [produced_at] values. *)
Theorem produced_at_differs_within_one_call :
  exists records st',
    StreamProducer.create_stock_market_data Examples.start
    = (Returned records, st')
    /\ In (StreamProducer.mkrecord "NVDA" 131 "2025-01-25 10:00:00") records
    /\ In (StreamProducer.mkrecord "ORCL" 201 "2025-01-25 10:00:01") records
    /\ "2025-01-25 10:00:00" <> "2025-01-25 10:00:01".
Proof.
  eexists. eexists. split; [vm_compute; reflexivity|].
  split; [simpl; tauto|]. split; [simpl; tauto | discriminate].
Qed.

(** C9. In every state of the random generator both generators return, and
    every price they generate for a symbol of reference price [ref] is
    [floor(0.9 ref) + d mod (floor(1.1 ref) - floor(0.9 ref))] for the raw
    draw [d] the generator takes for that symbol, hence lies in
    [floor(0.9 ref) <= p < floor(1.1 ref)], each value of the interval
    being the image of one residue of the draw. *)
Theorem generated_prices_in_range (st : state) :
  (exists records st',
      StreamProducer.create_stock_market_data st = (Returned records, st')
      /\ forall r, In r records ->
           exists i ref,
             nth_error companies_price i = Some (StreamProducer.symbol r, ref)
             /\ StreamProducer.price r
                = (9 * ref) / 10
                  + draws st (drawn st + i)%nat
                    mod ((11 * ref) / 10 - (9 * ref) / 10)
             /\ (9 * ref) / 10 <= StreamProducer.price r < (11 * ref) / 10)
  /\ (exists df st',
        BatchGenerator.data_frame st = (Returned df, st')
        /\ map BatchGenerator.company df = map fst companies_price
        /\ forall r, In r df ->
             exists i ref,
               nth_error companies_price i = Some (BatchGenerator.company r, ref)
               /\ BatchGenerator.close_price r
                  = (9 * ref) / 10
                    + draws st (S (drawn st) + i)%nat
                      mod ((11 * ref) / 10 - (9 * ref) / 10)
               /\ (9 * ref) / 10 <= BatchGenerator.close_price r
                  < (11 * ref) / 10).
Proof.
  split.
  - unfold StreamProducer.create_stock_market_data.
    destruct (stock_data_loop_returns companies_price st
                table_ranges_not_empty)
      as [stock_data [st1 [E [Hp [Hl _]]]]].
    unfold bind at 1. rewrite E.
    unfold bind at 1. rewrite (randrange_returns 5 16 st1) by lia.
    unfold ret.
    destruct (sample_returns stock_data
                (5 + draws st1 (drawn st1) mod (16 - 5))
                (mkstate (draws st1) (S (drawn st1)) (readings st1) (read st1)))
      as [records [st' [Es [_ Hin]]]].
    { pose proof (Z.mod_pos_bound (draws st1 (drawn st1)) (16 - 5)
                    ltac:(lia)) as Hk.
      rewrite Hl. change (List.length companies_price) with 16%nat. lia. }
    exists records, st'. split; [exact Es|].
    intros r Hr.
    assert (Hr' : In (StreamProducer.symbol r, StreamProducer.price r)
                     (prices_from_tape (draws st) (drawn st) companies_price)).
    { rewrite <- Hp.
      exact (in_map (fun r => (StreamProducer.symbol r, StreamProducer.price r))
                    _ _ (Hin r Hr)). }
    destruct (prices_from_tape_nth _ _ _ _ _ Hr') as [i [ref [Hn Hv]]].
    exists i, ref. split; [exact Hn | split; [exact Hv|]].
    rewrite Hv.
    exact (price_in_range ref _
             (ranges_not_empty_nth _ _ _ _ table_ranges_not_empty Hn)).
  - destruct (data_frame_returns st) as [df [st' [E [Hp _]]]].
    exists df, st'. split; [exact E|]. split.
    + apply (f_equal (map fst)) in Hp. rewrite map_map in Hp. simpl in Hp.
      exact Hp.
    + intros r Hr.
      assert (Hr' : In (BatchGenerator.company r, BatchGenerator.close_price r)
                       (prices_from_tape (draws st) (S (drawn st))
                                         companies_price)).
      { rewrite <- Hp.
        exact (in_map (fun r => (BatchGenerator.company r,
                                 BatchGenerator.close_price r)) _ _ Hr). }
      destruct (prices_from_tape_nth _ _ _ _ _ Hr') as [i [ref [Hn Hv]]].
      exists i, ref. split; [exact Hn | split; [exact Hv|]].
      rewrite Hv.
      exact (price_in_range ref _
               (ranges_not_empty_nth _ _ _ _ table_ranges_not_empty Hn)).
Qed.

(** C10. The result of [write_records_to_stream], what it hands to
    [put_records] and the state it leaves do not depend on its [records]
    argument: with the same world, random tape and clock, two calls that
    differ in that argument only agree on all three. *)
Theorem records_argument_is_ignored
    (records1 records2 : list pydict) (event : pydict)
    (context : option pyvalue) (w : StreamProducer.world) (st : state) :
  StreamProducer.write_records_to_stream records1 event context w st
  = StreamProducer.write_records_to_stream records2 event context w st
  /\ StreamProducer.published
       (StreamProducer.write_records_to_stream records1 event context w st)
     = StreamProducer.published
         (StreamProducer.write_records_to_stream records2 event context w st)
  /\ StreamProducer.result
       (StreamProducer.write_records_to_stream records1 event context w st)
     = StreamProducer.result
         (StreamProducer.write_records_to_stream records2 event context w st).
Proof.
  unfold StreamProducer.write_records_to_stream.
  destruct (StreamProducer.create_stock_market_data st) as [[records|e] st'].
  - destruct (StreamProducer.put_records w (map StreamProducer.encode records)
                (StreamProducer.stream_name w)); repeat split.
  - repeat split.
Qed.

(** ** The handler of process_batch_files_lambda.py, end to end *)

(** X6. When every read succeeds and the delta is not empty, the one write the
    handler attempts is the delta with its partition column. *)
Lemma handler_writes_the_delta
    (to_numeric : cell -> numeric)
    (to_datetime_date : list cell -> nat -> option date)
    (w : BatchProcessor.world) (rec : BatchProcessor.s3_record)
    (rest : list BatchProcessor.s3_record) (dest : string)
    (raw : list BatchProcessor.csv_row) (B : list BatchProcessor.batch_row)
    (bad : nat) (S : list BatchProcessor.price_by_date_row) :
  BatchProcessor.environ w "dest_bucket_path" = Some dest ->
  BatchProcessor.s3_read_csv w
    (s3_uri (BatchProcessor.bucket_name rec) (BatchProcessor.object_key rec))
  = Some raw ->
  BatchProcessor.athena_price_by_date w = Some S ->
  BatchProcessor.clean to_numeric to_datetime_date raw = Returned (B, bad) ->
  BatchProcessor.new_records B S <> [] ->
  BatchProcessor.writes
    (BatchProcessor.process_batch_files_lambda to_numeric to_datetime_date w
                                               (rec :: rest))
  = [BatchProcessor.mkwrite dest
       (BatchProcessor.with_p_year (BatchProcessor.new_records B S))].
Proof.
  intros Henv Hcsv Hathena Hclean Hnew.
  unfold BatchProcessor.process_batch_files_lambda.
  rewrite Henv, Hcsv.
  destruct raw as [|r raw].
  - simpl in Hclean. inversion Hclean; subst. now destruct Hnew.
  - cbn [List.length Nat.eqb]. rewrite Hathena, Hclean. cbv zeta.
    rewrite BatchHandlerFacts.pd_merge_returns.
    2:{ right; left. intros ->. now apply Hnew. }
    change (BatchProcessor.select_new_records (BatchProcessor.merge_left B S))
      with (BatchProcessor.new_records B S).
    destruct (BatchProcessor.new_records B S) as [|d D]; [now destruct Hnew|].
    cbn [List.length Nat.ltb Nat.leb].
    repeat match goal with
           | |- context [if ?c then _ else _] => destruct c
           end; reflexivity.
Qed.

(** The two scenarios of the specification. *)
Example scenario_empty_snapshot :
  BatchProcessor.process_batch_files_lambda
    Examples.to_numeric Examples.to_datetime_date
    (Examples.batch_world [Examples.aapl_csv] []) Examples.batch_event
  = BatchProcessor.mkrun
      (Returned [("status", PyStr "success"); ("records_appended", PyInt 1);
                 ("duration_seconds", PyFloat 2)])
      [BatchProcessor.mkwrite "s3://stock/price_by_date/"
                              [Examples.aapl_persisted]].
Proof. reflexivity. Qed.

Example scenario_row_already_persisted :
  BatchProcessor.process_batch_files_lambda
    Examples.to_numeric Examples.to_datetime_date
    (Examples.batch_world [Examples.aapl_csv] [Examples.aapl_persisted])
    Examples.batch_event
  = BatchProcessor.mkrun
      (Returned [("status", PyStr "success with warning");
                 ("records_appended", PyInt 0);
                 ("duration_seconds", PyFloat 2)])
      [].
Proof. reflexivity. Qed.

(** A row of the table with a null price and the key of a batch row also
    ends with two rows under one key. *)
Example null_price_row_gets_a_twin :
  NoDup (persisted_keys [Examples.aapl_null_price])
  /\ ~ NoDup (persisted_keys
                (BatchProcessor.appended [Examples.aapl_null_price]
                   (BatchProcessor.new_records [Examples.aapl]
                                               [Examples.aapl_null_price]))).
Proof.
  split; [constructor; [intros [] | constructor]|].
  intros H. inversion H as [|? ? Hnotin _]. apply Hnotin. now left.
Qed.

(** * Further properties of the handlers *)

(** ** process_batch_files_lambda: writes, failures and the summary *)

Section BatchHandlerBehaviour.

Variable to_numeric : cell -> numeric.
Variable to_datetime_date : list cell -> nat -> option date.

Local Abbreviation handler :=
  (BatchProcessor.process_batch_files_lambda to_numeric to_datetime_date).
Local Abbreviation clean :=
  (BatchProcessor.clean to_numeric to_datetime_date).

(** The handler in the case where the event, the environment and the CSV
    read are in order and the file has rows. *)
Lemma handler_on_rows w rec rest dest r raw :
  BatchProcessor.environ w "dest_bucket_path" = Some dest ->
  BatchProcessor.s3_read_csv w
    (s3_uri (BatchProcessor.bucket_name rec) (BatchProcessor.object_key rec))
  = Some (r :: raw) ->
  handler w (rec :: rest)
  = match BatchProcessor.athena_price_by_date w with
    | None => BatchProcessor.mkrun (Raised "read_sql_query") []
    | Some table =>
        match clean (r :: raw) with
        | Raised e => BatchProcessor.mkrun (Raised e) []
        | Returned (B, _) =>
            match BatchProcessor.pd_merge
                    (BatchProcessor.cleaned_date_dtype
                       to_numeric to_datetime_date (r :: raw)) B table with
            | Raised e => BatchProcessor.mkrun (Raised e) []
            | Returned _ =>
            let D := BatchProcessor.new_records B table in
            let duration :=
              round_seconds (BatchProcessor.clock w 1
                             - BatchProcessor.clock w 0) in
            let wr := BatchProcessor.mkwrite dest
                        (BatchProcessor.with_p_year D) in
            match D with
            | [] => BatchProcessor.mkrun
                      (Returned (BatchProcessor.summary "success with warning"
                                                        0 duration)) []
            | _ :: _ =>
                if BatchProcessor.s3_to_parquet w wr then
                  BatchProcessor.mkrun
                    (Returned (BatchProcessor.summary
                                 (if (List.length D =? S (List.length raw))%nat
                                  then "success" else "success with warning")
                                 (List.length D) duration)) [wr]
                else BatchProcessor.mkrun (Raised "to_parquet") [wr]
            end
            end
        end
    end.
Proof.
  intros Henv Hcsv. unfold BatchProcessor.process_batch_files_lambda.
  rewrite Henv, Hcsv. cbn [List.length Nat.eqb].
  destruct (BatchProcessor.athena_price_by_date w) as [S0|]; [|reflexivity].
  cbv zeta.
  destruct (clean (r :: raw)) as [[B bad]|e]; [|reflexivity].
  destruct (BatchProcessor.pd_merge _ B S0) as [merged_df|e] eqn:Em;
    [|reflexivity].
  apply BatchHandlerFacts.pd_merge_inversion in Em. subst merged_df.
  change (BatchProcessor.select_new_records (BatchProcessor.merge_left B S0))
    with (BatchProcessor.new_records B S0).
  destruct (BatchProcessor.new_records B S0) as [|d D] eqn:ED; [reflexivity|].
  cbn [List.length Nat.ltb Nat.leb]. cbv zeta.
  destruct (BatchProcessor.s3_to_parquet w _); [|reflexivity].
  destruct (Nat.eqb_spec (S (List.length D)) (S (List.length raw))) as [E|E].
  - rewrite E, Z.sub_diag. reflexivity.
  - destruct (Z.eqb_spec (Z.of_nat (S (List.length raw))
                          - Z.of_nat (S (List.length D))) 0); [lia|reflexivity].
Qed.

(** X2. The handler writes at most once, never an empty frame, and only to
    the destination named by the environment. *)
Lemma batch_writes_once_and_never_empty w event wr :
  In wr (BatchProcessor.writes
           (BatchProcessor.process_batch_files_lambda
              to_numeric to_datetime_date w event)) ->
  BatchProcessor.writes
    (BatchProcessor.process_batch_files_lambda
       to_numeric to_datetime_date w event) = [wr]
  /\ BatchProcessor.environ w "dest_bucket_path"
     = Some (BatchProcessor.write_path wr)
  /\ BatchProcessor.write_rows wr <> [].
Proof.
  destruct event as [|rec rest]; [intros []|].
  destruct (BatchProcessor.environ w "dest_bucket_path") as [dest|] eqn:Henv.
  2:{ unfold BatchProcessor.process_batch_files_lambda. rewrite Henv.
      intros []. }
  destruct (BatchProcessor.s3_read_csv w
              (s3_uri (BatchProcessor.bucket_name rec)
                      (BatchProcessor.object_key rec))) as [[|r raw]|] eqn:Hcsv.
  - unfold BatchProcessor.process_batch_files_lambda. rewrite Henv, Hcsv.
    intros [].
  - rewrite (handler_on_rows w rec rest dest r raw Henv Hcsv).
    destruct (BatchProcessor.athena_price_by_date w) as [S0|]; [|intros []].
    destruct (clean (r :: raw)) as [[B bad]|e]; [|intros []].
    destruct (BatchProcessor.pd_merge _ B S0); [|intros []].
    cbv zeta.
    destruct (BatchProcessor.new_records B S0) as [|d D]; [intros []|].
    destruct (BatchProcessor.s3_to_parquet w _); simpl;
      intros [<- | []]; simpl; (split; [reflexivity | split; [reflexivity|]]);
      discriminate.
  - unfold BatchProcessor.process_batch_files_lambda. rewrite Henv, Hcsv.
    intros [].
Qed.

(** X3. A summary is returned only when every attempted write succeeded; when
    the handler raises, either nothing was written or the one write is the
    call that failed. *)
Lemma batch_raises_without_partial_success w event :
  match BatchProcessor.result
          (BatchProcessor.process_batch_files_lambda
             to_numeric to_datetime_date w event) with
  | Returned _ =>
      forall wr,
        In wr (BatchProcessor.writes
                 (BatchProcessor.process_batch_files_lambda
                    to_numeric to_datetime_date w event)) ->
        BatchProcessor.s3_to_parquet w wr = true
  | Raised _ =>
      BatchProcessor.writes
        (BatchProcessor.process_batch_files_lambda
           to_numeric to_datetime_date w event) = []
      \/ exists wr,
           BatchProcessor.writes
             (BatchProcessor.process_batch_files_lambda
                to_numeric to_datetime_date w event) = [wr]
           /\ BatchProcessor.s3_to_parquet w wr = false
  end.
Proof.
  destruct event as [|rec rest]; [left; reflexivity|].
  destruct (BatchProcessor.environ w "dest_bucket_path") as [dest|] eqn:Henv.
  2:{ unfold BatchProcessor.process_batch_files_lambda. rewrite Henv.
      left; reflexivity. }
  destruct (BatchProcessor.s3_read_csv w
              (s3_uri (BatchProcessor.bucket_name rec)
                      (BatchProcessor.object_key rec))) as [[|r raw]|] eqn:Hcsv.
  - unfold BatchProcessor.process_batch_files_lambda. rewrite Henv, Hcsv.
    simpl. intros wr [].
  - rewrite (handler_on_rows w rec rest dest r raw Henv Hcsv).
    destruct (BatchProcessor.athena_price_by_date w) as [S0|];
      [|left; reflexivity].
    destruct (clean (r :: raw)) as [[B bad]|e]; [|left; reflexivity].
    destruct (BatchProcessor.pd_merge _ B S0); [|left; reflexivity].
    cbv zeta.
    destruct (BatchProcessor.new_records B S0) as [|d D];
      [simpl; intros wr []|].
    destruct (BatchProcessor.s3_to_parquet w _) eqn:Hw; simpl.
    + intros wr [<- | []]. exact Hw.
    + right. eexists. split; [reflexivity | exact Hw].
  - unfold BatchProcessor.process_batch_files_lambda. rewrite Henv, Hcsv.
    left; reflexivity.
Qed.

(** X4. When the destination variable is missing, the file cannot be read,
    or the file has rows and the table cannot be read, the handler raises
    and writes nothing. *)
Lemma batch_fails_fast w rec rest :
  BatchProcessor.environ w "dest_bucket_path" = None
  \/ BatchProcessor.s3_read_csv w
       (s3_uri (BatchProcessor.bucket_name rec) (BatchProcessor.object_key rec))
     = None
  \/ (BatchProcessor.athena_price_by_date w = None
      /\ exists r raw,
           BatchProcessor.s3_read_csv w
             (s3_uri (BatchProcessor.bucket_name rec)
                     (BatchProcessor.object_key rec)) = Some (r :: raw)) ->
  (exists e, BatchProcessor.result (handler w (rec :: rest)) = Raised e)
  /\ BatchProcessor.writes (handler w (rec :: rest)) = [].
Proof.
  unfold BatchProcessor.process_batch_files_lambda.
  intros [Henv | [Hcsv | [Hathena [r [raw Hcsv]]]]].
  - rewrite Henv. simpl. eauto.
  - destruct (BatchProcessor.environ w "dest_bucket_path"); [|simpl; eauto].
    rewrite Hcsv. simpl. eauto.
  - destruct (BatchProcessor.environ w "dest_bucket_path"); [|simpl; eauto].
    rewrite Hcsv, Hathena. simpl. eauto.
Qed.

(** X5. The count the handler reports is the number of rows it wrote, and
    the status is [success] exactly when the file had rows and as many rows
    were written as the file had before cleaning. *)
Lemma batch_summary_counts_written_rows w rec rest dest raw d :
  BatchProcessor.environ w "dest_bucket_path" = Some dest ->
  BatchProcessor.s3_read_csv w
    (s3_uri (BatchProcessor.bucket_name rec) (BatchProcessor.object_key rec))
  = Some raw ->
  BatchProcessor.result (handler w (rec :: rest)) = Returned d ->
  let written :=
    flat_map BatchProcessor.write_rows
             (BatchProcessor.writes (handler w (rec :: rest))) in
  dict_get d "records_appended" = Some (PyInt (Z.of_nat (List.length written)))
  /\ (dict_get d "status" = Some (PyStr "success")
      <-> raw <> [] /\ List.length written = List.length raw).
Proof.
  intros Henv Hcsv. destruct raw as [|r raw].
  - unfold BatchProcessor.process_batch_files_lambda. rewrite Henv, Hcsv.
    simpl. intros E. inversion E; subst. simpl.
    split; [reflexivity|]. split; [discriminate | intros [H _]; congruence].
  - rewrite (handler_on_rows w rec rest dest r raw Henv Hcsv).
    destruct (BatchProcessor.athena_price_by_date w) as [S0|];
      [|discriminate].
    destruct (clean (r :: raw)) as [[B bad]|e]; [|discriminate].
    destruct (BatchProcessor.pd_merge _ B S0); [|discriminate].
    cbv zeta.
    destruct (BatchProcessor.new_records B S0) as [|d0 D] eqn:ED.
    + simpl. intros E. inversion E; subst. simpl.
      split; [reflexivity|]. split; [discriminate | intros [_ H]; discriminate].
    + destruct (BatchProcessor.s3_to_parquet w _); [|discriminate].
      simpl. intros E. inversion E; subst; clear E. simpl.
      rewrite app_nil_r. unfold BatchProcessor.with_p_year.
      rewrite length_map. simpl List.length.
      split; [reflexivity|].
      destruct (Nat.eqb_spec (List.length D) (List.length raw))
        as [E|E]; simpl.
      * split; [intros _; split; [discriminate | congruence] | reflexivity].
      * split; [discriminate | intros [_ H]; congruence].
Qed.

End BatchHandlerBehaviour.

Lemma new_records_all_matched B table :
  prices_not_null table ->
  (forall r, In r B -> existsb (BatchProcessor.key_match r) table = true) ->
  BatchProcessor.new_records B table = [].
Proof.
  intros Hnn Hall. rewrite (BatchFacts.new_records_filter B table Hnn).
  apply filter_none. intros r Hr. unfold key_absent.
  rewrite (Hall r Hr). reflexivity.
Qed.

Lemma batch_rows_matched_after_append B table :
  prices_not_null table ->
  forall r, In r B ->
    existsb (BatchProcessor.key_match r)
            (BatchProcessor.appended table (BatchProcessor.new_records B table))
    = true.
Proof.
  intros Hnn r Hr. unfold BatchProcessor.appended. rewrite existsb_app.
  destruct (existsb (BatchProcessor.key_match r) table) eqn:He; [reflexivity|].
  rewrite BatchFacts.key_match_with_p_year; [reflexivity|].
  rewrite (BatchFacts.new_records_filter B table Hnn). apply filter_In.
  split; [exact Hr|]. unfold key_absent. rewrite He. reflexivity.
Qed.

Section BatchHandlerTwice.

Variable to_numeric : cell -> numeric.
Variable to_datetime_date : list cell -> nat -> option date.

Local Abbreviation handler :=
  (BatchProcessor.process_batch_files_lambda to_numeric to_datetime_date).

(** X7. The handler run again on the same file, once the rows written by a
    first successful run are in the table, writes nothing and reports no
    appended record.  The table read by the first run has a price in every
    row. *)
Lemma batch_handler_second_run_appends_nothing
    (w w' : BatchProcessor.world) (rec : BatchProcessor.s3_record)
    (rest : list BatchProcessor.s3_record) (dest dest' : string)
    (raw : list BatchProcessor.csv_row)
    (table : list BatchProcessor.price_by_date_row) (d : pydict) :
  BatchProcessor.environ w "dest_bucket_path" = Some dest ->
  BatchProcessor.s3_read_csv w
    (s3_uri (BatchProcessor.bucket_name rec) (BatchProcessor.object_key rec))
  = Some raw ->
  BatchProcessor.athena_price_by_date w = Some table ->
  prices_not_null table ->
  BatchProcessor.result (handler w (rec :: rest)) = Returned d ->
  BatchProcessor.environ w' "dest_bucket_path" = Some dest' ->
  BatchProcessor.s3_read_csv w'
    (s3_uri (BatchProcessor.bucket_name rec) (BatchProcessor.object_key rec))
  = Some raw ->
  BatchProcessor.athena_price_by_date w'
  = Some (table ++ flat_map BatchProcessor.write_rows
                     (BatchProcessor.writes (handler w (rec :: rest))))%list ->
  BatchProcessor.writes (handler w' (rec :: rest)) = []
  /\ BatchProcessor.result (handler w' (rec :: rest))
     = Returned (BatchProcessor.summary "success with warning" 0
                   (round_seconds (BatchProcessor.clock w' 1
                                   - BatchProcessor.clock w' 0))).
Proof.
  intros Henv Hcsv Hathena Hnn Hres Henv' Hcsv' Hathena'.
  destruct raw as [|r raw].
  - unfold BatchProcessor.process_batch_files_lambda.
    rewrite Henv', Hcsv'. simpl. auto.
  - rewrite (handler_on_rows _ _ w' rec rest dest' r raw Henv' Hcsv').
    rewrite (handler_on_rows _ _ w rec rest dest r raw Henv Hcsv) in Hres,
      Hathena'.
    rewrite Hathena in Hres, Hathena'. rewrite Hathena'.
    destruct (BatchProcessor.clean to_numeric to_datetime_date (r :: raw))
      as [[B bad]|e]; [|discriminate].
    destruct (BatchProcessor.pd_merge
                (BatchProcessor.cleaned_date_dtype
                   to_numeric to_datetime_date (r :: raw)) B table)
      as [merged_df|e] eqn:Em; [|discriminate].
    apply BatchHandlerFacts.pd_merge_accepted in Em.
    cbv zeta in *.
    assert (Hrows :
      flat_map BatchProcessor.write_rows
        (BatchProcessor.writes
           match BatchProcessor.new_records B table with
           | [] => BatchProcessor.mkrun
                     (Returned (BatchProcessor.summary "success with warning" 0
                        (round_seconds (BatchProcessor.clock w 1
                                        - BatchProcessor.clock w 0)))) []
           | _ :: _ =>
               if BatchProcessor.s3_to_parquet w
                    (BatchProcessor.mkwrite dest
                       (BatchProcessor.with_p_year
                          (BatchProcessor.new_records B table)))
               then BatchProcessor.mkrun
                      (Returned (BatchProcessor.summary
                         (if (List.length (BatchProcessor.new_records B table)
                              =? S (List.length raw))%nat
                          then "success" else "success with warning")
                         (List.length (BatchProcessor.new_records B table))
                         (round_seconds (BatchProcessor.clock w 1
                                         - BatchProcessor.clock w 0))))
                      [BatchProcessor.mkwrite dest
                         (BatchProcessor.with_p_year
                            (BatchProcessor.new_records B table))]
               else BatchProcessor.mkrun (Raised "to_parquet")
                      [BatchProcessor.mkwrite dest
                         (BatchProcessor.with_p_year
                            (BatchProcessor.new_records B table))]
           end)
      = BatchProcessor.with_p_year (BatchProcessor.new_records B table)).
    { destruct (BatchProcessor.new_records B table); [reflexivity|].
      destruct (BatchProcessor.s3_to_parquet w _); simpl;
        rewrite app_nil_r; reflexivity. }
    rewrite Hrows.
    fold (BatchProcessor.appended table (BatchProcessor.new_records B table)).
    rewrite BatchHandlerFacts.pd_merge_returns.
    2:{ destruct Em as [Em | [Em | Em]]; [tauto | tauto |].
        right; right. unfold BatchProcessor.appended.
        destruct table; [now destruct Em | discriminate]. }
    rewrite new_records_all_matched.
    + auto.
    + intros s Hs. apply in_app_or in Hs as [Hs | Hs]; [auto|].
      exact (BatchFacts.with_p_year_not_null _ s Hs).
    + apply batch_rows_matched_after_append. exact Hnn.
Qed.

End BatchHandlerTwice.

(** ** process_stock_stream_data: the messages, the transformations and the
    two writes *)

(** X11. The paths collected from a list of messages are those of its first
    part followed by those of its second part, and the first message that
    cannot be used decides the exception. *)
Lemma collect_paths_app (a b : list StreamProcessor.message) :
  StreamProcessor.collect_paths (a ++ b)
  = match StreamProcessor.collect_paths a with
    | Raised e => Raised e
    | Returned pa =>
        match StreamProcessor.collect_paths b with
        | Raised e => Raised e
        | Returned pb => Returned (pa ++ pb)%list
        end
    end.
Proof.
  induction a as [|m a IH]; simpl.
  - destruct (StreamProcessor.collect_paths b); reflexivity.
  - destruct (StreamProcessor.body m) as [mb|]; [|reflexivity].
    destruct (option_eqb String.eqb (StreamProcessor.Event mb)
                         (Some "s3:TestEvent")); [exact IH|].
    destruct (StreamProcessor.Records mb) as [files|]; [|reflexivity].
    rewrite IH.
    destruct (StreamProcessor.collect_paths a) as [pa|e]; [|reflexivity].
    destruct (StreamProcessor.collect_paths b) as [pb|e]; [|reflexivity].
    rewrite app_assoc. reflexivity.
Qed.

(** X12. An [s3:TestEvent] message contributes no path and raises nothing,
    wherever it stands among the messages and whatever else its body
    holds. *)
Lemma collect_paths_skips_test_events
    (a b : list StreamProcessor.message)
    (records : option (list StreamProcessor.s3_file)) :
  StreamProcessor.collect_paths
    (a ++ StreamProcessor.mkmessage
            (Some (StreamProcessor.mkbody (Some "s3:TestEvent") records)) :: b)
  = StreamProcessor.collect_paths (a ++ b).
Proof.
  induction a as [|m a IH]; simpl; [reflexivity|].
  destruct (StreamProcessor.body m) as [mb|]; [|reflexivity].
  destruct (option_eqb String.eqb (StreamProcessor.Event mb)
                       (Some "s3:TestEvent")); [exact IH|].
  destruct (StreamProcessor.Records mb) as [files|]; [|reflexivity].
  rewrite IH. reflexivity.
Qed.

(** X13. One path per announced file, in order: when every message is a
    notification with its list of files, the paths are the [s3://] URIs of
    the files of all messages. *)
Lemma collect_paths_of_notifications
    (batches : list (list StreamProcessor.s3_file)) :
  StreamProcessor.collect_paths
    (map (fun files => StreamProcessor.mkmessage
                         (Some (StreamProcessor.mkbody None (Some files))))
         batches)
  = Returned
      (map (fun f => s3_uri (StreamProcessor.bucket_name f)
                            (StreamProcessor.object_key f))
           (List.concat batches)).
Proof.
  induction batches as [|files batches IH]; simpl; [reflexivity|].
  rewrite IH, map_app. reflexivity.
Qed.

Section StreamTransform.

Variable to_numeric : cell -> numeric.
Variable to_datetime : list cell -> nat -> option Z.
Variable year_of : Z -> Z.

Local Abbreviation transform :=
  (StreamProcessor.transform to_numeric to_datetime year_of).

Lemma tick_astype_int64_keeps_rows df :
  forall l, StreamProcessor.astype_int64 to_numeric df = Returned l ->
            map fst l = df.
Proof.
  induction df as [|r df IH]; simpl; intros l E.
  - inversion E. reflexivity.
  - destruct (to_numeric (StreamProcessor.j_price r)); try discriminate.
    destruct (StreamProcessor.astype_int64 to_numeric df) as [rest|];
      [|discriminate].
    inversion E; subst. simpl. rewrite (IH rest eq_refl). reflexivity.
Qed.

Lemma dropna_produced_at_rows etl l t :
  In t (StreamProcessor.dropna_produced_at year_of etl l) ->
  StreamProcessor.t_p_year t = year_of (StreamProcessor.t_produced_at t)
  /\ StreamProcessor.t_etl_loading_ts t = etl
  /\ exists r z ts, In (r, z, Some ts) l
                    /\ StreamProcessor.t_symbol t = StreamProcessor.j_symbol r
                    /\ StreamProcessor.t_price t = z
                    /\ StreamProcessor.t_produced_at t = ts.
Proof.
  induction l as [|[[r z] [ts|]] l IH]; simpl; intros H.
  - destruct H.
  - destruct H as [<- | H].
    + simpl. repeat split. exists r, z, ts. auto.
    + destruct (IH H) as [H1 [H2 [r' [z' [ts' [Hin H3]]]]]].
      repeat split; auto. exists r', z', ts'. auto.
  - destruct (IH H) as [H1 [H2 [r' [z' [ts' [Hin H3]]]]]].
    repeat split; auto. exists r', z', ts'. auto.
Qed.

Lemma transform_rows_year etl raw df bad t :
  StreamProcessor.transform to_numeric to_datetime year_of etl raw
  = Returned (df, bad) ->
  In t df ->
  StreamProcessor.t_p_year t = year_of (StreamProcessor.t_produced_at t).
Proof.
  unfold StreamProcessor.transform.
  destruct (StreamProcessor.astype_int64 to_numeric
              (filter (fun r => negb (StreamProcessor.price_isna to_numeric r))
                      raw)) as [l|e]; [|discriminate].
  intros E Ht. inversion E; subst; clear E.
  exact (proj1 (dropna_produced_at_rows _ _ _ Ht)).
Qed.

(** X14. Every row the transformations keep is filed under the year of its
    own timestamp and carries the load timestamp of the invocation; its
    symbol is that of a row of the file whose price coerced to the kept
    integer. *)
Lemma transform_rows_are_partitioned etl raw df bad t :
  transform etl raw = Returned (df, bad) ->
  In t df ->
  StreamProcessor.t_p_year t = year_of (StreamProcessor.t_produced_at t)
  /\ StreamProcessor.t_etl_loading_ts t = etl
  /\ exists r, In r raw
               /\ StreamProcessor.t_symbol t = StreamProcessor.j_symbol r
               /\ to_numeric (StreamProcessor.j_price r)
                  = Finite (StreamProcessor.t_price t).
Proof.
  unfold StreamProcessor.transform.
  destruct (StreamProcessor.astype_int64 to_numeric
              (filter (fun r => negb (StreamProcessor.price_isna to_numeric r))
                      raw)) as [l|e] eqn:El; [|discriminate].
  intros E Ht. inversion E; subst; clear E.
  destruct (dropna_produced_at_rows _ _ _ Ht)
    as [H1 [H2 [r [z [ts [Hin [H3 [H4 H5]]]]]]]].
  split; [exact H1 | split; [exact H2|]].
  unfold StreamProcessor.coerce_produced_at in Hin.
  apply in_map_iff in Hin as [[i [r' z']] [Eq Hin]]. simpl in Eq.
  inversion Eq; subst; clear Eq.
  apply in_combine_r in Hin.
  exists r. split; [|split; [exact H3|]].
  - assert (Hr : In r (map fst l))
      by (apply in_map_iff; exists (r, StreamProcessor.t_price t); auto).
    rewrite (tick_astype_int64_keeps_rows _ _ El) in Hr.
    apply filter_In in Hr. tauto.
  - clear - El Hin. revert l El Hin.
    induction (filter (fun r => negb (StreamProcessor.price_isna to_numeric r))
                      raw) as [|r0 df IH]; simpl; intros l El Hin.
    + inversion El; subst. destruct Hin.
    + destruct (to_numeric (StreamProcessor.j_price r0)) eqn:E0;
        try discriminate.
      destruct (StreamProcessor.astype_int64 to_numeric df) as [rest|];
        [|discriminate].
      inversion El; subst. destruct Hin as [Eq | Hin].
      * inversion Eq; subst. exact E0.
      * exact (IH rest eq_refl Hin).
Qed.

(** When the transformations return, every row of the file is either kept
    or counted as bad, once. *)
Lemma transform_accounts_for_every_row etl raw df bad :
  transform etl raw = Returned (df, bad) ->
  List.length raw = (List.length df + bad)%nat.
Proof.
  unfold StreamProcessor.transform.
  destruct (StreamProcessor.astype_int64 to_numeric
              (filter (fun r => negb (StreamProcessor.price_isna to_numeric r))
                      raw)) as [l|e] eqn:El; [|discriminate].
  intros E. inversion E; subst; clear E.
  pose proof (StreamHandlerFacts.dropna_produced_at_length year_of etl
                (StreamProcessor.coerce_produced_at to_datetime l)) as H1.
  pose proof (filter_length_split (StreamProcessor.price_isna to_numeric) raw)
    as H2.
  pose proof (StreamHandlerFacts.coerce_produced_at_length to_datetime l) as H3.
  pose proof (f_equal (@List.length _) (tick_astype_int64_keeps_rows _ _ El))
    as H4.
  rewrite length_map in H4. lia.
Qed.

End StreamTransform.

(** Case analysis on the condition of the outermost conditional. *)
Ltac case_if :=
  match goal with
  | |- context [if ?c then _ else _] => destruct c eqn:?
  end.

Section StreamHandlerBehaviour.

Variable to_numeric : cell -> numeric.
Variable to_datetime : list cell -> nat -> option Z.
Variable year_of : Z -> Z.
Variable order_by_produced_at_desc :
  list StreamProcessor.history_row -> list StreamProcessor.history_row.

Local Abbreviation handler :=
  (StreamProcessor.process_stock_stream_data
     to_numeric to_datetime year_of order_by_produced_at_desc).
Local Abbreviation transform :=
  (StreamProcessor.transform to_numeric to_datetime year_of).
Local Abbreviation latest_prices_query :=
  (StreamProcessor.latest_prices_query year_of order_by_produced_at_desc).

(** The handler once the environment, the tables, the messages and the
    read are in order and the files have rows. *)
Lemma stream_handler_on_rows w m event dest over paths r raw :
  StreamProcessor.environ w "dest_bucket_path_overwrite" = Some over ->
  StreamProcessor.environ w "dest_bucket_path" = Some dest ->
  StreamProcessor.athena_tables_exist w = true ->
  StreamProcessor.collect_paths (m :: event) = Returned paths ->
  StreamProcessor.s3_read_json w paths = Some (r :: raw) ->
  handler w (m :: event)
  = match transform (StreamProcessor.clock w 1) (r :: raw) with
    | Raised e => StreamProcessor.mkrun (Raised e) []
    | Returned (df, bad) =>
        let append := StreamProcessor.Append dest df in
        let overwrite :=
          StreamProcessor.Overwrite over
            (map (fun v => (v, StreamProcessor.clock w 1))
                 (latest_prices_query
                    (StreamProcessor.stream_prices_history w append))) in
        if StreamProcessor.s3_to_parquet w append then
          if StreamProcessor.athena_query_ok w then
            if StreamProcessor.s3_to_parquet w overwrite then
              StreamProcessor.mkrun
                (Returned (StreamProcessor.summary
                             (if (bad =? 0)%nat then "success"
                              else "success with warning")
                             (List.length df)
                             (round_seconds (StreamProcessor.clock w 2
                                             - StreamProcessor.clock w 0))))
                [append; overwrite]
            else StreamProcessor.mkrun (Raised "to_parquet") [append; overwrite]
          else StreamProcessor.mkrun (Raised "read_sql_query") [append]
        else StreamProcessor.mkrun (Raised "to_parquet") [append]
    end.
Proof.
  intros Hover Hdest Htables Hpaths Hread.
  unfold StreamProcessor.process_stock_stream_data.
  rewrite Hover, Hdest, Htables, Hpaths, Hread.
  cbn [negb List.length Nat.eqb].
  destruct (transform (StreamProcessor.clock w 1) (r :: raw))
    as [[df bad]|e]; [|reflexivity].
  cbv zeta.
  destruct (StreamProcessor.s3_to_parquet w (StreamProcessor.Append dest df));
    [|reflexivity].
  destruct (StreamProcessor.athena_query_ok w); [|reflexivity].
  cbn [negb].
  destruct (StreamProcessor.s3_to_parquet w _); [|reflexivity].
  cbn [negb]. destruct (bad =? 0)%nat; reflexivity.
Qed.

(** The cases in which the handler stops before the transformations. *)
Lemma stream_handler_stops_early w event :
  (forall over dest m rest paths r raw,
      StreamProcessor.environ w "dest_bucket_path_overwrite" = Some over ->
      StreamProcessor.environ w "dest_bucket_path" = Some dest ->
      StreamProcessor.athena_tables_exist w = true ->
      event = m :: rest ->
      StreamProcessor.collect_paths event = Returned paths ->
      StreamProcessor.s3_read_json w paths = Some (r :: raw) -> False) ->
  StreamProcessor.writes (handler w event) = []
  /\ (forall d, StreamProcessor.result (handler w event) = Returned d ->
        d = [("status", PyStr "no_messages")]
        \/ d = StreamProcessor.summary "success with warning" 0
                 (round_seconds (StreamProcessor.clock w 1
                                 - StreamProcessor.clock w 0))).
Proof.
  intros Hno. unfold StreamProcessor.process_stock_stream_data.
  destruct (StreamProcessor.environ w "dest_bucket_path_overwrite")
    as [over|] eqn:Hover; [|split; [reflexivity | discriminate]].
  destruct (StreamProcessor.environ w "dest_bucket_path")
    as [dest|] eqn:Hdest; [|split; [reflexivity | discriminate]].
  destruct (StreamProcessor.athena_tables_exist w) eqn:Htables;
    [|split; [reflexivity | discriminate]].
  cbn [negb].
  destruct event as [|m rest].
  { split; [reflexivity|]. intros d E. inversion E. auto. }
  destruct (StreamProcessor.collect_paths (m :: rest)) as [paths|e] eqn:Hp;
    [|split; [reflexivity | discriminate]].
  destruct (StreamProcessor.s3_read_json w paths) as [[|r raw]|] eqn:Hread.
  - cbn [List.length Nat.eqb]. split; [reflexivity|].
    intros d E. inversion E. auto.
  - exfalso. exact (Hno over dest m rest paths r raw eq_refl eq_refl eq_refl
                        eq_refl eq_refl Hread).
  - split; [reflexivity | discriminate].
Qed.

(** X15. The handler attempts no write, or the append to
    [dest_bucket_path] alone and then it raises, or that append, which
    succeeded, followed by the overwrite at [dest_bucket_path_overwrite] of
    the result of the latest-prices query on the table as Athena reads it
    after the append, each row tagged with the load timestamp. *)
Lemma stream_writes_append_then_overwrite w event :
  StreamProcessor.writes (handler w event) = []
  \/ exists dest over rows,
       StreamProcessor.environ w "dest_bucket_path" = Some dest
       /\ StreamProcessor.environ w "dest_bucket_path_overwrite" = Some over
       /\ ((StreamProcessor.writes (handler w event)
            = [StreamProcessor.Append dest rows]
            /\ exists e, StreamProcessor.result (handler w event) = Raised e)
           \/ (StreamProcessor.writes (handler w event)
               = [StreamProcessor.Append dest rows;
                  StreamProcessor.Overwrite over
                    (map (fun v => (v, StreamProcessor.clock w 1))
                         (latest_prices_query
                            (StreamProcessor.stream_prices_history w
                               (StreamProcessor.Append dest rows))))]
               /\ StreamProcessor.s3_to_parquet w
                    (StreamProcessor.Append dest rows) = true)).
Proof.
  destruct (StreamProcessor.environ w "dest_bucket_path_overwrite")
    as [over|] eqn:Hover.
  2:{ left. apply stream_handler_stops_early. intros; congruence. }
  destruct (StreamProcessor.environ w "dest_bucket_path")
    as [dest|] eqn:Hdest.
  2:{ left. apply stream_handler_stops_early. intros; congruence. }
  destruct (StreamProcessor.athena_tables_exist w) eqn:Htables.
  2:{ left. apply stream_handler_stops_early. intros; congruence. }
  destruct event as [|m rest].
  { left. apply stream_handler_stops_early. intros; congruence. }
  destruct (StreamProcessor.collect_paths (m :: rest)) as [paths|e] eqn:Hp.
  2:{ left. apply stream_handler_stops_early. intros; congruence. }
  destruct (StreamProcessor.s3_read_json w paths) as [[|r raw]|] eqn:Hread.
  1,3: left; apply stream_handler_stops_early; intros; congruence.
  rewrite (stream_handler_on_rows w m rest dest over paths r raw
             Hover Hdest Htables Hp Hread).
  destruct (transform (StreamProcessor.clock w 1) (r :: raw))
    as [[df bad]|e]; [|left; reflexivity].
  cbv zeta. right. exists dest, over, df.
  split; [reflexivity | split; [reflexivity|]].
  destruct (StreamProcessor.s3_to_parquet w (StreamProcessor.Append dest df))
    eqn:Ha; [|left; simpl; eauto].
  destruct (StreamProcessor.athena_query_ok w); [|left; simpl; eauto].
  case_if; right; simpl; auto.
Qed.

(** X16. When a destination variable is missing or the connectivity query
    fails, the handler raises before looking at the event and writes
    nothing. *)
Lemma stream_fails_fast w event :
  StreamProcessor.environ w "dest_bucket_path_overwrite" = None
  \/ StreamProcessor.environ w "dest_bucket_path" = None
  \/ StreamProcessor.athena_tables_exist w = false ->
  (exists e,
      StreamProcessor.result
        (StreamProcessor.process_stock_stream_data
           to_numeric to_datetime year_of order_by_produced_at_desc w event)
      = Raised e)
  /\ StreamProcessor.writes
       (StreamProcessor.process_stock_stream_data
          to_numeric to_datetime year_of order_by_produced_at_desc w event)
     = [].
Proof.
  unfold StreamProcessor.process_stock_stream_data.
  intros [H | [H | H]].
  - rewrite H. simpl. eauto.
  - destruct (StreamProcessor.environ w "dest_bucket_path_overwrite");
      [|simpl; eauto].
    rewrite H. simpl. eauto.
  - destruct (StreamProcessor.environ w "dest_bucket_path_overwrite");
      [|simpl; eauto].
    destruct (StreamProcessor.environ w "dest_bucket_path"); [|simpl; eauto].
    rewrite H. simpl. eauto.
Qed.

(** X17. A file whose rows all fail the price coercion still leads to a call
    of [to_parquet], with an empty frame: the append is not guarded by a
    test on the transformed frame. *)
Lemma stream_appends_even_an_empty_frame
    w m event dest over paths r raw :
  StreamProcessor.environ w "dest_bucket_path_overwrite" = Some over ->
  StreamProcessor.environ w "dest_bucket_path" = Some dest ->
  StreamProcessor.athena_tables_exist w = true ->
  StreamProcessor.collect_paths (m :: event) = Returned paths ->
  StreamProcessor.s3_read_json w paths = Some (r :: raw) ->
  (forall x, In x (r :: raw) -> to_numeric (StreamProcessor.j_price x) = NaN) ->
  exists rest,
    StreamProcessor.writes (handler w (m :: event))
    = StreamProcessor.Append dest [] :: rest.
Proof.
  intros Hover Hdest Htables Hp Hread Hbad.
  rewrite (stream_handler_on_rows w m event dest over paths r raw
             Hover Hdest Htables Hp Hread).
  unfold StreamProcessor.transform.
  rewrite (filter_none (fun x => negb (StreamProcessor.price_isna to_numeric x))).
  2:{ intros x Hx. unfold StreamProcessor.price_isna.
      rewrite (Hbad x Hx). reflexivity. }
  cbn [StreamProcessor.astype_int64 StreamProcessor.coerce_produced_at
       List.length seq combine map filter
       StreamProcessor.dropna_produced_at].
  cbv zeta.
  destruct (StreamProcessor.s3_to_parquet w (StreamProcessor.Append dest []));
    [|eexists; reflexivity].
  destruct (StreamProcessor.athena_query_ok w); [|eexists; reflexivity].
  case_if; eexists; reflexivity.
Qed.

(** X18. On a file with rows, the count the handler reports is the number of
    rows it appended, and the status is [success] exactly when no row of
    the file was left out. *)
Lemma stream_summary_counts_appended_rows
    w m event dest over paths r raw d :
  StreamProcessor.environ w "dest_bucket_path_overwrite" = Some over ->
  StreamProcessor.environ w "dest_bucket_path" = Some dest ->
  StreamProcessor.athena_tables_exist w = true ->
  StreamProcessor.collect_paths (m :: event) = Returned paths ->
  StreamProcessor.s3_read_json w paths = Some (r :: raw) ->
  StreamProcessor.result (handler w (m :: event)) = Returned d ->
  exists rows view,
    StreamProcessor.writes (handler w (m :: event))
    = [StreamProcessor.Append dest rows; StreamProcessor.Overwrite over view]
    /\ dict_get d "records_appended"
       = Some (PyInt (Z.of_nat (List.length rows)))
    /\ (dict_get d "status" = Some (PyStr "success")
        <-> List.length rows = List.length (r :: raw)).
Proof.
  intros Hover Hdest Htables Hp Hread.
  rewrite (stream_handler_on_rows w m event dest over paths r raw
             Hover Hdest Htables Hp Hread).
  destruct (transform (StreamProcessor.clock w 1) (r :: raw))
    as [[df bad]|e] eqn:Et; [|discriminate].
  pose proof (transform_accounts_for_every_row _ _ _ _ _ _ _ Et) as Hlen.
  cbv zeta.
  destruct (StreamProcessor.s3_to_parquet w (StreamProcessor.Append dest df));
    [|discriminate].
  destruct (StreamProcessor.athena_query_ok w); [|discriminate].
  case_if; [|discriminate].
  simpl. intros E. inversion E; subst; clear E.
  eexists. eexists. split; [reflexivity|]. simpl.
  split; [reflexivity|].
  destruct (Nat.eqb_spec bad 0) as [E|E]; simpl in *.
  - split; [intros _; lia | reflexivity].
  - split; [discriminate | intros H; lia].
Qed.

End StreamHandlerBehaviour.

(** ** The latest view as the history grows *)

Section LatestViewGrowth.

Variable to_numeric : cell -> numeric.
Variable to_datetime : list cell -> nat -> option Z.
Variable year_of : Z -> Z.
Variable order_by_produced_at_desc :
  list StreamProcessor.history_row -> list StreamProcessor.history_row.

Hypothesis order_perm :
  forall l, Permutation (order_by_produced_at_desc l) l.
Hypothesis order_sorted :
  forall l, StronglySorted StreamProcessor.produced_at_ge
                           (order_by_produced_at_desc l).

Local Abbreviation scanned := (StreamProcessor.scanned year_of).
Local Abbreviation latest_prices_query :=
  (StreamProcessor.latest_prices_query year_of order_by_produced_at_desc).
Local Abbreviation handler :=
  (StreamProcessor.process_stock_stream_data
     to_numeric to_datetime year_of order_by_produced_at_desc).

Lemma view_row_for_symbol history s :
  In s (map StreamProcessor.symbol (scanned history)) ->
  exists x,
    In x (scanned history) /\ StreamProcessor.symbol x = s
    /\ (forall r, In r (scanned history) -> StreamProcessor.symbol r = s ->
                  StreamProcessor.produced_at_ge x r)
    /\ In (project x) (latest_prices_query history).
Proof.
  intros Hs.
  destruct (LatestViewFacts.head_of_partition order_by_produced_at_desc
              order_perm order_sorted s (scanned history) Hs)
    as [x [rest [E [Hx [Hsx Hmax]]]]].
  exists x. split; [exact Hx | split; [exact Hsx | split; [exact Hmax|]]].
  rewrite (LatestViewFacts.latest_prices_query_heads year_of
             order_by_produced_at_desc order_perm).
  apply in_flat_map. exists s. split.
  - unfold StreamProcessor.partition_keys. apply nodup_In. exact Hs.
  - rewrite E. left. reflexivity.
Qed.

Lemma view_row_is_scanned history v :
  In v (latest_prices_query history) ->
  exists x, In x (scanned history) /\ v = project x.
Proof.
  rewrite (LatestViewFacts.latest_prices_query_heads year_of
             order_by_produced_at_desc order_perm).
  intros Hv. apply in_flat_map in Hv as [s [Hs Hv]].
  unfold StreamProcessor.partition_keys in Hs. apply nodup_In in Hs.
  destruct (LatestViewFacts.head_of_partition order_by_produced_at_desc
              order_perm order_sorted s (scanned history) Hs)
    as [x [rest [E [Hx _]]]].
  rewrite E in Hv. destruct Hv as [<- | []]. eauto.
Qed.

Lemma scanned_app history extra :
  scanned (history ++ extra) = (scanned history ++ scanned extra)%list.
Proof. apply filter_app. Qed.

(** X20. The latest view never goes back in time when the history grows:
    for every row of the view of a history, the view of the history
    extended with any rows has a row of the same symbol whose timestamp is
    at least as late. *)
Lemma latest_view_never_goes_back history extra v :
  In v (latest_prices_query history) ->
  exists v' t t',
    In v' (latest_prices_query (history ++ extra))
    /\ StreamProcessor.l_symbol v' = StreamProcessor.l_symbol v
    /\ StreamProcessor.l_produced_at v = Some t
    /\ StreamProcessor.l_produced_at v' = Some t'
    /\ t <= t'.
Proof.
  intros Hv. destruct (view_row_is_scanned history v Hv) as [x [Hx ->]].
  assert (Hx' : In x (scanned (history ++ extra)))
    by (rewrite scanned_app; apply in_or_app; now left).
  destruct (view_row_for_symbol (history ++ extra) (StreamProcessor.symbol x))
    as [x' [Hin' [Hs' [Hmax' Hview']]]]; [now apply in_map|].
  destruct (LatestViewFacts.scanned_has_timestamp year_of _ x Hx') as [t Ht].
  destruct (LatestViewFacts.scanned_has_timestamp year_of _ x' Hin')
    as [t' Ht'].
  exists (project x'), t, t'. simpl.
  split; [exact Hview' | split; [exact Hs' | split; [exact Ht|]]].
  split; [exact Ht'|].
  specialize (Hmax' x Hx' eq_refl).
  unfold StreamProcessor.produced_at_ge in Hmax'.
  rewrite Ht, Ht' in Hmax'. exact Hmax'.
Qed.

(** X21. After the two writes of an invocation, an appended row that is in
    the table as Athena reads it after the append (as it is when
    [dest_bucket_path] is the location of the table and the partition is
    registered) is covered by the view written: the view has a row of the
    same symbol, tagged with the load timestamp of the invocation, whose
    timestamp is at least that of the appended row. *)
Lemma stream_view_covers_appended_rows w event dest over rows view t :
  StreamProcessor.writes
    (StreamProcessor.process_stock_stream_data
       to_numeric to_datetime year_of order_by_produced_at_desc w event)
  = [StreamProcessor.Append dest rows; StreamProcessor.Overwrite over view] ->
  In t rows ->
  In (StreamProcessor.to_history t)
     (StreamProcessor.stream_prices_history w
        (StreamProcessor.Append dest rows)) ->
  exists v ts,
    In (v, StreamProcessor.clock w 1) view
    /\ StreamProcessor.l_symbol v = StreamProcessor.t_symbol t
    /\ StreamProcessor.l_produced_at v = Some ts
    /\ StreamProcessor.t_produced_at t <= ts.
Proof.
  intros Hw Ht Htable.
  assert (Hcase :
    exists etl raw bad,
      StreamProcessor.transform to_numeric to_datetime year_of etl raw
      = Returned (rows, bad)
      /\ view = map (fun v => (v, StreamProcessor.clock w 1))
                    (latest_prices_query
                       (StreamProcessor.stream_prices_history w
                          (StreamProcessor.Append dest rows)))).
  { destruct (StreamProcessor.environ w "dest_bucket_path_overwrite")
      as [over'|] eqn:Hover.
    2:{ rewrite (proj1 (stream_handler_stops_early _ _ _ _ w event
                          ltac:(intros; congruence))) in Hw. discriminate. }
    destruct (StreamProcessor.environ w "dest_bucket_path")
      as [dest'|] eqn:Hdest.
    2:{ rewrite (proj1 (stream_handler_stops_early _ _ _ _ w event
                          ltac:(intros; congruence))) in Hw. discriminate. }
    destruct (StreamProcessor.athena_tables_exist w) eqn:Htables.
    2:{ rewrite (proj1 (stream_handler_stops_early _ _ _ _ w event
                          ltac:(intros; congruence))) in Hw. discriminate. }
    destruct event as [|m rest].
    { rewrite (proj1 (stream_handler_stops_early _ _ _ _ w []
                        ltac:(intros; congruence))) in Hw. discriminate. }
    destruct (StreamProcessor.collect_paths (m :: rest)) as [paths|e] eqn:Hp.
    2:{ rewrite (proj1 (stream_handler_stops_early _ _ _ _ w (m :: rest)
                          ltac:(intros; congruence))) in Hw. discriminate. }
    destruct (StreamProcessor.s3_read_json w paths) as [[|r raw]|] eqn:Hread.
    1,3: rewrite (proj1 (stream_handler_stops_early _ _ _ _ w (m :: rest)
                           ltac:(intros; congruence))) in Hw; discriminate.
    rewrite (stream_handler_on_rows _ _ _ _ w m rest dest' over' paths r raw
               Hover Hdest Htables Hp Hread) in Hw.
    destruct (StreamProcessor.transform to_numeric to_datetime year_of
                (StreamProcessor.clock w 1) (r :: raw))
      as [[df bad]|e] eqn:Et; [|discriminate].
    cbv zeta in Hw.
    repeat (match type of Hw with
            | context [if ?c then _ else _] => destruct c
            end; try discriminate).
    all: simpl in Hw; inversion Hw; subst; eauto. }
  destruct Hcase as [etl [raw [bad [Et ->]]]].
  pose proof (transform_rows_year _ _ _ _ _ _ _ _ Et Ht) as Hyear.
  set (h := StreamProcessor.stream_prices_history w
              (StreamProcessor.Append dest rows)) in *.
  assert (Hin : In (StreamProcessor.to_history t) (scanned h)).
  { apply filter_In. split; [exact Htable|].
    unfold StreamProcessor.where_p_year. simpl. apply Z.eqb_eq. exact Hyear. }
  destruct (view_row_for_symbol h (StreamProcessor.t_symbol t))
    as [x [Hx [Hs [Hmax Hview]]]].
  { apply in_map_iff. exists (StreamProcessor.to_history t). auto. }
  destruct (LatestViewFacts.scanned_has_timestamp year_of _ x Hx) as [ts Hts].
  exists (project x), ts.
  split; [apply in_map_iff; exists (project x); auto|].
  split; [exact Hs | split; [exact Hts|]].
  specialize (Hmax _ Hin eq_refl).
  unfold StreamProcessor.produced_at_ge in Hmax. simpl in Hmax.
  rewrite Hts in Hmax. exact Hmax.
Qed.

End LatestViewGrowth.

(** ** process_stock_stream_data (without SQS) *)

Section StreamHandlerWithoutSQS.

Variable to_numeric : cell -> numeric.
Variable to_datetime : list cell -> nat -> option Z.
Variable year_of : Z -> Z.
Variable order_by_produced_at_desc :
  list StreamProcessor.history_row -> list StreamProcessor.history_row.

Local Abbreviation sqs_handler :=
  (StreamProcessor.process_stock_stream_data
     to_numeric to_datetime year_of order_by_produced_at_desc).
Local Abbreviation s3_handler :=
  (StreamProcessorS3.process_stock_stream_data
     to_numeric to_datetime year_of order_by_produced_at_desc).

(** X22. Every dict the handler without SQS returns has the three fields:
    it has no [no_messages] exit. *)
Lemma s3_result_has_three_fields w event d :
  StreamProcessor.result (s3_handler w event) = Returned d ->
  (dict_get d "status" = Some (PyStr "success")
   \/ dict_get d "status" = Some (PyStr "success with warning"))
  /\ (exists n, dict_get d "records_appended" = Some (PyInt n))
  /\ (exists x, dict_get d "duration_seconds" = Some (PyFloat x)).
Proof.
  unfold StreamProcessorS3.process_stock_stream_data.
  repeat match goal with
         | |- context [match ?x with _ => _ end] => destruct x
         end;
    simpl; intros E; inversion E; subst; simpl;
    (split; [auto | split; eexists; reflexivity]).
Qed.

(** X23. With the destinations set and the tables reachable, the handler
    without SQS on an S3 notification does what the SQS handler does on one
    message announcing that one file, in worlds that differ only in how the
    read is addressed. *)
Lemma s3_handler_agrees_with_sqs_handler
    (w : StreamProcessor.world) (w' : StreamProcessorS3.world)
    (bucket key dest over : string)
    (rest : list StreamProcessorS3.s3_record) :
  StreamProcessorS3.environ w' = StreamProcessor.environ w ->
  StreamProcessorS3.athena_tables_exist w'
  = StreamProcessor.athena_tables_exist w ->
  StreamProcessorS3.stream_prices_history w'
  = StreamProcessor.stream_prices_history w ->
  StreamProcessorS3.athena_query_ok w' = StreamProcessor.athena_query_ok w ->
  StreamProcessorS3.s3_to_parquet w' = StreamProcessor.s3_to_parquet w ->
  StreamProcessorS3.clock w' = StreamProcessor.clock w ->
  StreamProcessorS3.s3_read_json w' (s3_uri bucket key)
  = StreamProcessor.s3_read_json w [s3_uri bucket key] ->
  StreamProcessor.environ w "dest_bucket_path_overwrite" = Some over ->
  StreamProcessor.environ w "dest_bucket_path" = Some dest ->
  StreamProcessor.athena_tables_exist w = true ->
  s3_handler w' (StreamProcessorS3.mks3 bucket key :: rest)
  = sqs_handler w
      [StreamProcessor.mkmessage
         (Some (StreamProcessor.mkbody None
                  (Some [StreamProcessor.mkfile bucket key])))].
Proof.
  intros Henv Ht Hh Hq Hp Hc Hread Hover Hdest Htables.
  unfold StreamProcessorS3.process_stock_stream_data,
    StreamProcessor.process_stock_stream_data.
  rewrite Henv, Ht, Hh, Hq, Hp, Hc, Hover, Hdest, Htables.
  cbn [StreamProcessorS3.bucket_name StreamProcessorS3.object_key
       StreamProcessor.collect_paths StreamProcessor.body
       StreamProcessor.Event StreamProcessor.Records option_eqb map List.app
       StreamProcessor.bucket_name StreamProcessor.object_key negb].
  rewrite Hread.
  destruct (StreamProcessor.s3_read_json w [s3_uri bucket key]); reflexivity.
Qed.

End StreamHandlerWithoutSQS.

(** ** The generators: dates, samples and what is published *)

(** Every offset the batch generator can draw gives a calendar date of
    2022-2024 before the last day of 2024, [n] days after the first, whose
    text has ten characters. *)
Lemma offsets_give_dates_in_range (n : Z) :
  0 <= n < 1095 ->
  let d := add_days BatchGenerator.date_1 n in
  toordinal d = toordinal BatchGenerator.date_1 + n
  /\ toordinal d < toordinal BatchGenerator.date_2
  /\ 2022 <= year d <= 2024 /\ 1 <= month d <= 12 /\ 1 <= day d <= 31
  /\ String.length (strftime_Ymd d) = 10%nat.
Proof.
  intros Hn.
  assert (Hall :
    forallb (fun i =>
               let n := Z.of_nat i in
               let d := add_days BatchGenerator.date_1 n in
               (toordinal d =? toordinal BatchGenerator.date_1 + n)
               && (toordinal d <? toordinal BatchGenerator.date_2)
               && (2022 <=? year d) && (year d <=? 2024)
               && (1 <=? month d) && (month d <=? 12)
               && (1 <=? day d) && (day d <=? 31)
               && (String.length (strftime_Ymd d) =? 10)%nat)
            (seq 0 1095) = true) by (vm_compute; reflexivity).
  rewrite forallb_forall in Hall.
  specialize (Hall (Z.to_nat n)).
  rewrite Z2Nat.id in Hall by lia.
  assert (Hin : In (Z.to_nat n) (seq 0 1095)) by (apply in_seq; lia).
  specialize (Hall Hin). cbv zeta in Hall.
  rewrite !andb_true_iff in Hall.
  destruct Hall as [[[[[[[[H1 H2] H3] H4] H5] H6] H7] H8] H9].
  apply Z.eqb_eq in H1. apply Z.ltb_lt in H2.
  apply Z.leb_le in H3, H4, H5, H6, H7, H8. apply Nat.eqb_eq in H9.
  cbv zeta. repeat split; assumption.
Qed.

(** X24. The batch generator stamps all its rows with one date, a calendar
    date from 2022-01-01 to 2024-12-30: the last day of the interval,
    2024-12-31, is never drawn. *)
Lemma batch_date_in_range (st : state) :
  exists df st' d,
    BatchGenerator.data_frame st = (Returned df, st')
    /\ (forall r, In r df -> BatchGenerator.date r = strftime_Ymd d)
    /\ toordinal BatchGenerator.date_1 <= toordinal d
       < toordinal BatchGenerator.date_2
    /\ 2022 <= year d <= 2024 /\ 1 <= month d <= 12 /\ 1 <= day d <= 31
    /\ String.length (strftime_Ymd d) = 10%nat.
Proof.
  destruct (data_frame_returns st) as [df [st' [E [_ Hd]]]].
  exists df, st', (add_days BatchGenerator.date_1 (draws st (drawn st) mod 1095)).
  pose proof (Z.mod_pos_bound (draws st (drawn st)) 1095 ltac:(lia)) as Hn.
  destruct (offsets_give_dates_in_range _ Hn) as [H1 [H2 [H3 [H4 [H5 H6]]]]].
  split; [exact E | split; [exact Hd|]].
  split; [lia|]. auto.
Qed.

(** *** The sample has no repetition *)

Lemma firstn_snoc_nth {A} (l : list A) (a : nat) (y : A) :
  nth_error l a = Some y -> firstn (S a) l = (firstn a l ++ [y])%list.
Proof.
  revert a. induction l as [|x l IH]; intros [|a] H; simpl in *;
    try discriminate.
  - inversion H. reflexivity.
  - rewrite (IH a H). reflexivity.
Qed.

Lemma firstn_list_set_beyond {A} (l : list A) (a j : nat) (y : A) :
  (a <= j)%nat -> firstn a (list_set j y l) = firstn a l.
Proof.
  revert a j. induction l as [|x l IH]; intros [|a] [|j] H; simpl;
    try reflexivity; try lia.
  rewrite IH by lia. reflexivity.
Qed.

Lemma firstn_list_set_within {A} (l : list A) (a j : nat) (y : A) :
  (j < a)%nat -> firstn a (list_set j y l) = list_set j y (firstn a l).
Proof.
  revert a j. induction l as [|x l IH]; intros [|a] [|j] H; simpl;
    try reflexivity; try lia.
  rewrite IH by lia. reflexivity.
Qed.

Lemma nth_error_firstn_within {A} (l : list A) (a j : nat) :
  (j < a)%nat -> nth_error (firstn a l) j = nth_error l j.
Proof.
  revert a j. induction l as [|x l IH]; intros [|a] [|j] H; simpl;
    try reflexivity; try lia.
  apply IH. lia.
Qed.

Lemma take_out_and_fill {A} (l : list A) (j : nat) (x y : A) :
  nth_error l j = Some x ->
  Permutation (l ++ [y]) (x :: list_set j y l).
Proof.
  revert j. induction l as [|x0 l IH]; intros [|j] H; simpl in *;
    try discriminate.
  - inversion H; subst. constructor.
    symmetry. apply Permutation_cons_append.
  - rewrite (perm_swap x0 x). constructor. exact (IH j H).
Qed.

Lemma list_set_same {A} (l : list A) (j : nat) (x : A) :
  nth_error l j = Some x -> list_set j x l = l.
Proof.
  revert j. induction l as [|x0 l IH]; intros [|j] H; simpl in *;
    try discriminate.
  - inversion H. reflexivity.
  - rewrite (IH j H). reflexivity.
Qed.

(** One step of the loop of [sample]: the active part of the pool is the
    element taken plus the active part left. *)
Lemma sample_step_permutes {A} (pool : list A) (a j : nat) (x y : A) :
  (j <= a)%nat ->
  nth_error pool j = Some x ->
  nth_error pool a = Some y ->
  Permutation (firstn (S a) pool) (x :: firstn a (list_set j y pool)).
Proof.
  intros Hj Hx Hy. rewrite (firstn_snoc_nth pool a y Hy).
  destruct (Nat.eq_dec j a) as [-> | Hne].
  - assert (x = y) by congruence. subst y.
    rewrite firstn_list_set_beyond by lia.
    symmetry. apply Permutation_cons_append.
  - rewrite firstn_list_set_within by lia.
    apply take_out_and_fill. rewrite nth_error_firstn_within by lia. exact Hx.
Qed.

Lemma sample_pool_no_repetition {A} (k : nat) :
  forall (pool : list A) (active : nat) (st : state),
    (k <= active)%nat -> (active <= List.length pool)%nat ->
    NoDup (firstn active pool) ->
    exists res st',
      sample_pool pool active k st = (Returned res, st')
      /\ List.length res = k
      /\ NoDup res
      /\ forall x, In x res -> In x (firstn active pool).
Proof.
  induction k as [|k IH]; intros pool active st Hk Ha Hnd; simpl.
  - exists [], st. repeat split; [constructor | intros x []].
  - unfold bind at 1, _randbelow at 1.
    set (j := draws st (drawn st) mod Z.of_nat active).
    assert (Hj : 0 <= j < Z.of_nat active)
      by (apply Z.mod_pos_bound; lia).
    destruct (nth_error pool (Z.to_nat j)) as [x|] eqn:Ex;
      [|apply nth_error_None in Ex; lia].
    destruct (nth_error pool (active - 1)) as [y|] eqn:Ey;
      [|apply nth_error_None in Ey; lia].
    assert (Hperm : Permutation (firstn active pool)
                      (x :: firstn (active - 1)
                                   (list_set (Z.to_nat j) y pool))).
    { replace active with (S (active - 1)) at 1 by lia.
      apply sample_step_permutes; [lia | exact Ex | exact Ey]. }
    pose proof (Permutation_NoDup Hperm Hnd) as Hnd'.
    apply NoDup_cons_iff in Hnd' as [Hfresh Hnd'].
    destruct (IH (list_set (Z.to_nat j) y pool) (active - 1)%nat
                 (mkstate (draws st) (S (drawn st)) (readings st) (read st)))
      as [res [st' [E [Hlen [Hres Hin]]]]];
      [lia | rewrite list_set_length; lia | exact Hnd' |].
    exists (x :: res), st'. unfold bind. rewrite E. simpl.
    split; [reflexivity | split; [congruence|]]. split.
    + constructor; [intros Hx; apply Hfresh; auto | exact Hres].
    + intros z [<- | Hz].
      * apply (Permutation_in _ (Permutation_sym Hperm)). now left.
      * apply (Permutation_in _ (Permutation_sym Hperm)). right. auto.
Qed.

Lemma injective_on_nodup_map {A B} (f : A -> B) (l : list A) :
  NoDup (map f l) ->
  forall x y, In x l -> In y l -> f x = f y -> x = y.
Proof.
  induction l as [|a l IH]; simpl; intros Hnd x y Hx Hy E; [destruct Hx|].
  apply NoDup_cons_iff in Hnd as [Hfresh Hnd].
  destruct Hx as [<- | Hx], Hy as [<- | Hy]; auto.
  - exfalso. apply Hfresh. rewrite E. now apply in_map.
  - exfalso. apply Hfresh. rewrite <- E. now apply in_map.
Qed.

Lemma nodup_map_of_sublist {A B} (f : A -> B) (l res : list A) :
  NoDup (map f l) -> NoDup res -> (forall x, In x res -> In x l) ->
  NoDup (map f res).
Proof.
  intros Hl. induction res as [|a res IH]; simpl; intros Hres Hin;
    [constructor|].
  apply NoDup_cons_iff in Hres as [Hfresh Hres].
  constructor; [|apply IH; auto].
  intros Hfa. apply in_map_iff in Hfa as [b [E Hb]].
  assert (b = a) by (apply (injective_on_nodup_map f l Hl); auto).
  subst b. auto.
Qed.

Lemma prices_from_tape_symbols tape first table :
  map fst (prices_from_tape tape first table) = map fst table.
Proof.
  revert first. induction table as [|[k ref] table IH]; intros first; simpl;
    [reflexivity | rewrite IH; reflexivity].
Qed.

(** X25. One call of [create_stock_market_data] returns between 5 and 15
    records, all for symbols of the table, and no two for the same
    symbol. *)
Lemma stock_market_data_is_a_sample (st : state) :
  exists records st',
    StreamProducer.create_stock_market_data st = (Returned records, st')
    /\ (5 <= List.length records <= 15)%nat
    /\ NoDup (map StreamProducer.symbol records)
    /\ forall r, In r records ->
                 In (StreamProducer.symbol r) (map fst companies_price).
Proof.
  unfold StreamProducer.create_stock_market_data.
  destruct (stock_data_loop_returns companies_price st table_ranges_not_empty)
    as [stock_data [st1 [E [Hp [Hl _]]]]].
  assert (Hsym : map StreamProducer.symbol stock_data
                 = map fst companies_price).
  { apply (f_equal (map fst)) in Hp. rewrite map_map in Hp.
    rewrite prices_from_tape_symbols in Hp. exact Hp. }
  assert (Hnd : NoDup (map StreamProducer.symbol stock_data)).
  { rewrite Hsym.
    assert (Hd : nodup string_dec (map fst companies_price)
                 = map fst companies_price) by (vm_compute; reflexivity).
    rewrite <- Hd. apply NoDup_nodup. }
  unfold bind at 1. rewrite E.
  unfold bind at 1. rewrite (randrange_returns 5 16 st1) by lia.
  unfold ret. unfold sample.
  pose proof (Z.mod_pos_bound (draws st1 (drawn st1)) (16 - 5) ltac:(lia))
    as Hk.
  change (List.length companies_price) with 16%nat in Hl.
  rewrite Hl.
  destruct ((0 <=? 5 + draws st1 (drawn st1) mod (16 - 5))
            && (5 + draws st1 (drawn st1) mod (16 - 5) <=? Z.of_nat 16)) eqn:Eb.
  2:{ apply andb_false_iff in Eb as [Eb | Eb]; apply Z.leb_gt in Eb; lia. }
  destruct (sample_pool_no_repetition
              (Z.to_nat (5 + draws st1 (drawn st1) mod (16 - 5)))
              stock_data 16
              (mkstate (draws st1) (S (drawn st1)) (readings st1) (read st1)))
    as [records [st' [Es [Hlen [Hres Hin]]]]].
  - lia.
  - lia.
  - rewrite <- Hl, firstn_all. exact (NoDup_map_inv _ _ Hnd).
  - rewrite <- Hl, firstn_all in Hin.
    exists records, st'. split; [exact Es|]. split; [lia|]. split.
    + exact (nodup_map_of_sublist _ _ _ Hnd Hres Hin).
    + intros r Hr. rewrite <- Hsym. apply in_map. auto.
Qed.

(** *** Timestamps and what is published *)

Lemma stock_data_loop_timestamps table :
  forall st records st',
    StreamProducer.stock_data_loop table st = (Returned records, st') ->
    forall r, In r records ->
      exists i, (i < List.length table)%nat
                /\ StreamProducer.produced_at r
                   = strftime_Ymd_HMS (readings st (read st + i)%nat).
Proof.
  induction table as [|[k ref] table IH]; simpl; intros st records st' E r Hr.
  - inversion E; subst. destruct Hr.
  - unfold bind at 1 in E. unfold randrange in E.
    destruct (0 <? max_price ref - min_price ref); [|discriminate].
    unfold bind at 1, _randbelow, ret in E.
    unfold bind at 1, now in E. cbn [read readings draws drawn] in E.
    unfold bind in E.
    destruct (StreamProducer.stock_data_loop table
                (mkstate (draws st) (S (drawn st)) (readings st) (S (read st))))
      as [[rest|e] st1] eqn:El; [|discriminate].
    inversion E; subst; clear E. destruct Hr as [<- | Hr].
    + exists 0%nat. rewrite Nat.add_0_r. split; [lia | reflexivity].
    + destruct (IH _ _ _ El r Hr) as [i [Hi Hp]]. simpl in Hp.
      exists (S i). rewrite Nat.add_succ_r. split; [lia | exact Hp].
Qed.

(** X26. When the sixteen readings of the clock that one call makes give the
    same text to the second, all the records of the call carry that text as
    [produced_at]. *)
Lemma produced_at_shared_within_a_second (st : state) (s : string) :
  (forall i, (i < 16)%nat ->
             strftime_Ymd_HMS (readings st (read st + i)%nat) = s) ->
  exists records st',
    StreamProducer.create_stock_market_data st = (Returned records, st')
    /\ forall r, In r records -> StreamProducer.produced_at r = s.
Proof.
  intros Hclock. unfold StreamProducer.create_stock_market_data.
  destruct (stock_data_loop_returns companies_price st table_ranges_not_empty)
    as [stock_data [st1 [E [_ [Hl _]]]]].
  unfold bind at 1. rewrite E.
  unfold bind at 1. rewrite (randrange_returns 5 16 st1) by lia.
  unfold ret.
  destruct (sample_returns stock_data
              (5 + draws st1 (drawn st1) mod (16 - 5))
              (mkstate (draws st1) (S (drawn st1)) (readings st1) (read st1)))
    as [records [st' [Es [_ Hin]]]].
  { pose proof (Z.mod_pos_bound (draws st1 (drawn st1)) (16 - 5)
                  ltac:(lia)) as Hk.
    rewrite Hl. change (List.length companies_price) with 16%nat. lia. }
  exists records, st'. split; [exact Es|].
  intros r Hr.
  destruct (stock_data_loop_timestamps _ _ _ _ E r (Hin r Hr)) as [i [Hi Hp]].
  rewrite Hp. apply Hclock. exact Hi.
Qed.

Lemma create_stock_market_data_returns (st : state) :
  exists records st',
    StreamProducer.create_stock_market_data st = (Returned records, st').
Proof.
  unfold StreamProducer.create_stock_market_data.
  destruct (stock_data_loop_returns companies_price st table_ranges_not_empty)
    as [stock_data [st1 [E [_ [Hl _]]]]].
  unfold bind at 1. rewrite E.
  unfold bind at 1. rewrite (randrange_returns 5 16 st1) by lia.
  unfold ret.
  destruct (sample_returns stock_data
              (5 + draws st1 (drawn st1) mod (16 - 5))
              (mkstate (draws st1) (S (drawn st1)) (readings st1) (read st1)))
    as [records [st' [Es _]]].
  { pose proof (Z.mod_pos_bound (draws st1 (drawn st1)) (16 - 5)
                  ltac:(lia)) as Hk.
    rewrite Hl. change (List.length companies_price) with 16%nat. lia. }
  eauto.
Qed.

(** X27. [write_records_to_stream] hands the sample to [put_records] in one
    call, each record keyed by its symbol.  When the call answers, the
    function returns its [FailedRecordCount] and, as [SuccessRecordCount],
    the number of records handed over, whatever the answer says; when the
    call raises, so does the function. *)
Lemma stream_publishes_the_sample
    (records : list pydict) (event : pydict) (context : option pyvalue)
    (w : StreamProducer.world) (st : state) :
  exists recs st1,
    StreamProducer.create_stock_market_data st = (Returned recs, st1)
    /\ StreamProducer.published
         (StreamProducer.write_records_to_stream records event context w st)
       = [(map StreamProducer.encode recs, StreamProducer.stream_name w)]
    /\ map StreamProducer.PartitionKey (map StreamProducer.encode recs)
       = map StreamProducer.symbol recs
    /\ (forall failed,
          StreamProducer.put_records w (map StreamProducer.encode recs)
                                     (StreamProducer.stream_name w)
          = Some failed ->
          StreamProducer.result
            (StreamProducer.write_records_to_stream records event context w st)
          = Returned [("FailedRecordCount", PyInt failed);
                      ("SuccessRecordCount",
                       PyInt (Z.of_nat (List.length recs)))])
    /\ (StreamProducer.put_records w (map StreamProducer.encode recs)
                                   (StreamProducer.stream_name w) = None ->
        exists e,
          StreamProducer.result
            (StreamProducer.write_records_to_stream records event context w st)
          = Raised e).
Proof.
  destruct (create_stock_market_data_returns st) as [recs [st1 E]].
  exists recs, st1. split; [exact E|].
  unfold StreamProducer.write_records_to_stream. rewrite E.
  destruct (StreamProducer.put_records w (map StreamProducer.encode recs)
              (StreamProducer.stream_name w)) as [failed|]; simpl.
  - split; [reflexivity|]. split; [rewrite map_map; reflexivity|].
    split; [intros f Ef; inversion Ef; reflexivity | discriminate].
  - split; [reflexivity|]. split; [rewrite map_map; reflexivity|].
    split; [discriminate | eauto].
Qed.

Lemma closing_prices_leaves_clock random_date table :
  forall st df st',
    BatchGenerator.closing_prices random_date table st = (Returned df, st') ->
    readings st' = readings st /\ read st' = read st.
Proof.
  induction table as [|[k [lo hi]] table IH]; simpl; intros st df st' E.
  - inversion E; subst. auto.
  - unfold bind at 1 in E. unfold randrange in E.
    destruct (0 <? hi - lo); [|discriminate].
    unfold bind at 1, _randbelow, ret in E. unfold bind in E.
    destruct (BatchGenerator.closing_prices random_date table
                (mkstate (draws st) (S (drawn st)) (readings st) (read st)))
      as [[rows|e] st1] eqn:El; [|discriminate].
    inversion E; subst; clear E.
    destruct (IH _ _ _ El) as [H1 H2]. simpl in *. auto.
Qed.

Lemma data_frame_leaves_clock st df st' :
  BatchGenerator.data_frame st = (Returned df, st') ->
  readings st' = readings st /\ read st' = read st.
Proof.
  unfold BatchGenerator.data_frame, BatchGenerator.random_date.
  change (toordinal BatchGenerator.date_2 - toordinal BatchGenerator.date_1)
    with 1095.
  unfold bind at 1 2. rewrite (randrange_returns 0 1095 st) by lia.
  unfold ret. intros E.
  destruct (closing_prices_leaves_clock _ _ _ _ _ E) as [H1 H2].
  simpl in *. auto.
Qed.

(** X28. The batch generator raises and writes nothing when
    [dest_bucket_path] is not set; otherwise it attempts exactly one
    [to_csv], of one row per company of the table in the table's order, at
    the destination followed by the reading of the clock as fourteen digits
    and [.csv], and it returns exactly when that write succeeds. *)
Lemma batch_generator_writes_one_file
    (w : BatchGenerator.world) (st : state) :
  match BatchGenerator.environ w "dest_bucket_path" with
  | None =>
      (exists e, BatchGenerator.result
                   (BatchGenerator.generate_stock_batch_data w st) = Raised e)
      /\ BatchGenerator.writes (BatchGenerator.generate_stock_batch_data w st)
         = []
  | Some dest =>
      exists df,
        BatchGenerator.writes (BatchGenerator.generate_stock_batch_data w st)
        = [BatchGenerator.mkwrite
             (dest ++ strftime_YmdHMS (readings st (read st)) ++ ".csv") df]
        /\ map BatchGenerator.company df = map fst companies_price
        /\ (BatchGenerator.result
              (BatchGenerator.generate_stock_batch_data w st) = Returned PyNone
            <-> BatchGenerator.s3_to_csv w
                  (BatchGenerator.mkwrite
                     (dest ++ strftime_YmdHMS (readings st (read st)) ++ ".csv")
                     df) = true)
  end.
Proof.
  destruct (data_frame_returns st) as [df [st' [E [Hp _]]]].
  destruct (data_frame_leaves_clock _ _ _ E) as [H1 H2].
  assert (Hrun :
    BatchGenerator.generate_stock_batch_data w st
    = match BatchGenerator.environ w "dest_bucket_path" with
      | None => BatchGenerator.mkrun (Raised "KeyError") []
      | Some dest =>
          if BatchGenerator.s3_to_csv w
               (BatchGenerator.mkwrite
                  (dest ++ strftime_YmdHMS (readings st (read st)) ++ ".csv")
                  df)
          then BatchGenerator.mkrun (Returned PyNone)
                 [BatchGenerator.mkwrite
                    (dest ++ strftime_YmdHMS (readings st (read st)) ++ ".csv")
                    df]
          else BatchGenerator.mkrun (Raised "to_csv")
                 [BatchGenerator.mkwrite
                    (dest ++ strftime_YmdHMS (readings st (read st)) ++ ".csv")
                    df]
      end).
  { unfold BatchGenerator.generate_stock_batch_data.
    unfold bind at 1. rewrite E. unfold bind, now, ret. rewrite H1, H2.
    reflexivity. }
  rewrite Hrun. clear Hrun.
  destruct (BatchGenerator.environ w "dest_bucket_path") as [dest|].
  - exists df.
    assert (Hc : map BatchGenerator.company df = map fst companies_price).
    { apply (f_equal (map fst)) in Hp. rewrite map_map in Hp.
      rewrite prices_from_tape_symbols in Hp. exact Hp. }
    set (wr := BatchGenerator.mkwrite
                 (dest ++ strftime_YmdHMS (readings st (read st)) ++ ".csv")
                 df).
    destruct (BatchGenerator.s3_to_csv w wr) eqn:Hw;
      cbn [BatchGenerator.result BatchGenerator.writes].
    + split; [reflexivity | split; [exact Hc|]].
      split; intros _; reflexivity.
    + split; [reflexivity | split; [exact Hc|]].
      split; [discriminate | intros H; discriminate].
  - cbn [BatchGenerator.result BatchGenerator.writes]. eauto.
Qed.

(** ** The further properties on the sample inputs *)

Lemma batch_result_has_three_fields_witness :
  let d := [("status", PyStr "success"); ("records_appended", PyInt 1);
            ("duration_seconds", PyFloat 2)] in
  (dict_get d "status" = Some (PyStr "success")
   \/ dict_get d "status" = Some (PyStr "success with warning"))
  /\ (exists n, dict_get d "records_appended" = Some (PyInt n))
  /\ (exists x, dict_get d "duration_seconds" = Some (PyFloat x)).
Proof.
  exact (batch_result_has_three_fields
           Examples.to_numeric Examples.to_datetime_date
           (Examples.batch_world [Examples.aapl_csv] []) Examples.batch_event
           _ eq_refl).
Defined.

Lemma batch_writes_once_and_never_empty_witness :
  let run := BatchProcessor.process_batch_files_lambda
               Examples.to_numeric Examples.to_datetime_date
               (Examples.batch_world [Examples.aapl_csv] [])
               Examples.batch_event in
  let wr := BatchProcessor.mkwrite "s3://stock/price_by_date/"
                                   [Examples.aapl_persisted] in
  BatchProcessor.writes run = [wr]
  /\ BatchProcessor.environ (Examples.batch_world [Examples.aapl_csv] [])
                            "dest_bucket_path"
     = Some (BatchProcessor.write_path wr)
  /\ BatchProcessor.write_rows wr <> [].
Proof.
  exact (batch_writes_once_and_never_empty
           Examples.to_numeric Examples.to_datetime_date
           (Examples.batch_world [Examples.aapl_csv] []) Examples.batch_event
           (BatchProcessor.mkwrite "s3://stock/price_by_date/"
                                   [Examples.aapl_persisted])
           (or_introl eq_refl)).
Defined.

Lemma batch_fails_fast_witness :
  let run := BatchProcessor.process_batch_files_lambda
               Examples.to_numeric Examples.to_datetime_date
               Examples.bare_batch_world Examples.batch_event in
  (exists e, BatchProcessor.result run = Raised e)
  /\ BatchProcessor.writes run = [].
Proof.
  exact (batch_fails_fast
           Examples.to_numeric Examples.to_datetime_date
           Examples.bare_batch_world
           (BatchProcessor.mks3 "stock-staging" "stg_price_by_date/20240101.csv")
           [] (or_introl eq_refl)).
Defined.

Lemma batch_summary_counts_written_rows_witness :
  let w := Examples.batch_world [Examples.aapl_csv] [] in
  let d := [("status", PyStr "success"); ("records_appended", PyInt 1);
            ("duration_seconds", PyFloat 2)] in
  let written :=
    flat_map BatchProcessor.write_rows
      (BatchProcessor.writes
         (BatchProcessor.process_batch_files_lambda
            Examples.to_numeric Examples.to_datetime_date w
            Examples.batch_event)) in
  dict_get d "records_appended" = Some (PyInt (Z.of_nat (List.length written)))
  /\ (dict_get d "status" = Some (PyStr "success")
      <-> [Examples.aapl_csv] <> []
          /\ List.length written = List.length [Examples.aapl_csv]).
Proof.
  exact (batch_summary_counts_written_rows
           Examples.to_numeric Examples.to_datetime_date
           (Examples.batch_world [Examples.aapl_csv] [])
           (BatchProcessor.mks3 "stock-staging" "stg_price_by_date/20240101.csv")
           [] "s3://stock/price_by_date/" [Examples.aapl_csv] _
           eq_refl eq_refl eq_refl).
Defined.

Lemma handler_writes_the_delta_witness :
  BatchProcessor.writes
    (BatchProcessor.process_batch_files_lambda
       Examples.to_numeric Examples.to_datetime_date
       (Examples.batch_world [Examples.aapl_csv] []) Examples.batch_event)
  = [BatchProcessor.mkwrite "s3://stock/price_by_date/"
       (BatchProcessor.with_p_year
          (BatchProcessor.new_records [Examples.aapl] []))].
Proof.
  apply (handler_writes_the_delta
           Examples.to_numeric Examples.to_datetime_date
           (Examples.batch_world [Examples.aapl_csv] [])
           (BatchProcessor.mks3 "stock-staging" "stg_price_by_date/20240101.csv")
           [] "s3://stock/price_by_date/" [Examples.aapl_csv]
           [Examples.aapl] 0%nat []);
    try reflexivity.
  discriminate.
Defined.

Lemma batch_handler_second_run_appends_nothing_witness :
  let w' := Examples.batch_world [Examples.aapl_csv]
                                 [Examples.aapl_persisted] in
  let run := BatchProcessor.process_batch_files_lambda
               Examples.to_numeric Examples.to_datetime_date w'
               Examples.batch_event in
  BatchProcessor.writes run = []
  /\ BatchProcessor.result run
     = Returned (BatchProcessor.summary "success with warning" 0
                   (round_seconds (BatchProcessor.clock w' 1
                                   - BatchProcessor.clock w' 0))).
Proof.
  apply (batch_handler_second_run_appends_nothing
           Examples.to_numeric Examples.to_datetime_date
           (Examples.batch_world [Examples.aapl_csv] [])
           (Examples.batch_world [Examples.aapl_csv] [Examples.aapl_persisted])
           (BatchProcessor.mks3 "stock-staging" "stg_price_by_date/20240101.csv")
           [] "s3://stock/price_by_date/" "s3://stock/price_by_date/"
           [Examples.aapl_csv] []
           [("status", PyStr "success"); ("records_appended", PyInt 1);
            ("duration_seconds", PyFloat 2)]);
    try reflexivity.
  intros s [].
Defined.

Lemma stream_result_has_three_fields_witness :
  let d := [("status", PyStr "success with warning");
            ("records_appended", PyInt 1); ("duration_seconds", PyFloat 4)] in
  (dict_get d "status" = Some (PyStr "success")
   \/ dict_get d "status" = Some (PyStr "success with warning"))
  /\ (exists n, dict_get d "records_appended" = Some (PyInt n))
  /\ (exists x, dict_get d "duration_seconds" = Some (PyFloat x)).
Proof.
  apply (stream_result_has_three_fields
           Examples.to_numeric Examples.to_datetime Examples.year_of
           Examples.order_by_produced_at_desc
           (Examples.stream_world_reading
              [Examples.nvda_json; Examples.both_bad_json] Examples.history)
           [Examples.one_file_message]);
    [discriminate | reflexivity].
Defined.

Lemma transform_rows_are_partitioned_witness :
  let t := Examples.nvda_tick 0 in
  StreamProcessor.t_p_year t
  = Examples.year_of (StreamProcessor.t_produced_at t)
  /\ StreamProcessor.t_etl_loading_ts t = 0
  /\ exists r, In r [Examples.nvda_json; Examples.both_bad_json]
               /\ StreamProcessor.t_symbol t = StreamProcessor.j_symbol r
               /\ Examples.to_numeric (StreamProcessor.j_price r)
                  = Finite (StreamProcessor.t_price t).
Proof.
  exact (transform_rows_are_partitioned
           Examples.to_numeric Examples.to_datetime Examples.year_of 0
           [Examples.nvda_json; Examples.both_bad_json]
           [Examples.nvda_tick 0] 1%nat (Examples.nvda_tick 0)
           eq_refl (or_introl eq_refl)).
Defined.

Lemma stream_fails_fast_witness :
  let run := StreamProcessor.process_stock_stream_data
               Examples.to_numeric Examples.to_datetime Examples.year_of
               Examples.order_by_produced_at_desc
               Examples.bare_stream_world [Examples.one_file_message] in
  (exists e, StreamProcessor.result run = Raised e)
  /\ StreamProcessor.writes run = [].
Proof.
  exact (stream_fails_fast
           Examples.to_numeric Examples.to_datetime Examples.year_of
           Examples.order_by_produced_at_desc
           Examples.bare_stream_world [Examples.one_file_message]
           (or_introl eq_refl)).
Defined.

Lemma stream_appends_even_an_empty_frame_witness :
  exists rest,
    StreamProcessor.writes
      (StreamProcessor.process_stock_stream_data
         Examples.to_numeric Examples.to_datetime Examples.year_of
         Examples.order_by_produced_at_desc
         (Examples.stream_world_reading [Examples.both_bad_json]
                                        Examples.history)
         [Examples.one_file_message])
    = StreamProcessor.Append "s3://stock/price_by_date_stream/" [] :: rest.
Proof.
  apply (stream_appends_even_an_empty_frame
           Examples.to_numeric Examples.to_datetime Examples.year_of
           Examples.order_by_produced_at_desc
           (Examples.stream_world_reading [Examples.both_bad_json]
                                          Examples.history)
           Examples.one_file_message [] "s3://stock/price_by_date_stream/"
           "s3://stock/latest_stream_prices/"
           ["s3://stock-stream/2025/01/25/ticks"]
           Examples.both_bad_json []);
    try reflexivity.
  intros x [<- | []]. reflexivity.
Defined.

Lemma stream_summary_counts_appended_rows_witness :
  let d := [("status", PyStr "success with warning");
            ("records_appended", PyInt 1); ("duration_seconds", PyFloat 4)] in
  exists rows view,
    StreamProcessor.writes
      (StreamProcessor.process_stock_stream_data
         Examples.to_numeric Examples.to_datetime Examples.year_of
         Examples.order_by_produced_at_desc
         (Examples.stream_world_reading
            [Examples.nvda_json; Examples.both_bad_json] Examples.history)
         [Examples.one_file_message])
    = [StreamProcessor.Append "s3://stock/price_by_date_stream/" rows;
       StreamProcessor.Overwrite "s3://stock/latest_stream_prices/" view]
    /\ dict_get d "records_appended"
       = Some (PyInt (Z.of_nat (List.length rows)))
    /\ (dict_get d "status" = Some (PyStr "success")
        <-> List.length rows
            = List.length [Examples.nvda_json; Examples.both_bad_json]).
Proof.
  apply (stream_summary_counts_appended_rows
           Examples.to_numeric Examples.to_datetime Examples.year_of
           Examples.order_by_produced_at_desc
           (Examples.stream_world_reading
              [Examples.nvda_json; Examples.both_bad_json] Examples.history)
           Examples.one_file_message [] "s3://stock/price_by_date_stream/"
           "s3://stock/latest_stream_prices/"
           ["s3://stock-stream/2025/01/25/ticks"]
           Examples.nvda_json [Examples.both_bad_json]);
    reflexivity.
Defined.

Lemma latest_view_never_goes_back_witness :
  let v := StreamProcessor.mklatest (Some "NVDA") (Some 141)
                                    (Some 1737799260000000000) in
  exists v' t t',
    In v' (StreamProcessor.latest_prices_query
             Examples.year_of Examples.order_by_produced_at_desc
             (Examples.history
              ++ [StreamProcessor.to_history (Examples.nvda_tick 0)])%list)
    /\ StreamProcessor.l_symbol v' = StreamProcessor.l_symbol v
    /\ StreamProcessor.l_produced_at v = Some t
    /\ StreamProcessor.l_produced_at v' = Some t'
    /\ t <= t'.
Proof.
  apply (latest_view_never_goes_back
           Examples.year_of Examples.order_by_produced_at_desc
           LatestViewFacts.examples_order_perm
           LatestViewFacts.examples_order_sorted
           Examples.history
           [StreamProcessor.to_history (Examples.nvda_tick 0)]).
  right. left. reflexivity.
Defined.

Lemma stream_view_covers_appended_rows_witness :
  let w := Examples.stream_world_reading
             [Examples.nvda_json; Examples.both_bad_json] Examples.history in
  exists v ts,
    In (v, StreamProcessor.clock w 1)
       [(StreamProcessor.mklatest (Some "AAPL") (Some 220)
                                  (Some 1737799200000000000), 2000000);
        (StreamProcessor.mklatest (Some "NVDA") (Some 141)
                                  (Some 1737799260000000000), 2000000)]
    /\ StreamProcessor.l_symbol v
       = StreamProcessor.t_symbol (Examples.nvda_tick 2000000)
    /\ StreamProcessor.l_produced_at v = Some ts
    /\ StreamProcessor.t_produced_at (Examples.nvda_tick 2000000) <= ts.
Proof.
  apply (stream_view_covers_appended_rows
           Examples.to_numeric Examples.to_datetime Examples.year_of
           Examples.order_by_produced_at_desc
           LatestViewFacts.examples_order_perm
           LatestViewFacts.examples_order_sorted
           (Examples.stream_world_reading
              [Examples.nvda_json; Examples.both_bad_json] Examples.history)
           [Examples.one_file_message]
           "s3://stock/price_by_date_stream/"
           "s3://stock/latest_stream_prices/"
           [Examples.nvda_tick 2000000]).
  - reflexivity.
  - left. reflexivity.
  - apply in_or_app. right. left. reflexivity.
Defined.

Lemma s3_result_has_three_fields_witness :
  let d := [("status", PyStr "success with warning");
            ("records_appended", PyInt 1); ("duration_seconds", PyFloat 4)] in
  (dict_get d "status" = Some (PyStr "success")
   \/ dict_get d "status" = Some (PyStr "success with warning"))
  /\ (exists n, dict_get d "records_appended" = Some (PyInt n))
  /\ (exists x, dict_get d "duration_seconds" = Some (PyFloat x)).
Proof.
  apply (s3_result_has_three_fields
           Examples.to_numeric Examples.to_datetime Examples.year_of
           Examples.order_by_produced_at_desc
           (Examples.s3_world_reading
              [Examples.nvda_json; Examples.both_bad_json] Examples.history)
           [StreamProcessorS3.mks3 "stock-stream" "2025/01/25/ticks"]).
  reflexivity.
Defined.

Lemma s3_handler_agrees_with_sqs_handler_witness :
  StreamProcessorS3.process_stock_stream_data
    Examples.to_numeric Examples.to_datetime Examples.year_of
    Examples.order_by_produced_at_desc
    (Examples.s3_world_reading
       [Examples.nvda_json; Examples.both_bad_json] Examples.history)
    [StreamProcessorS3.mks3 "stock-stream" "2025/01/25/ticks"]
  = StreamProcessor.process_stock_stream_data
      Examples.to_numeric Examples.to_datetime Examples.year_of
      Examples.order_by_produced_at_desc
      (Examples.stream_world_reading
         [Examples.nvda_json; Examples.both_bad_json] Examples.history)
      [Examples.one_file_message].
Proof.
  apply (s3_handler_agrees_with_sqs_handler
           Examples.to_numeric Examples.to_datetime Examples.year_of
           Examples.order_by_produced_at_desc
           (Examples.stream_world_reading
              [Examples.nvda_json; Examples.both_bad_json] Examples.history)
           (Examples.s3_world_reading
              [Examples.nvda_json; Examples.both_bad_json] Examples.history)
           "stock-stream" "2025/01/25/ticks"
           "s3://stock/price_by_date_stream/"
           "s3://stock/latest_stream_prices/" []);
    reflexivity.
Defined.

Lemma produced_at_shared_within_a_second_witness :
  exists records st',
    StreamProducer.create_stock_market_data Examples.steady
    = (Returned records, st')
    /\ forall r, In r records ->
                 StreamProducer.produced_at r = "2025-01-25 10:00:00".
Proof.
  apply (produced_at_shared_within_a_second Examples.steady
           "2025-01-25 10:00:00").
  intros i _. reflexivity.
Defined.

(** ** The delta against any table, and the rows the processors keep *)

Lemma new_records_one_membership l table r :
  In r (BatchProcessor.new_records [l] table)
  <-> r = l
      /\ ((forall s, In s table -> BatchProcessor.key_match l s = false)
          \/ exists s, In s table /\ BatchProcessor.key_match l s = true
                       /\ BatchProcessor.close_price s = None).
Proof.
  unfold BatchProcessor.new_records, BatchProcessor.select_new_records,
    BatchProcessor.merge_left.
  cbn [flat_map]. rewrite app_nil_r.
  destruct (filter (BatchProcessor.key_match l) table) as [|x xs] eqn:Hf.
  - cbn. split.
    + intros [<- | []]. split; [destruct l; reflexivity|]. left.
      intros s Hs. destruct (BatchProcessor.key_match l s) eqn:E; [|reflexivity].
      assert (Hin : In s (filter (BatchProcessor.key_match l) table))
        by (apply filter_In; auto).
      rewrite Hf in Hin. destruct Hin.
    + intros [-> _]. left. destruct l; reflexivity.
  - rewrite <- Hf. rewrite in_map_iff. split.
    + intros [m [Er Hm]]. apply filter_In in Hm as [Hm Hnull].
      apply in_map_iff in Hm as [s [Es Hs]]. apply filter_In in Hs as [Hs Hk].
      subst m r. simpl in *. split; [destruct l; reflexivity|].
      right. exists s. split; [exact Hs | split; [exact Hk|]].
      destruct (BatchProcessor.close_price s); [discriminate | reflexivity].
    + intros [-> [Hnone | [s [Hs [Hk Hnull]]]]].
      * assert (Hx : In x (filter (BatchProcessor.key_match l) table))
          by (rewrite Hf; now left).
        apply filter_In in Hx as [Hx Hkx]. rewrite (Hnone x Hx) in Hkx.
        discriminate.
      * exists (BatchProcessor.matched l s). split; [destruct l; reflexivity|].
        apply filter_In. split.
        -- apply in_map. apply filter_In. auto.
        -- simpl. rewrite Hnull. reflexivity.
Qed.

(** X8. Against any table, also one with null prices, a row is in the delta
    exactly when it is a row of the cleaned batch and either no row of the
    table has its key or some row of the table with its key has a null
    price. *)
Lemma delta_membership B table r :
  In r (BatchProcessor.new_records B table)
  <-> In r B
      /\ ((forall s, In s table -> BatchProcessor.key_match r s = false)
          \/ exists s, In s table /\ BatchProcessor.key_match r s = true
                       /\ BatchProcessor.close_price s = None).
Proof.
  induction B as [|l B IH].
  - simpl. split; [intros [] | intros [[] _]].
  - rewrite BatchFacts.new_records_cons, in_app_iff, IH,
      new_records_one_membership. simpl. split.
    + intros [[-> H] | [Hin H]]; auto.
    + intros [[<- | Hin] H]; auto.
Qed.

Section BatchCleaning.

Variable to_numeric : cell -> numeric.
Variable to_datetime_date : list cell -> nat -> option date.

Lemma astype_int64_pairs df :
  forall l, BatchProcessor.astype_int64 to_numeric df = Returned l ->
    map fst l = df
    /\ forall r z, In (r, z) l ->
                   to_numeric (BatchProcessor.csv_close_price r) = Finite z.
Proof.
  induction df as [|r df IH]; simpl; intros l E.
  - inversion E. split; [reflexivity | intros r z []].
  - destruct (to_numeric (BatchProcessor.csv_close_price r)) eqn:E0;
      try discriminate.
    destruct (BatchProcessor.astype_int64 to_numeric df) as [rest|];
      [|discriminate].
    inversion E; subst. destruct (IH rest eq_refl) as [H1 H2]. split.
    + simpl. rewrite H1. reflexivity.
    + intros r' z [Eq | Hin]; [inversion Eq; subst; exact E0 | auto].
Qed.

Lemma dropna_date_rows l b :
  In b (BatchProcessor.dropna_date l) ->
  exists r, In (r, BatchProcessor.b_close_price b,
                Some (BatchProcessor.b_date b)) l
            /\ BatchProcessor.b_company b = BatchProcessor.csv_company r.
Proof.
  induction l as [|[[r z] [d|]] l IH]; simpl; intros H.
  - destruct H.
  - destruct H as [<- | H].
    + exists r. simpl. auto.
    + destruct (IH H) as [r' [Hin Hc]]. exists r'. auto.
  - destruct (IH H) as [r' [Hin Hc]]. exists r'. auto.
Qed.

(** X9. Every row of the cleaned batch stands for a row of the file: it has
    that row's company, the integer its price coerced to, and a date; the
    cleaning never invents a row and never keeps one whose price is null or
    infinite. *)
Lemma clean_rows_come_from_file raw cleaned bad b :
  BatchProcessor.clean to_numeric to_datetime_date raw
  = Returned (cleaned, bad) ->
  In b cleaned ->
  exists r, In r raw
            /\ BatchProcessor.b_company b = BatchProcessor.csv_company r
            /\ to_numeric (BatchProcessor.csv_close_price r)
               = Finite (BatchProcessor.b_close_price b).
Proof.
  unfold BatchProcessor.clean.
  destruct (BatchProcessor.astype_int64 to_numeric
              (filter (fun r => negb (BatchProcessor.price_isna to_numeric r))
                      raw)) as [l|e] eqn:El; [|discriminate].
  intros E Hb. inversion E; subst; clear E.
  destruct (astype_int64_pairs _ _ El) as [Hfst Hfin].
  destruct (dropna_date_rows _ _ Hb) as [r [Hin Hc]].
  unfold BatchProcessor.coerce_date in Hin.
  apply in_map_iff in Hin as [[i [r' z']] [Eq Hin]]. simpl in Eq.
  inversion Eq; subst; clear Eq. apply in_combine_r in Hin.
  exists r. split; [|split; [exact Hc | exact (Hfin _ _ Hin)]].
  assert (Hr : In r (map fst l))
    by (apply in_map_iff; exists (r, BatchProcessor.b_close_price b); auto).
  rewrite Hfst in Hr. apply filter_In in Hr. tauto.
Qed.

End BatchCleaning.

Lemma clean_rows_come_from_file_witness :
  exists r, In r [Examples.aapl_csv; Examples.both_bad_csv]
            /\ BatchProcessor.b_company Examples.aapl
               = BatchProcessor.csv_company r
            /\ Examples.to_numeric (BatchProcessor.csv_close_price r)
               = Finite (BatchProcessor.b_close_price Examples.aapl).
Proof.
  exact (clean_rows_come_from_file
           Examples.to_numeric Examples.to_datetime_date
           [Examples.aapl_csv; Examples.both_bad_csv] [Examples.aapl] 1%nat
           Examples.aapl eq_refl (or_introl eq_refl)).
Defined.

Section StreamAppend.

Variable to_numeric : cell -> numeric.
Variable to_datetime : list cell -> nat -> option Z.
Variable year_of : Z -> Z.
Variable order_by_produced_at_desc :
  list StreamProcessor.history_row -> list StreamProcessor.history_row.

(** X19. What the handler appends is the transformation of the rows it read
    from the announced files, all of them: the history table plays no part
    in it. *)
Lemma stream_appends_the_transformed_files w event path rows rest :
  StreamProcessor.writes
    (StreamProcessor.process_stock_stream_data
       to_numeric to_datetime year_of order_by_produced_at_desc w event)
  = StreamProcessor.Append path rows :: rest ->
  exists paths raw bad,
    StreamProcessor.collect_paths event = Returned paths
    /\ StreamProcessor.s3_read_json w paths = Some raw
    /\ StreamProcessor.transform to_numeric to_datetime year_of
         (StreamProcessor.clock w 1) raw = Returned (rows, bad)
    /\ StreamProcessor.environ w "dest_bucket_path" = Some path.
Proof.
  intros Hw.
  destruct (StreamProcessor.environ w "dest_bucket_path_overwrite")
    as [over'|] eqn:Hover.
  2:{ rewrite (proj1 (stream_handler_stops_early _ _ _ _ w event
                        ltac:(intros; congruence))) in Hw. discriminate. }
  destruct (StreamProcessor.environ w "dest_bucket_path")
    as [dest'|] eqn:Hdest.
  2:{ rewrite (proj1 (stream_handler_stops_early _ _ _ _ w event
                        ltac:(intros; congruence))) in Hw. discriminate. }
  destruct (StreamProcessor.athena_tables_exist w) eqn:Htables.
  2:{ rewrite (proj1 (stream_handler_stops_early _ _ _ _ w event
                        ltac:(intros; congruence))) in Hw. discriminate. }
  destruct event as [|m ev].
  { rewrite (proj1 (stream_handler_stops_early _ _ _ _ w []
                      ltac:(intros; congruence))) in Hw. discriminate. }
  destruct (StreamProcessor.collect_paths (m :: ev)) as [paths|e] eqn:Hp.
  2:{ rewrite (proj1 (stream_handler_stops_early _ _ _ _ w (m :: ev)
                        ltac:(intros; congruence))) in Hw. discriminate. }
  destruct (StreamProcessor.s3_read_json w paths) as [[|r raw]|] eqn:Hread.
  1,3: rewrite (proj1 (stream_handler_stops_early _ _ _ _ w (m :: ev)
                         ltac:(intros; congruence))) in Hw; discriminate.
  rewrite (stream_handler_on_rows _ _ _ _ w m ev dest' over' paths r raw
             Hover Hdest Htables Hp Hread) in Hw.
  destruct (StreamProcessor.transform to_numeric to_datetime year_of
              (StreamProcessor.clock w 1) (r :: raw))
    as [[df bad]|e] eqn:Et; [|discriminate].
  cbv zeta in Hw.
  exists paths, (r :: raw), bad.
  repeat (match type of Hw with
          | context [if ?c then _ else _] => destruct c
          end; try discriminate).
  all: simpl in Hw; inversion Hw; subst; auto.
Qed.

End StreamAppend.

Lemma stream_appends_the_transformed_files_witness :
  let w := Examples.stream_world_reading
             [Examples.nvda_json; Examples.both_bad_json] Examples.history in
  exists paths raw bad,
    StreamProcessor.collect_paths [Examples.one_file_message] = Returned paths
    /\ StreamProcessor.s3_read_json w paths = Some raw
    /\ StreamProcessor.transform
         Examples.to_numeric Examples.to_datetime Examples.year_of
         (StreamProcessor.clock w 1) raw
       = Returned ([Examples.nvda_tick 2000000], bad)
    /\ StreamProcessor.environ w "dest_bucket_path"
       = Some "s3://stock/price_by_date_stream/".
Proof.
  eapply (stream_appends_the_transformed_files
            Examples.to_numeric Examples.to_datetime Examples.year_of
            Examples.order_by_produced_at_desc
            (Examples.stream_world_reading
               [Examples.nvda_json; Examples.both_bad_json] Examples.history)
            [Examples.one_file_message]).
  reflexivity.
Defined.
